(** * AI Email and Calendar Assistant: the slot-filling dialogue and its executors

    A shallow embedding of the conversational core of [app.py] and
    [calenderinternal.py]: the [/chat] route with its Schedule, Update and
    Delete flows, the field validators, [parse_datetime], the event lookup
    and suggestion helpers and the action executors
    [delete_event_with_sync], [update_event_with_sync] and [delete_event];
    then the meeting tracker and its synchronisation with the calendar,
    the rule-based mail triage, the configuration route, the request
    validators and the recovery wrappers.

    Modelling conventions.
    - Python [str] is [string] (a sequence of bytes); [lower], [strip],
      [split] and [isdigit] act on the ASCII range.
    - The Flask [session] is a record with one optional field per key;
      [session.clear()] resets every field.
    - A [dict] of field values is a [gmap string (option string)]; the
      inner [None] is Python's [None].
    - Third-party services (Google Calendar, Gmail, the chat model,
      [dateparser], [re], the clock) are the fields of an environment
      record [Env].  A request to a service is logged in a trace and
      answered by the environment, with either a value or an exception.
    - Python exceptions are values of type [exn]; [try]/[except] is
      [try_catch].
    - [datetime] values live on the proleptic Gregorian calendar with an
      unbounded year (Python's MINYEAR/MAXYEAR are not modelled). *)

From Stdlib Require Import ZArith Lia Ascii String.
From stdpp Require Import base option list gmap strings sorting.

Local Open Scope Z_scope.

(** ** Strings *)

Module Str.

Definition is_upper (c : ascii) : bool :=
  let n := nat_of_ascii c in (65 <=? n)%nat && (n <=? 90)%nat.

Definition is_digit (c : ascii) : bool :=
  let n := nat_of_ascii c in (48 <=? n)%nat && (n <=? 57)%nat.

(** [str.isspace] on the ASCII range: TAB..CR, FS..US and the space. *)
Definition is_space (c : ascii) : bool :=
  let n := nat_of_ascii c in
  ((9 <=? n)%nat && (n <=? 13)%nat) || ((28 <=? n)%nat && (n <=? 32)%nat).

Definition lower_char (c : ascii) : ascii :=
  if is_upper c then ascii_of_nat (nat_of_ascii c + 32) else c.

(** [s.lower()] *)
Fixpoint lower (s : string) : string :=
  match s with
  | EmptyString => EmptyString
  | String c s' => String (lower_char c) (lower s')
  end.

(** [needle in hay] *)
Fixpoint contains (needle hay : string) : bool :=
  String.prefix needle hay ||
  match hay with
  | EmptyString => false
  | String _ hay' => contains needle hay'
  end.

Fixpoint lstrip (s : string) : string :=
  match s with
  | String c s' => if is_space c then lstrip s' else s
  | EmptyString => EmptyString
  end.

Definition rstrip (s : string) : string :=
  String.rev (lstrip (String.rev s)).

(** [s.strip()] *)
Definition strip (s : string) : string := rstrip (lstrip s).

(** [s.split()]: the maximal runs of non-whitespace characters. *)
Fixpoint split_go (cur : string) (s : string) : list string :=
  match s with
  | EmptyString => if String.eqb cur "" then [] else [String.rev cur]
  | String c s' =>
      if is_space c
      then (if String.eqb cur "" then [] else [String.rev cur]) ++ split_go "" s'
      else split_go (String c cur) s'
  end.
Definition split (s : string) : list string := split_go "" s.

Fixpoint all_digits (s : string) : bool :=
  match s with
  | EmptyString => true
  | String c s' => is_digit c && all_digits s'
  end.

(** [s.isdigit()] *)
Definition isdigit (s : string) : bool :=
  negb (String.eqb s "") && all_digits s.

Fixpoint int_go (acc : Z) (s : string) : Z :=
  match s with
  | EmptyString => acc
  | String c s' => int_go (10 * acc + (Z.of_nat (nat_of_ascii c) - 48)) s'
  end.

(** [int(s)] for a string of decimal digits *)
Definition int (s : string) : Z := int_go 0 s.

Definition digit (n : Z) : ascii := ascii_of_nat (48 + Z.to_nat (n mod 10)).

(** ["%02d"] and ["%04d"] *)
Definition pad2 (n : Z) : string :=
  String (digit (n / 10)) (String (digit n) EmptyString).
Definition pad4 (n : Z) : string :=
  String (digit (n / 1000)) (String (digit (n / 100)) (pad2 n)).

(** [sep.join(l)] *)
Fixpoint join (sep : string) (l : list string) : string :=
  match l with
  | [] => ""
  | [x] => x
  | x :: l' => x +:+ sep +:+ join sep l'
  end.

Definition newline : string := String (ascii_of_nat 10) EmptyString.

(** Python truthiness of a [str] *)
Definition truthy (s : string) : bool := negb (String.eqb s "").

(** [s.split(c)] for a one-character separator *)
Fixpoint split_char_go (c : ascii) (cur : string) (s : string) : list string :=
  match s with
  | EmptyString => [String.rev cur]
  | String a s' =>
      if Ascii.eqb a c then String.rev cur :: split_char_go c "" s'
      else split_char_go c (String a cur) s'
  end.
Definition split_char (c : ascii) (s : string) : list string := split_char_go c "" s.

(** [s[:n]] *)
Fixpoint take (n : nat) (s : string) : string :=
  match n, s with
  | S n', String a s' => String a (take n' s')
  | _, _ => EmptyString
  end.

(** [s.replace(c, r)] for a one-character [c] *)
Fixpoint replace_char (c : ascii) (r : string) (s : string) : string :=
  match s with
  | EmptyString => EmptyString
  | String a s' =>
      if Ascii.eqb a c then r +:+ replace_char c r s'
      else String a (replace_char c r s')
  end.

End Str.

(** ** Dates and times *)

Record date := mkdate { year : Z; month : Z; day : Z }.

Record datetime := mkdatetime {
  dt_date : date;
  hour : Z;
  minute : Z;
  second : Z;
  microsecond : Z;
  tzinfo : option string
}.

Module Date.

Definition is_leap (y : Z) : bool :=
  (y mod 4 =? 0) && (negb (y mod 100 =? 0) || (y mod 400 =? 0)).

Definition days_in_month (y m : Z) : Z :=
  if m =? 2 then (if is_leap y then 29 else 28)
  else if (m =? 4) || (m =? 6) || (m =? 9) || (m =? 11) then 30
  else 31.

Definition valid (d : date) : Prop :=
  1 <= month d <= 12 /\ 1 <= day d <= days_in_month (year d) (month d).

Definition next_day (d : date) : date :=
  if day d <? days_in_month (year d) (month d)
  then mkdate (year d) (month d) (day d + 1)
  else if month d <? 12 then mkdate (year d) (month d + 1) 1
  else mkdate (year d + 1) 1 1.

Definition prev_day (d : date) : date :=
  if 1 <? day d then mkdate (year d) (month d) (day d - 1)
  else if 1 <? month d
       then mkdate (year d) (month d - 1) (days_in_month (year d) (month d - 1))
  else mkdate (year d - 1) 12 31.

(** [d + timedelta(days=n)] *)
Definition add_days (n : Z) (d : date) : date :=
  if 0 <=? n then Nat.iter (Z.to_nat n) next_day d
  else Nat.iter (Z.to_nat (- n)) prev_day d.

(** [a <= b] on dates *)
Definition leb (a b : date) : bool :=
  (year a <? year b) ||
  ((year a =? year b) &&
   ((month a <? month b) || ((month a =? month b) && (day a <=? day b)))).

(** [str(d)], i.e. [d.isoformat()] *)
Definition isoformat (d : date) : string :=
  Str.pad4 (year d) +:+ "-" +:+ Str.pad2 (month d) +:+ "-" +:+ Str.pad2 (day d).

End Date.

Module DT.

Definition valid (t : datetime) : Prop :=
  Date.valid (dt_date t) /\ 0 <= hour t <= 23 /\ 0 <= minute t <= 59 /\
  0 <= second t <= 59 /\ 0 <= microsecond t <= 999999.

(** [t.date()] *)
Definition date_of (t : datetime) : date := dt_date t.

(** [t + timedelta(days=n)] *)
Definition add_days (n : Z) (t : datetime) : datetime :=
  mkdatetime (Date.add_days n (dt_date t)) (hour t) (minute t) (second t)
             (microsecond t) (tzinfo t).

(** [t + timedelta(hours=1)] *)
Definition add_hour (t : datetime) : datetime :=
  if hour t <? 23
  then mkdatetime (dt_date t) (hour t + 1) (minute t) (second t)
                  (microsecond t) (tzinfo t)
  else mkdatetime (Date.next_day (dt_date t)) 0 (minute t) (second t)
                  (microsecond t) (tzinfo t).

(** [t.replace(hour=h, minute=0, second=0, microsecond=0)] *)
Definition replace_hms (h : Z) (t : datetime) : datetime :=
  mkdatetime (dt_date t) h 0 0 0 (tzinfo t).

(** [t.replace(tzinfo=None)] *)
Definition naive (t : datetime) : datetime :=
  mkdatetime (dt_date t) (hour t) (minute t) (second t) (microsecond t) None.

(** [pytz.timezone(tz).localize(t)] for a naive [t] *)
Definition localize (tz : string) (t : datetime) : datetime :=
  mkdatetime (dt_date t) (hour t) (minute t) (second t) (microsecond t) (Some tz).

(** [t.strftime('%Y-%m-%d')], for the four-digit years on which every
    platform's [%Y] agrees. *)
Definition strftime_Ymd (t : datetime) : string := Date.isoformat (dt_date t).

(** [t.strftime('%I:%M %p')] in the C locale *)
Definition strftime_IMp (t : datetime) : string :=
  let h12 := if hour t mod 12 =? 0 then 12 else hour t mod 12 in
  Str.pad2 h12 +:+ ":" +:+ Str.pad2 (minute t) +:+ " " +:+
  (if hour t <? 12 then "AM" else "PM").

End DT.

(** ** Exceptions *)

Inductive exn :=
| KeyError (key : string)
| HttpError (msg : string)
| Error (msg : string).

(** [str(e)] *)
Definition exn_str (e : exn) : string :=
  match e with
  | KeyError k => "'" +:+ k +:+ "'"
  | HttpError m => m
  | Error m => m
  end.

Inductive res (A : Type) :=
| Ok (a : A)
| Raise (e : exn).
Arguments Ok {A} a.
Arguments Raise {A} e.

(** ** Calendar data, as the Google Calendar API returns it *)

(** [event['start']] and [event['end']]: [dateTime] for timed events,
    [date] for all-day events. *)
Record TimeSpec := mkTimeSpec {
  ts_dateTime : option string;
  ts_date : option string;
  ts_timeZone : option string
}.

Record Attendee := mkAttendee { at_email : option string }.

Record Event := mkEvent {
  ev_id : string;
  ev_summary : option string;
  ev_start : TimeSpec;
  ev_end : TimeSpec;
  ev_attendees : option (list Attendee);
  ev_organizer_email : option string;
  ev_creator_email : option string;
  ev_status : option string;
  ev_description : option string;
  (** [conferenceData.entryPoints] as (entryPointType, uri) pairs *)
  ev_entry_points : option (list (string * string));
  ev_created : option string
}.

(** The body that [create_event_with_meeting_link] inserts. *)
Record NewEvent := mkNewEvent {
  ne_summary : string;
  ne_start : string;
  ne_end : string;
  ne_attendees : list (option string)
}.

(** ** Requests to the collaborators *)

(** The mails the executors send, by template. *)
Inductive Mail :=
| ConflictNotice (event_name : string)
| CancellationNotice (event_name reason : string)
| RescheduleNotice (event_name : string).

Inductive Call :=
| GmailGetProfile
| GmailSend (to : string) (mail : Mail)
| CalendarList (timeMin timeMax : string) (maxResults : option Z)
| CalendarInsert (body : NewEvent)
| CalendarUpdate (eventId : string) (body : Event)
| CalendarDelete (eventId : string)
| CalendarGet (eventId : string)
| ChatSend (message : string)
| EmailPipeline (message : string)
| MeetingRequestPipeline.

(** A calendar mutation: an event is created, changed or removed. *)
Definition is_calendar_mutation (c : Call) : bool :=
  match c with
  | CalendarInsert _ | CalendarUpdate _ _ | CalendarDelete _ => true
  | _ => false
  end.

(** ** The conversation session *)

Inductive Intent := Schedule | Update | Delete.

Abbreviation FieldDict := (gmap string (option string)).

(** An entry of [session['scheduled_meetings']], or a meeting read from the
    calendar by [get_scheduled_meetings_from_calendar]. *)
Record Meeting := mkMeeting {
  mt_id : string;
  mt_participant_email : string;
  mt_event_name : string;
  mt_event_date : string;
  mt_event_time : string;
  mt_meeting_link : string;
  mt_calendar_event_id : option string
}.

(** An entry of [session['deletable_events']]. *)
Record Deletable := mkDeletable {
  de_name : string;
  de_formatted_date : string;
  de_id : string;
  de_has_attendees : bool
}.

Record EmailRec := mkEmailRec { em_subject : string; em_sender : string }.

Record Session := mkSession {
  s_intent : option Intent;
  s_data : option FieldDict;
  s_waiting_for : option string;
  s_messages : option (list string);
  s_update_text : option string;
  s_delete_text : option string;
  s_deletable_events : option (list Deletable);
  s_processed_emails : option (list EmailRec);
  s_meeting_requests : option (list EmailRec);
  s_scheduled_meetings : option (list Meeting);
  (** keys that only other routes write, e.g. [last_calendar_refresh] *)
  s_other : gmap string string
}.

(** The session after [session.clear()]. *)
Definition empty_session : Session :=
  mkSession None None None None None None None None None None ∅.

Definition set_intent (i : option Intent) (s : Session) : Session :=
  mkSession i (s_data s) (s_waiting_for s) (s_messages s) (s_update_text s)
    (s_delete_text s) (s_deletable_events s) (s_processed_emails s)
    (s_meeting_requests s) (s_scheduled_meetings s) (s_other s).
Definition set_data (d : option FieldDict) (s : Session) : Session :=
  mkSession (s_intent s) d (s_waiting_for s) (s_messages s) (s_update_text s)
    (s_delete_text s) (s_deletable_events s) (s_processed_emails s)
    (s_meeting_requests s) (s_scheduled_meetings s) (s_other s).
Definition set_waiting_for (w : option string) (s : Session) : Session :=
  mkSession (s_intent s) (s_data s) w (s_messages s) (s_update_text s)
    (s_delete_text s) (s_deletable_events s) (s_processed_emails s)
    (s_meeting_requests s) (s_scheduled_meetings s) (s_other s).
Definition set_messages (m : option (list string)) (s : Session) : Session :=
  mkSession (s_intent s) (s_data s) (s_waiting_for s) m (s_update_text s)
    (s_delete_text s) (s_deletable_events s) (s_processed_emails s)
    (s_meeting_requests s) (s_scheduled_meetings s) (s_other s).
Definition set_update_text (t : option string) (s : Session) : Session :=
  mkSession (s_intent s) (s_data s) (s_waiting_for s) (s_messages s) t
    (s_delete_text s) (s_deletable_events s) (s_processed_emails s)
    (s_meeting_requests s) (s_scheduled_meetings s) (s_other s).
Definition set_delete_text (t : option string) (s : Session) : Session :=
  mkSession (s_intent s) (s_data s) (s_waiting_for s) (s_messages s)
    (s_update_text s) t (s_deletable_events s) (s_processed_emails s)
    (s_meeting_requests s) (s_scheduled_meetings s) (s_other s).
Definition set_deletable_events (l : option (list Deletable)) (s : Session) : Session :=
  mkSession (s_intent s) (s_data s) (s_waiting_for s) (s_messages s)
    (s_update_text s) (s_delete_text s) l (s_processed_emails s)
    (s_meeting_requests s) (s_scheduled_meetings s) (s_other s).
Definition set_processed_emails (l : option (list EmailRec)) (s : Session) : Session :=
  mkSession (s_intent s) (s_data s) (s_waiting_for s) (s_messages s)
    (s_update_text s) (s_delete_text s) (s_deletable_events s) l
    (s_meeting_requests s) (s_scheduled_meetings s) (s_other s).
Definition set_meeting_requests (l : option (list EmailRec)) (s : Session) : Session :=
  mkSession (s_intent s) (s_data s) (s_waiting_for s) (s_messages s)
    (s_update_text s) (s_delete_text s) (s_deletable_events s)
    (s_processed_emails s) l (s_scheduled_meetings s) (s_other s).
Definition set_scheduled_meetings (l : option (list Meeting)) (s : Session) : Session :=
  mkSession (s_intent s) (s_data s) (s_waiting_for s) (s_messages s)
    (s_update_text s) (s_delete_text s) (s_deletable_events s)
    (s_processed_emails s) (s_meeting_requests s) l (s_other s).

(** ** The world a turn runs in: the session and the log of requests *)

Record World := mkWorld { session : Session; trace : list Call }.

(** Computations that read and write the world and may raise. *)
Definition M (A : Type) : Type := World -> res A * World.

Definition ret {A} (a : A) : M A := fun w => (Ok a, w).

Definition bind {A B} (m : M A) (k : A -> M B) : M B :=
  fun w => match m w with
           | (Ok a, w') => k a w'
           | (Raise e, w') => (Raise e, w')
           end.

Definition raise {A} (e : exn) : M A := fun w => (Raise e, w).

(** [try: m except Exception as e: h e] *)
Definition try_catch {A} (m : M A) (h : exn -> M A) : M A :=
  fun w => match m w with
           | (Ok a, w') => (Ok a, w')
           | (Raise e, w') => h e w'
           end.

Definition get_session : M Session := fun w => (Ok (session w), w).

Definition modify_session (f : Session -> Session) : M unit :=
  fun w => (Ok tt, mkWorld (f (session w)) (trace w)).

(** Issue request [c]; the collaborator answers [r]. *)
Definition request {A} (c : Call) (r : res A) : M A :=
  fun w => (r, mkWorld (session w) (trace w ++ [c])).

(** The world after further requests. *)
Definition logged (w : World) (calls : list Call) : World :=
  mkWorld (session w) (trace w ++ calls).

(** Lift a computation that can raise but touches neither the session nor
    a collaborator. *)
Definition lift_res {A} (r : res A) : M A := fun w => (r, w).

Notation "x <- m ;; k" := (bind m (fun x => k))
  (at level 100, m at next level, right associativity).
Notation "m ;;; k" := (bind m (fun _ => k))
  (at level 100, right associativity).

(** [for x in l: body x], for a body that returns nothing. *)
Fixpoint for_each {A} (l : list A) (body : A -> M unit) : M unit :=
  match l with
  | [] => ret tt
  | x :: l' => body x ;;; for_each l' body
  end.

(** ** The environment: clock, libraries and services *)

(** The regular expressions of the source, by name.  [re] is a library:
    the environment says what each pattern matches. *)
Inductive Pattern :=
| PatEmailShape      (* ^[a-zA-Z0-9._%+-]+@[a-zA-Z0-9.-]+\.[a-zA-Z]{2,}$ *)
| PatBareAddress     (* ^[\w\.-]+@[\w\.-]+\.\w+$ *)
| PatAddress         (* [\w\.-]+@[\w\.-]+\.\w+ *)
| PatMeetingWithTo   (* meeting with (.+) to *)
| PatMeetWithAt      (* meet with (.+) at *)
| PatScheduleA       (* schedule a (.+?) meeting *)
| PatTime            (* (\d{1,2}(?::\d{2})?\s*(?:am|pm)?)\s*(?:to|-)?\s*(\d{1,2}(?::\d{2})?\s*(?:am|pm)?)? *)
| PatDeleteThe       (* delete the (.+?) meeting *)
| PatDeleteTheEvent  (* delete the event (.+) *)
| PatTimeSeparator   (* \s+(?:to|-|till)\s+ *)
| PatOneOrTwoDigits  (* \d{1,2} *)
| PatWord (w : string) (* \b w \b *).

(** What the e-mail processing pipeline of the [/chat] route hands back:
    nothing to show, or the processed mails, the meeting requests among
    them and the text of the summary (building it may raise). *)
Inductive EmailBatch :=
| NoEmails
| Batch (processed requests : list EmailRec) (summary : res string).

Record Env := mkEnv {
  (** [datetime.now()] and [datetime.utcnow()] *)
  now : datetime;
  utcnow : datetime;
  (** [t.isoformat()], [t.strftime(fmt)] for the formats with month and day
      names, [datetime.fromisoformat(s)] *)
  isoformat : datetime -> string;
  strftime : string -> datetime -> string;
  fromisoformat : string -> res datetime;
  (** [dateparser.parse(text)]; the flag is [PREFER_DATES_FROM = future] *)
  dateparser_parse : string -> bool -> res (option datetime);
  (** [re.search] / [re.match] (the groups of the match, group 0 first),
      [re.sub] and [re.split]; all case-insensitive where the source is *)
  re_search : Pattern -> string -> option (list (option string));
  re_match : Pattern -> string -> option (list (option string));
  re_sub : Pattern -> string -> string -> string;
  re_split : Pattern -> string -> list string;
  (** the [services] dict of [app.py]: does it hold each key? *)
  services_gmail : bool;
  services_calendar : bool;
  (** the [services] global of [calenderinternal.py] *)
  internal_services_gmail : bool;
  (** the Gemini chat, [None] when the model is unavailable *)
  chat : option (string -> res string);
  (** Gmail: [users().getProfile()] gives [emailAddress], [messages().send()] *)
  gmail_profile : res (option string);
  gmail_send : string -> Mail -> res unit;
  (** Calendar: [events().list/insert/update/delete/get] *)
  calendar_list : string -> string -> option Z -> res (list Event);
  calendar_insert : NewEvent -> res Event;
  calendar_update : string -> Event -> res Event;
  calendar_delete : string -> res unit;
  calendar_get : string -> res Event;
  (** the mail triage of the e-mail branch and the batch scheduler behind
      a confirmed list of meeting requests; the latter hands back its reply
      and the meetings it tracked *)
  email_pipeline : string -> Session -> res EmailBatch;
  meeting_request_pipeline : Session -> string * list Meeting;
  (** [extract_update_details]: the regular-expression cascade over the
      first message of an Update conversation *)
  extract_update_details : string -> FieldDict;
  (** the identifier [track_scheduled_meeting] makes from the clock and
      the hash of the event name *)
  fresh_meeting_id : string -> string
}.

(** Python truthiness of an optional string: [None] and [''] are false. *)
Definition truthy_opt (o : option string) : bool :=
  match o with
  | Some s => Str.truthy s
  | None => false
  end.

(** [field not in d or not d[field]] *)
Definition field_missing (d : FieldDict) (field : string) : bool :=
  match d !! field with
  | Some v => negb (truthy_opt v)
  | None => true
  end.

(** [d.get(field)] *)
Definition dict_get (d : FieldDict) (field : string) : option string :=
  match d !! field with
  | Some v => v
  | None => None
  end.

(** [d[field]] for a field that holds a string ([''] stands for a missing
    or [None] entry, which the callers have excluded). *)
Definition dict_item (d : FieldDict) (field : string) : string :=
  default "" (dict_get d field).

Definition REQUIRED_FIELDS : list string :=
  ["participant_email"; "event_name"; "event_date"; "event_time"].

Definition UPDATE_REQUIRED_FIELDS : list string :=
  ["event_name"; "new_date"; "new_time"].

(** The questions of [get_missing_field_prompt]. *)
Definition schedule_question (field : string) : string :=
  if String.eqb field "participant_email" then "What is the participant's email address?"
  else if String.eqb field "event_name" then "What should be the event name?"
  else if String.eqb field "event_date"
  then "When is the meeting? (e.g., today, tomorrow, August 15, or April 8 2025)"
  else "What time is the meeting? (e.g., 10:00 AM to 11:00 AM)".

(** The questions of [get_missing_update_field_prompt] in [app.py]. *)
Definition update_question (field : string) : string :=
  if String.eqb field "event_name" then "What is the event name you want to update?"
  else if String.eqb field "new_date"
  then "What is the new date? (e.g., today, tomorrow, August 15, or April 8 2025)"
  else "What is the new time? (e.g., 10:00 AM to 11:00 AM)".

(** [get_missing_field_prompt]: the first missing field of the Schedule
    record with its prompt, [(None, None)] when nothing is missing. *)
Definition get_missing_field_prompt (current_data : FieldDict) : option (string * string) :=
  match List.filter (field_missing current_data) REQUIRED_FIELDS with
  | field :: _ =>
      Some (field, "Please specify the missing information: " +:+ schedule_question field)
  | [] => None
  end.

(** [get_missing_update_field_prompt] of [app.py] *)
Definition get_missing_update_field_prompt (current_data : FieldDict) : option (string * string) :=
  match List.filter (field_missing current_data) UPDATE_REQUIRED_FIELDS with
  | field :: _ => Some (field, "Please specify: " +:+ update_question field)
  | [] => None
  end.

(** *** Intent classifiers *)

Definition schedule_keywords : list string :=
  ["schedule"; "meet"; "meeting"; "appointment"; "book"; "plan"].
Definition update_keywords : list string :=
  ["update"; "change"; "reschedule"; "modify"; "move";
   "shift"; "postpone"; "advance"; "edit"; "alter"].
Definition delete_keywords : list string := ["delete"; "cancel"; "remove"].
Definition email_keywords : list string :=
  ["check emails"; "show emails"; "process emails"; "email dashboard";
   "my emails"; "recent emails"; "inbox messages"; "check my inbox";
   "show my inbox"; "process my emails"; "fetch emails"; "get emails"].

(** [any(keyword in text for keyword in keywords)] *)
Definition any_in (keywords : list string) (text : string) : bool :=
  existsb (fun keyword => Str.contains keyword text) keywords.

Definition is_schedule_intent (message : string) : bool :=
  any_in schedule_keywords (Str.lower message).
Definition is_update_intent (message : string) : bool :=
  any_in update_keywords (Str.lower message).
Definition is_delete_intent (message : string) : bool :=
  any_in delete_keywords (Str.lower message).

(** [m.group(n)] of a match; a group that took no part in the match is
    [None]. *)
Definition group (m : list (option string)) (n : nat) : option string :=
  mjoin (m !! n).

(** [exn]-raising code that does not touch the world *)
Definition res_bind {A B} (r : res A) (k : A -> res B) : res B :=
  match r with
  | Ok a => k a
  | Raise e => Raise e
  end.

Fixpoint res_map_list {A B} (f : A -> res B) (l : list A) : res (list B) :=
  match l with
  | [] => Ok []
  | x :: l' => res_bind (f x) (fun y => res_bind (res_map_list f l') (fun ys => Ok (y :: ys)))
  end.

Section Assistant.

Variable env : Env.

(** *** Text classifiers and validators *)

(** [correct_schedule_spelling]: one [re.sub] per entry of [corrections],
    in the order of the dict. *)
Definition correct_schedule_spelling (text : string) : string :=
  fold_left (fun text '(wrong, correct) => re_sub env (PatWord wrong) correct text)
    [("schdule", "schedule"); ("shedule", "schedule"); ("schedual", "schedule");
     ("meting", "meeting"); ("meating", "meeting");
     ("tommorow", "tomorrow"); ("tomorow", "tomorrow")]
    text.

(** [is_email_processing_intent]; the test on a bare address answers
    [False] on both sides. *)
Definition is_email_processing_intent (message : string) : bool :=
  let message_lower := Str.strip (Str.lower message) in
  if any_in email_keywords message_lower then true
  else match re_match env PatBareAddress message_lower with
       | Some _ => false
       | None => false
       end.

(** [validate_email] *)
Definition validate_email (email : string) : bool :=
  bool_decide (is_Some (re_match env PatEmailShape email)).

(** [extract_event_details] *)
Definition extract_event_details (text : string) : FieldDict :=
  let details : FieldDict := ∅ in
  let details :=
    match re_search env PatAddress text with
    | Some m => <["participant_email" := Some (default "" (group m 0))]> details
    | None => details
    end in
  let name_match :=
    match re_search env PatMeetingWithTo text with
    | Some m => Some m
    | None => match re_search env PatMeetWithAt text with
              | Some m => Some m
              | None => re_search env PatScheduleA text
              end
    end in
  let details :=
    match name_match with
    | Some m => <["event_name" := Some (Str.strip (default "" (group m 1)))]> details
    | None => details
    end in
  let details :=
    if Str.contains "today" (Str.lower text)
    then <["event_date" := Some (DT.strftime_Ymd (now env))]> details
    else if Str.contains "tomorrow" (Str.lower text)
    then <["event_date" := Some (DT.strftime_Ymd (DT.add_days 1 (now env)))]> details
    else details in
  match re_search env PatTime text with
  | Some m => <["event_time" := Some (Str.strip (default "" (group m 0)))]> details
  | None => details
  end.

(** [extract_delete_details] *)
Definition extract_delete_details (text : string) : FieldDict :=
  let name_match :=
    match re_search env PatDeleteThe text with
    | Some m => Some m
    | None => re_search env PatDeleteTheEvent text
    end in
  match name_match with
  | Some m => {["event_name" := Some (Str.strip (default "" (group m 1)))]}
  | None => ∅
  end.

(** [parsed and parsed.date() >= datetime.now().date()] *)
Definition future_date (parsed : option datetime) : option datetime :=
  match parsed with
  | Some t => if Date.leb (DT.date_of (now env)) (DT.date_of t) then Some t else None
  | None => None
  end.

(** [validate_update_input] of [calenderinternal.py] *)
Definition validate_update_input (field user_input : string) : bool :=
  let user_input := Str.strip user_input in
  if String.eqb field "event_name"
  then (0 <? Z.of_nat (String.length user_input)) &&
       negb (bool_decide (Str.lower user_input ∈ ["none"; "null"; ""]))
  else if String.eqb field "new_date"
  then match dateparser_parse env user_input true with
       | Ok parsed => bool_decide (is_Some (future_date parsed))
       | Raise _ => false
       end
  else if String.eqb field "new_time"
  then any_in ["am"; "pm"; ":"; "morning"; "afternoon"; "evening"; "noon"]
              (Str.lower user_input)
       || bool_decide (is_Some (re_match env PatOneOrTwoDigits user_input))
  else false.

(** *** [parse_datetime] *)

Definition time_mappings : list (string * string) :=
  [("morning", "9:00 AM to 10:00 AM"); ("afternoon", "2:00 PM to 3:00 PM");
   ("evening", "6:00 PM to 7:00 PM"); ("noon", "12:00 PM to 1:00 PM")].

(** The loop over [time_mappings]: the first natural word found in
    [time_str] replaces it. *)
Fixpoint map_natural_time (mappings : list (string * string)) (time_str : string) : string :=
  match mappings with
  | [] => time_str
  | (natural, formatted) :: rest =>
      if Str.contains natural time_str then formatted
      else map_natural_time rest time_str
  end.

(** [f"{parsed_date.date()} {s}"] *)
Definition on_date (parsed_date : datetime) (s : string) : string :=
  Date.isoformat (DT.date_of parsed_date) +:+ " " +:+ s.

(** The [try] block of [parse_datetime]. *)
Definition parse_datetime_try (date_str time_str : string) : res (datetime * datetime) :=
  res_bind (dateparser_parse env date_str true) (fun parsed =>
  let parsed_date := default (DT.add_days 1 (now env)) parsed in
  let time_str := Str.strip (Str.lower time_str) in
  let time_str := map_natural_time time_mappings time_str in
  let time_parts := re_split env PatTimeSeparator time_str in
  res_bind
    (match time_parts with
     | first :: second :: _ => Ok (Str.strip first, Str.strip second)
     | [first] =>
         let start_time_str := Str.strip first in
         res_bind (dateparser_parse env (on_date parsed_date start_time_str) false)
           (fun start_time =>
              match start_time with
              | Some start_time =>
                  let end_time := DT.add_hour start_time in
                  Ok (start_time_str, DT.strftime_IMp end_time)
              | None => Ok (start_time_str, Str.strip first)
              end)
     | [] => Raise (Error "list index out of range")
     end)
    (fun '(start_time_str, end_time_str) =>
  res_bind (dateparser_parse env (on_date parsed_date start_time_str) false) (fun start_time =>
  let start_time := default (DT.replace_hms 10 parsed_date) start_time in
  res_bind (dateparser_parse env (on_date parsed_date end_time_str) false) (fun end_time =>
  let end_time := default (DT.add_hour start_time) end_time in
  let start_time := DT.naive start_time in
  let end_time := DT.naive end_time in
  Ok (DT.localize "Asia/Kolkata" start_time, DT.localize "Asia/Kolkata" end_time))))).

(** The [except] block: tomorrow, 10 to 11. *)
Definition parse_datetime_default : datetime * datetime :=
  let tomorrow := DT.add_days 1 (now env) in
  let start := DT.replace_hms 10 tomorrow in
  let end_ := DT.add_hour start in
  (DT.localize "Asia/Kolkata" start, DT.localize "Asia/Kolkata" end_).

Definition parse_datetime (date_str time_str : string) : datetime * datetime :=
  match parse_datetime_try date_str time_str with
  | Ok r => r
  | Raise _ => parse_datetime_default
  end.

(** *** Mail and calendar helpers *)

(** [get_authenticated_user_email] of [app.py] *)
Definition get_authenticated_user_email : M (option string) :=
  try_catch
    (if services_gmail env
     then request GmailGetProfile (gmail_profile env)
     else ret None)
    (fun _ => ret None).

(** [get_authenticated_user_email] of [calenderinternal.py], which
    answers ['me'] when it cannot tell. *)
Definition internal_get_authenticated_user_email : M string :=
  try_catch
    (if internal_services_gmail env
     then profile <- request GmailGetProfile (gmail_profile env) ;;
          ret (default "me" profile)
     else ret "me")
    (fun _ => ret "me").

(** [send_enhanced_email]: [True] when the send went through. *)
Definition send_enhanced_email (to_email : string) (mail : Mail) : M bool :=
  try_catch
    (request (GmailSend to_email mail) (gmail_send env to_email mail) ;;;
     ret true)
    (fun _ => ret false).

(** [send_conflict_notification] *)
Definition send_conflict_notification (participant_email event_name : string)
    (start_time end_time : datetime) : M bool :=
  try_catch
    (send_enhanced_email participant_email (ConflictNotice event_name))
    (fun _ => ret false).

(** [send_meeting_cancellation_email] *)
Definition send_meeting_cancellation_email (participant_email event_name reason : string)
    : M bool :=
  try_catch
    (send_enhanced_email participant_email (CancellationNotice event_name reason))
    (fun _ => ret false).

(** [a.get('email', '').lower()] for the attendees of an event *)
Definition attendee_emails_lower (attendees : list Attendee) : list string :=
  map (fun a => Str.lower (default "" (at_email a))) attendees.

(** The loop of [check_participant_calendar_conflicts]: some listed event
    has the participant among its attendees. *)
Definition participant_in_events (participant_email : string) (events : list Event) : bool :=
  existsb (fun event =>
             match ev_attendees event with
             | Some attendees =>
                 bool_decide (Str.lower participant_email ∈ attendee_emails_lower attendees)
             | None => false
             end) events.

(** [check_participant_calendar_conflicts], called with [datetime]s *)
Definition check_participant_calendar_conflicts (participant_email : string)
    (start_time end_time : datetime) : M bool :=
  try_catch
    (events <- request (CalendarList (isoformat env start_time) (isoformat env end_time) None)
                 (calendar_list env (isoformat env start_time) (isoformat env end_time) None) ;;
     ret (participant_in_events participant_email events))
    (fun _ => ret false).

(** [e.get('summary', '').lower()] *)
Definition summary_lower (e : Event) : string := Str.lower (default "" (ev_summary e)).

(** [e.get('attendees')] is truthy *)
Definition has_attendees (e : Event) : bool :=
  match ev_attendees e with
  | Some (_ :: _) => true
  | _ => false
  end.

(** The four [search_strategies] of [get_event_by_name], in order. *)
Definition search_strategies : list (Event -> string -> bool) :=
  [ (fun e name => String.eqb (summary_lower e) (Str.lower name));
    (fun e name => Str.contains (Str.lower name) (summary_lower e));
    (fun e name => Str.contains (summary_lower e) (Str.lower name));
    (fun e name =>
       existsb (fun word => Str.contains (Str.lower word) (summary_lower e))
         (List.filter (fun word => (2 <? String.length word)%nat) (Str.split name))) ].

(** The loop over the strategies: the first that matches anything picks
    its first match with attendees, else its first match. *)
Fixpoint first_strategy_match (strategies : list (Event -> string -> bool))
    (events : list Event) (event_name : string) : option Event :=
  match strategies with
  | [] => None
  | strategy :: rest =>
      match List.filter (fun event => strategy event event_name) events with
      | [] => first_strategy_match rest events event_name
      | first :: more =>
          match List.filter has_attendees (first :: more) with
          | selected :: _ => Some selected
          | [] => Some first
          end
      end
  end.

(** [get_event_by_name] *)
Definition get_event_by_name (event_name : string) : M (option Event) :=
  try_catch
    (let time_min := isoformat env (DT.add_days (-30) (utcnow env)) +:+ "Z" in
     let time_max := isoformat env (DT.add_days 180 (utcnow env)) +:+ "Z" in
     events <- request (CalendarList time_min time_max (Some 50))
                 (calendar_list env time_min time_max (Some 50)) ;;
     ret (first_strategy_match search_strategies events event_name))
    (fun _ => ret None).

(** *** [suggest_similar_events] *)

(** The values of a suggestion [dict]. *)
Inductive SugVal :=
| SugStr (s : string)
| SugNone
| SugInt (n : nat).

(** [set(text.lower().split())] *)
Definition word_set (text : string) : gset string :=
  list_to_set (Str.split (Str.lower text)).

(** [x['overlap_score']], the sort key *)
Definition overlap_score (x : gmap string SugVal) : nat :=
  match x !! "overlap_score" with
  | Some (SugInt n) => n
  | _ => 0%nat
  end.

(** [l.sort(key=overlap_score, reverse=True)]: stable, descending *)
Fixpoint insert_by_score (x : gmap string SugVal) (l : list (gmap string SugVal))
    : list (gmap string SugVal) :=
  match l with
  | [] => [x]
  | y :: l' =>
      if (overlap_score y <=? overlap_score x)%nat then x :: y :: l'
      else y :: insert_by_score x l'
  end.
Definition sort_by_score (l : list (gmap string SugVal)) : list (gmap string SugVal) :=
  foldr insert_by_score [] l.

(** The loop of [suggest_similar_events] over the listed events. *)
Definition similar_events (event_name : string) (events : list Event)
    : list (gmap string SugVal) :=
  let event_name_words := word_set event_name in
  flat_map (fun event =>
    let summary := default "" (ev_summary event) in
    if Str.truthy summary then
      let overlap := size (event_name_words ∩ word_set summary) in
      if (0 <? overlap)%nat then
        [ {[ "name" := SugStr summary;
             "date" := match ts_dateTime (ev_start event) with
                       | Some t => SugStr t
                       | None => from_option SugStr SugNone (ts_date (ev_start event))
                       end;
             "overlap_score" := SugInt overlap ]} ]
      else []
    else []) events.

Definition suggest_similar_events (event_name : string) : M (list (gmap string SugVal)) :=
  try_catch
    (let time_min := isoformat env (DT.add_days (-30) (utcnow env)) +:+ "Z" in
     let time_max := isoformat env (DT.add_days 30 (utcnow env)) +:+ "Z" in
     events <- request (CalendarList time_min time_max (Some 50))
                 (calendar_list env time_min time_max (Some 50)) ;;
     ret (take 3 (sort_by_score (similar_events event_name events))))
    (fun _ => ret []).

(** [s[key]] as a string, for a suggestion [s]: [KeyError] when the key
    is absent. *)
Definition sug_item (key : string) (s : gmap string SugVal) : res string :=
  match s !! key with
  | Some (SugStr v) => Ok v
  | Some _ => Raise (Error "expected str instance")
  | None => Raise (KeyError key)
  end.

(** *** The user's own meetings *)

(** The test both listings apply to an event, with Python's grouping of
    [A if u else False or B if u else False]: a conditional expression
    whose [else] arm is the conditional expression
    [(False or B) if u else False]. *)
Definition is_user_organizer (organizer_email creator_email user_email : option string)
    : bool :=
  if truthy_opt user_email
  then String.eqb (Str.lower (default "" organizer_email))
                  (Str.lower (default "" user_email))
  else if truthy_opt user_email
       then false || String.eqb (Str.lower (default "" creator_email))
                                (Str.lower (default "" user_email))
       else false.

(** The uri of the first entry point of type [video], [''] without one. *)
Definition video_link (event : Event) : string :=
  match ev_entry_points event with
  | Some entry_points =>
      match List.filter (fun '(type, _) => String.eqb type "video") entry_points with
      | (_, uri) :: _ => uri
      | [] => ""
      end
  | None => ""
  end.

(** [ts.get('dateTime', ts.get('date', ''))] *)
Definition start_string (ts : TimeSpec) : string :=
  match ts_dateTime ts with
  | Some t => t
  | None => default "" (ts_date ts)
  end.

(** [ts.get('dateTime', '').split('T')[1][:5] if ts.get('dateTime') else 'All day'] *)
Definition clock_string (ts : TimeSpec) : res string :=
  if truthy_opt (ts_dateTime ts)
  then match Str.split_char "T" (default "" (ts_dateTime ts)) with
       | _ :: clock :: _ => Ok (Str.take 5 clock)
       | _ => Raise (Error "list index out of range")
       end
  else Ok "All day".

(** [attendee['email']] *)
Definition attendee_email_item (a : Attendee) : res string :=
  match at_email a with
  | Some e => Ok e
  | None => Raise (KeyError "email")
  end.

(** Is the [dict] behind a [TimeSpec] empty? *)
Definition timespec_empty (ts : TimeSpec) : bool :=
  match ts_dateTime ts, ts_date ts, ts_timeZone ts with
  | None, None, None => true
  | _, _, _ => false
  end.

(** The [meeting_record] of [get_scheduled_meetings_from_calendar]. *)
Definition meeting_record (user_email : option string) (event : Event)
    (attendees : list Attendee) : res Meeting :=
  res_bind (res_map_list attendee_email_item attendees) (fun emails =>
  let participant_emails :=
    List.filter (fun email =>
                   negb (truthy_opt user_email) ||
                   negb (String.eqb (Str.lower email) (Str.lower (default "" user_email))))
                emails in
  res_bind (clock_string (ev_start event)) (fun start_clock =>
  res_bind (clock_string (ev_end event)) (fun end_clock =>
  Ok (mkMeeting
        ("cal_" +:+ ev_id event)
        (default "No participants" (head participant_emails))
        (default "Untitled Meeting" (ev_summary event))
        (if timespec_empty (ev_start event) then ""
         else default "" (head (Str.split_char "T" (start_string (ev_start event)))))
        (start_clock +:+ " - " +:+ end_clock)
        (video_link event)
        (Some (ev_id event)))))).

(** The loop of [get_scheduled_meetings_from_calendar]. *)
Fixpoint organized_meetings (user_email : option string) (events : list Event)
    : res (list Meeting) :=
  match events with
  | [] => Ok []
  | event :: rest =>
      match ev_attendees event with
      | Some (a :: attendees) =>
          if is_user_organizer (ev_organizer_email event) (ev_creator_email event) user_email
          then res_bind (meeting_record user_email event (a :: attendees)) (fun m =>
               res_bind (organized_meetings user_email rest) (fun ms => Ok (m :: ms)))
          else organized_meetings user_email rest
      | _ => organized_meetings user_email rest
      end
  end.

Definition get_scheduled_meetings_from_calendar : M (list Meeting) :=
  try_catch
    (if negb (services_calendar env) then ret []
     else
       let time_min := isoformat env (utcnow env) +:+ "Z" in
       let time_max := isoformat env (DT.add_days 30 (utcnow env)) +:+ "Z" in
       events <- request (CalendarList time_min time_max (Some 50))
                   (calendar_list env time_min time_max (Some 50)) ;;
       user_email <- get_authenticated_user_email ;;
       lift_res (organized_meetings user_email events))
    (fun _ => ret []).

(** [track_scheduled_meeting] *)
Definition track_scheduled_meeting (participant_email event_name event_date event_time
    meeting_link : string) (calendar_event_id : option string) : M (option Meeting) :=
  try_catch
    (let record := mkMeeting (fresh_meeting_id env event_name) participant_email
                     event_name event_date event_time meeting_link calendar_event_id in
     modify_session (fun s =>
       set_scheduled_meetings (Some (default [] (s_scheduled_meetings s) ++ [record])) s) ;;;
     ret (Some record))
    (fun _ => ret None).

(** The two loops of [get_all_scheduled_meetings]: keep a meeting unless
    its id was seen. *)
Definition add_unseen (all_meetings : list Meeting) (meeting : Meeting) : list Meeting :=
  if existsb (fun m => String.eqb (mt_id m) (mt_id meeting)) all_meetings
  then all_meetings
  else all_meetings ++ [meeting].

(** [(a.event_date, a.event_time) <= (b.event_date, b.event_time)] *)
Definition meeting_key_le (a b : Meeting) : bool :=
  match String.compare (mt_event_date a) (mt_event_date b) with
  | Lt => true
  | Gt => false
  | Eq => String.leb (mt_event_time a) (mt_event_time b)
  end.

(** [l.sort(key=lambda x: (x.event_date, x.event_time))]: stable *)
Fixpoint insert_by_key (x : Meeting) (l : list Meeting) : list Meeting :=
  match l with
  | [] => [x]
  | y :: l' => if meeting_key_le x y then x :: y :: l' else y :: insert_by_key x l'
  end.
Definition sort_by_key (l : list Meeting) : list Meeting := foldr insert_by_key [] l.

Definition get_all_scheduled_meetings : M (list Meeting) :=
  try_catch
    (s <- get_session ;;
     let session_meetings := default [] (s_scheduled_meetings s) in
     calendar_meetings <- get_scheduled_meetings_from_calendar ;;
     let all_meetings := fold_left add_unseen calendar_meetings [] in
     let all_meetings := fold_left add_unseen session_meetings all_meetings in
     ret (sort_by_key all_meetings))
    (fun _ => ret []).

Definition get_scheduled_meetings_count : M nat :=
  meetings <- get_all_scheduled_meetings ;;
  ret (length meetings).

(** [sync_session_with_calendar] *)
Definition sync_session_with_calendar : M bool :=
  try_catch
    (calendar_meetings <- get_scheduled_meetings_from_calendar ;;
     modify_session (fun s =>
       match s_scheduled_meetings s with
       | Some session_meetings =>
           set_scheduled_meetings
             (Some (List.filter
                      (fun session_meeting =>
                         if truthy_opt (mt_calendar_event_id session_meeting)
                         then existsb (fun cal_meeting =>
                                         bool_decide (mt_calendar_event_id cal_meeting =
                                                      mt_calendar_event_id session_meeting))
                                      calendar_meetings
                         else true)
                      session_meetings)) s
       | None => s
       end) ;;;
     ret true)
    (fun _ => ret false).

(** [create_event_with_meeting_link]: the created event and its meeting
    link, or [(None, None)]. *)
Definition create_event_with_meeting_link (summary : string) (start_time end_time : datetime)
    (participant_email : string) : M (option (Event * string)) :=
  try_catch
    (let start_time := isoformat env start_time in
     let end_time := isoformat env end_time in
     user_email <- get_authenticated_user_email ;;
     let event := mkNewEvent summary start_time end_time
                    [Some participant_email; user_email] in
     created_event <- request (CalendarInsert event) (calendar_insert env event) ;;
     ret (Some (created_event, video_link created_event)))
    (fun _ => ret None).

(** *** The action executors *)

(** [for x in l: state = body x state] *)
Fixpoint for_fold {A S} (l : list A) (state : S) (body : A -> S -> M S) : M S :=
  match l with
  | [] => ret state
  | x :: l' => state' <- body x state ;; for_fold l' state' body
  end.

(** [attendee_email and attendee_email.lower() != user_email.lower()] *)
Definition is_other_attendee (user_email : string) (attendee : Attendee) : bool :=
  truthy_opt (at_email attendee) &&
  negb (String.eqb (Str.lower (default "" (at_email attendee))) (Str.lower user_email)).

(** The messages of the executors, by template. *)
Inductive SyncMsg :=
| MsgNotFoundSimilar (event_name : string) (similar : list string)
    (* Event '..' not found. Similar events found: a, b, c *)
| MsgNotFoundDidYouMean (event_name : string) (similar : list string)
    (* Event '..' not found. Did you mean: a, b, c? *)
| MsgNotFound (event_name : string)
| MsgDeletionIncomplete
    (* Event deletion may not have completed properly *)
| MsgDeleted (event_summary : string) (notified : bool)
    (* Event '..' deleted successfully [and cancellation notifications sent to attendees] *)
| MsgAlreadyDeleted (event_name : string)
    (* Event '..' was already deleted or not found *)
| MsgDeletePermissionDenied
| MsgAuthenticationError
| MsgDeleteFailed (error_msg : string)
| MsgUnexpectedDeleteError (error_msg : string)
| MsgInvalidDateTime (error_msg : string)
| MsgConflictsDetected
    (* Scheduling conflicts detected. Participants have been notified. *)
| MsgUpdated (event_summary new_date new_time : string) (notified : bool)
| MsgNoLongerExists (event_name : string)
| MsgUpdatePermissionDenied
| MsgUpdateFailed (error_msg : string)
| MsgUnexpectedUpdateError (error_msg : string).

(** The cancellation loop of [delete_event_with_sync]. *)
Definition notify_cancellation (user_email event_summary reason : string)
    (attendees : list Attendee) : M bool :=
  for_fold attendees false (fun attendee notification_sent =>
    if is_other_attendee user_email attendee
    then email_sent <- send_meeting_cancellation_email
                         (default "" (at_email attendee)) event_summary reason ;;
         ret (if email_sent then true else notification_sent)
    else ret notification_sent).

(** The session clean-up after a deletion: drop the tracked meetings of
    the deleted event. *)
Definition forget_meeting (event_id : string) : M unit :=
  modify_session (fun s =>
    match s_scheduled_meetings s with
    | Some meetings =>
        set_scheduled_meetings
          (Some (List.filter
                   (fun m => negb (bool_decide (mt_calendar_event_id m = Some event_id)))
                   meetings)) s
    | None => s
    end).

(** [delete_event_with_sync] of [app.py] *)
Definition delete_event_with_sync (event_name : string) : M (bool * SyncMsg) :=
  try_catch
    (event <- get_event_by_name event_name ;;
     match event with
     | None =>
         suggestions <- suggest_similar_events event_name ;;
         match suggestions with
         | _ :: _ =>
             (* the log line evaluates s['summary'] for every suggestion *)
             _ <- lift_res (res_map_list (sug_item "summary") suggestions) ;;
             names <- lift_res (res_map_list (sug_item "summary") (take 3 suggestions)) ;;
             ret (false, MsgNotFoundSimilar event_name names)
         | [] => ret (false, MsgNotFound event_name)
         end
     | Some event =>
         let event_id := ev_id event in
         let event_summary := default event_name (ev_summary event) in
         let attendees := default [] (ev_attendees event) in
         user_email <- get_authenticated_user_email ;;
         notification_sent <-
           (if negb (bool_decide (attendees = [])) && truthy_opt user_email
            then notify_cancellation (default "" user_email) event_summary
                   "Meeting cancelled by organizer" attendees
            else ret false) ;;
         try_catch
           (request (CalendarDelete event_id) (calendar_delete env event_id) ;;;
            deleted_check <-
              try_catch
                (check <- request (CalendarGet event_id) (calendar_get env event_id) ;;
                 ret (Some check))
                (fun _ => ret None) ;;
            if match deleted_check with
               | Some check => negb (bool_decide (ev_status check = Some "cancelled"))
               | None => false
               end
            then ret (false, MsgDeletionIncomplete)
            else
              forget_meeting event_id ;;;
              ret (true, MsgDeleted event_summary notification_sent))
           (fun delete_error =>
              let error_msg := exn_str delete_error in
              if Str.contains "404" error_msg then ret (false, MsgAlreadyDeleted event_name)
              else if Str.contains "403" error_msg then ret (false, MsgDeletePermissionDenied)
              else if Str.contains "401" error_msg then ret (false, MsgAuthenticationError)
              else ret (false, MsgDeleteFailed error_msg))
     end)
    (fun error => ret (false, MsgUnexpectedDeleteError (exn_str error))).

(** The session clean-up of [delete_event] in [calenderinternal.py]. *)
Definition internal_forget_meeting (event_id event_name : string) : M unit :=
  try_catch
    (modify_session (fun s =>
       match s_scheduled_meetings s with
       | Some meetings =>
           set_scheduled_meetings
             (Some (List.filter
                      (fun m =>
                         negb (bool_decide (mt_calendar_event_id m = Some event_id)) &&
                         negb (String.eqb (Str.lower (mt_event_name m)) (Str.lower event_name)))
                      meetings)) s
       | None => s
       end))
    (fun _ => ret tt).

(** [delete_event] of [calenderinternal.py] *)
Definition delete_event (event_name : string) : M bool :=
  try_catch
    (event <- get_event_by_name event_name ;;
     match event with
     | None => ret false
     | Some event =>
         let event_id := ev_id event in
         let event_title := default "Untitled Event" (ev_summary event) in
         let attendees := default [] (ev_attendees event) in
         user_email <- internal_get_authenticated_user_email ;;
         for_each attendees (fun attendee =>
           if is_other_attendee user_email attendee
           then send_meeting_cancellation_email (default "" (at_email attendee))
                  event_title "Event cancelled by organizer" ;;;
                ret tt
           else ret tt) ;;;
         try_catch
           (request (CalendarDelete event_id) (calendar_delete env event_id) ;;;
            internal_forget_meeting event_id event_name ;;;
            ret true)
           (fun delete_error =>
              let error_str := exn_str delete_error in
              if Str.contains "404" error_str then ret true
              else if Str.contains "403" error_str ||
                      Str.contains "forbidden" (Str.lower error_str)
              then ret false
              else ret false)
     end)
    (fun _ => ret false).

(** The conflict loop of [update_event_with_sync]: every other attendee
    is checked, and told when the new time collides. *)
Definition check_attendee_conflicts (user_email event_summary : string)
    (new_start_time new_end_time : datetime) (attendees : list Attendee) : M bool :=
  for_fold attendees false (fun attendee conflict_detected =>
    if is_other_attendee user_email attendee
    then
      let attendee_email := default "" (at_email attendee) in
      has_conflict <- check_participant_calendar_conflicts attendee_email
                        new_start_time new_end_time ;;
      if has_conflict
      then send_conflict_notification attendee_email event_summary
             new_start_time new_end_time ;;;
           ret true
      else ret conflict_detected
    else ret conflict_detected).

(** The reschedule-notification loop of [update_event_with_sync]. *)
Definition notify_reschedule (user_email event_summary : string)
    (attendees : list Attendee) : M bool :=
  for_fold attendees false (fun attendee notification_sent =>
    if is_other_attendee user_email attendee
    then email_sent <- send_enhanced_email (default "" (at_email attendee))
                         (RescheduleNotice event_summary) ;;
         ret (if email_sent then true else notification_sent)
    else ret notification_sent).

(** [event.copy()] with the new start, end and description. *)
Definition rescheduled (event : Event) (new_start_time new_end_time : datetime) : Event :=
  mkEvent (ev_id event) (ev_summary event)
    (mkTimeSpec (Some (isoformat env new_start_time)) None
                (Some (default "UTC" (ts_timeZone (ev_start event)))))
    (mkTimeSpec (Some (isoformat env new_end_time)) None
                (Some (default "UTC" (ts_timeZone (ev_end event)))))
    (ev_attendees event) (ev_organizer_email event) (ev_creator_email event)
    (ev_status event)
    (Some (default "" (ev_description event) +:+ Str.newline +:+ Str.newline +:+
           "[Updated on " +:+ strftime env "%Y-%m-%d %H:%M:%S" (now env) +:+
           " via AI Calendar Assistant]"))
    (ev_entry_points event) (ev_created event).

(** The first tracked meeting of the event takes the new date and time. *)
Fixpoint retime_first (event_id new_date new_time : string) (meetings : list Meeting)
    : list Meeting :=
  match meetings with
  | [] => []
  | m :: rest =>
      if bool_decide (mt_calendar_event_id m = Some event_id)
      then mkMeeting (mt_id m) (mt_participant_email m) (mt_event_name m) new_date new_time
             (mt_meeting_link m) (mt_calendar_event_id m) :: rest
      else m :: retime_first event_id new_date new_time rest
  end.

(** [update_event_with_sync] of [app.py] *)
Definition update_event_with_sync (event_name new_date new_time : string)
    : M (bool * SyncMsg) :=
  try_catch
    (event <- get_event_by_name event_name ;;
     match event with
     | None =>
         suggestions <- suggest_similar_events event_name ;;
         match suggestions with
         | _ :: _ =>
             names <- lift_res (res_map_list (sug_item "summary") (take 3 suggestions)) ;;
             ret (false, MsgNotFoundDidYouMean event_name names)
         | [] => ret (false, MsgNotFound event_name)
         end
     | Some event =>
         let '(new_start_time, new_end_time) := parse_datetime new_date new_time in
         let attendees := default [] (ev_attendees event) in
         let event_id := ev_id event in
         let event_summary := default event_name (ev_summary event) in
         user_email <- get_authenticated_user_email ;;
         conflict_detected <-
           (if negb (bool_decide (attendees = [])) && truthy_opt user_email
            then check_attendee_conflicts (default "" user_email) event_summary
                   new_start_time new_end_time attendees
            else ret false) ;;
         if conflict_detected then ret (false, MsgConflictsDetected)
         else
           notification_sent <-
             (if negb (bool_decide (attendees = [])) && truthy_opt user_email
              then notify_reschedule (default "" user_email) event_summary attendees
              else ret false) ;;
           try_catch
             (let updated_event := rescheduled event new_start_time new_end_time in
              request (CalendarUpdate event_id updated_event)
                (calendar_update env event_id updated_event) ;;;
              modify_session (fun s =>
                match s_scheduled_meetings s with
                | Some meetings =>
                    set_scheduled_meetings
                      (Some (retime_first event_id new_date new_time meetings)) s
                | None => s
                end) ;;;
              try_catch
                (request (CalendarGet event_id) (calendar_get env event_id) ;;; ret tt)
                (fun _ => ret tt) ;;;
              ret (true, MsgUpdated event_summary new_date new_time notification_sent))
             (fun update_error =>
                let error_msg := exn_str update_error in
                if Str.contains "404" error_msg then ret (false, MsgNoLongerExists event_name)
                else if Str.contains "403" error_msg then ret (false, MsgUpdatePermissionDenied)
                else if Str.contains "401" error_msg then ret (false, MsgAuthenticationError)
                else ret (false, MsgUpdateFailed error_msg))
     end)
    (fun error => ret (false, MsgUnexpectedUpdateError (exn_str error))).

(** *** The [/chat] route of [app.py] *)

(** The messages of [process_update_field_input]. *)
Inductive FieldMsg :=
| EventNameUpdated
| NewDateSaved
| InvalidFutureDate   (* Please enter a valid future date (e.g., 'tomorrow', ...) *)
| NewTimeSaved
| InvalidTimeRange    (* Please enter a valid time range (e.g., '2 PM to 3 PM', ...) *)
| InvalidInput.       (* Invalid input for this field. *)

(** The replies of the route, by template. *)
Inductive Reply :=
| ReplyEnterMessage
| ReplyGmailUnavailable
| ReplyNoEmails
| ReplyEmailSummary (summary : string)
| ReplyEmailError (error : string)
| ReplyMeetingRequests (text : string)
| ReplyChat (text : string)
| ReplyFallback (key : string)
| ReplyFallbackDefault
| ReplyFallbackError
| ReplyPrompt (field prompt : string)
| ReplyInvalidDate            (* Please enter a valid future date. *)
| ReplyInvalidTime            (* Please enter a valid time (e.g., '2 PM', '10 AM to 11 AM'). *)
| ReplyScheduleServicesUnavailable
| ReplyInvalidParticipantEmail
| ReplyConflict (participant_email : string)
| ReplyScheduled (event_name participant_email meeting_link : string) (count : nat)
| ReplyCreateFailed           (* Failed to create calendar event. ... *)
| ReplyScheduleError (error : string)
| ReplyFieldRejected (message : FieldMsg)
| ReplyServicesUnavailable
| ReplyUpdated (message : SyncMsg) (count : nat)
| ReplyUpdateFailed (message : SyncMsg)
| ReplyUpdateError (error : string)
| ReplyInvalidEventName
| ReplyDeletableEvents (events : list Deletable)
| ReplyNoDeletableEvents
| ReplyAskEventName           (* What is the name of the event you want to delete? *)
| ReplyInvalidEventNumber
| ReplyDeleted (message : SyncMsg) (count : nat)
| ReplyDeleteFailed (message : SyncMsg)
| ReplyDeleteError (error : string)
| ReplyError.                 (* An error occurred. Please try again. *)

(** [session.clear()] *)
Definition session_clear : M unit := modify_session (fun _ => empty_session).

(** [session['data']] *)
Definition session_data : M FieldDict :=
  s <- get_session ;;
  match s_data s with
  | Some d => ret d
  | None => raise (KeyError "data")
  end.

(** [process_update_field_input]: the verdict, its message and the
    record after the call (the function writes into the [dict] it is
    given). *)
Definition process_update_field_input (field user_input : string) (current_data : FieldDict)
    : res (bool * FieldMsg * FieldDict) :=
  let user_input := Str.strip user_input in
  if String.eqb field "event_name" && Str.truthy user_input
  then Ok (true, EventNameUpdated, <[field := Some user_input]> current_data)
  else if String.eqb field "new_date"
  then res_bind (dateparser_parse env user_input true) (fun parsed =>
         match future_date parsed with
         | Some parsed =>
             Ok (true, NewDateSaved, <[field := Some (DT.strftime_Ymd parsed)]> current_data)
         | None => Ok (false, InvalidFutureDate, current_data)
         end)
  else if String.eqb field "new_time"
  then let extracted_time := dict_get (extract_event_details user_input) "event_time" in
       if truthy_opt extracted_time
       then Ok (true, NewTimeSaved, <[field := extracted_time]> current_data)
       else Ok (false, InvalidTimeRange, current_data)
  else Ok (false, InvalidInput, current_data).

(** The e-mail branch: an explicit request, and no intent yet. *)
Definition email_branch (user_input : string) : M (option Reply) :=
  s <- get_session ;;
  if is_email_processing_intent user_input && bool_decide (s_intent s = None)
  then
    reply <-
      try_catch
        (if negb (services_gmail env) then ret ReplyGmailUnavailable
         else
           batch <- request (EmailPipeline user_input) (email_pipeline env user_input s) ;;
           match batch with
           | NoEmails => ret ReplyNoEmails
           | Batch processed requests summary =>
               modify_session (fun s =>
                 set_meeting_requests (Some requests)
                   (set_processed_emails (Some processed) s)) ;;;
               summary <- lift_res summary ;;
               ret (ReplyEmailSummary summary)
           end)
        (fun error => ret (ReplyEmailError (exn_str error))) ;;
    ret (Some reply)
  else ret None.

(** The answer to a message that carries no intent. *)
Definition no_intent_reply (user_input : string) : M Reply :=
  s <- get_session ;;
  if Str.contains "yes" (Str.lower user_input) &&
     negb (bool_decide (default [] (s_meeting_requests s) = []))
  then
    let '(text, tracked) := meeting_request_pipeline env s in
    request MeetingRequestPipeline (Ok tt) ;;;
    (match tracked with
     | [] => ret tt
     | _ :: _ =>
         modify_session (fun s =>
           set_scheduled_meetings (Some (default [] (s_scheduled_meetings s) ++ tracked)) s)
     end) ;;;
    ret (ReplyMeetingRequests text)
  else
    try_catch
      (match chat env with
       | Some send_message =>
           reply <- request (ChatSend user_input) (send_message user_input) ;;
           ret (ReplyChat reply)
       | None =>
           match List.filter (fun key => Str.contains key (Str.lower user_input))
                   ["hello"; "help"; "thanks"; "bye"] with
           | key :: _ => ret (ReplyFallback key)
           | [] => ret ReplyFallbackDefault
           end
       end)
      (fun _ => ret ReplyFallbackError).

(** Initial intent detection, only without a current intent: Schedule,
    then Update, then Delete; a reply when none of them matches. *)
Definition detect_intent (user_input : string) : M (option Reply) :=
  s <- get_session ;;
  match s_intent s with
  | Some _ => ret None
  | None =>
      if is_schedule_intent user_input
      then modify_session (fun s =>
             set_data (Some (extract_event_details user_input))
               (set_intent (Some Schedule) s)) ;;;
           ret None
      else if is_update_intent user_input
      then let extracted := extract_update_details env user_input in
           modify_session (fun s =>
             set_data (Some ({[ "event_name" := dict_get extracted "event_name";
                                "new_date" := dict_get extracted "event_date";
                                "new_time" := dict_get extracted "event_time" ]}))
               (set_update_text (Some user_input) (set_intent (Some Update) s))) ;;;
           ret None
      else if is_delete_intent user_input
      then modify_session (fun s =>
             set_data (Some (extract_delete_details user_input))
               (set_delete_text (Some user_input) (set_intent (Some Delete) s))) ;;;
           ret None
      else reply <- no_intent_reply user_input ;; ret (Some reply)
  end.

(** The Schedule flow, input for the awaited field: [Some reply] when
    the turn ends here.  [data] is the route's local alias of the record,
    read before intent detection. *)
Definition schedule_collect (user_input : string) (data : FieldDict) : M (option Reply) :=
  s <- get_session ;;
  match s_waiting_for s with
  | None => ret None
  | Some field =>
      outcome <-
        (if String.eqb field "participant_email" && validate_email user_input
         then ret (inl (<[field := Some user_input]> data))
         else if String.eqb field "event_name" && Str.truthy user_input
         then ret (inl (<[field := Some user_input]> data))
         else if String.eqb field "event_date"
         then parsed <- lift_res (dateparser_parse env user_input true) ;;
              match future_date parsed with
              | Some parsed => ret (inl (<[field := Some (DT.strftime_Ymd parsed)]> data))
              | None => ret (inr ReplyInvalidDate)
              end
         else if String.eqb field "event_time"
         then let extracted_time :=
                dict_get (extract_event_details user_input) "event_time" in
              if truthy_opt extracted_time
              then ret (inl (<[field := extracted_time]> data))
              else ret (inr ReplyInvalidTime)
         else ret (inl data)) ;;
      match outcome with
      | inl data =>
          modify_session (fun s => set_waiting_for None (set_data (Some data) s)) ;;;
          ret None
      | inr reply => ret (Some reply)
      end
  end.

(** The Schedule flow once every field is present. *)
Definition schedule_execute (details : FieldDict) : M Reply :=
  if negb (services_gmail env && services_calendar env)
  then session_clear ;;; ret ReplyScheduleServicesUnavailable
  else if negb (validate_email (dict_item details "participant_email"))
  then session_clear ;;; ret ReplyInvalidParticipantEmail
  else
    msg <-
      try_catch
        (let participant_email := dict_item details "participant_email" in
         let event_name := dict_item details "event_name" in
         let '(start_time, end_time) :=
           parse_datetime (dict_item details "event_date") (dict_item details "event_time") in
         has_conflict <- check_participant_calendar_conflicts participant_email
                           start_time end_time ;;
         if has_conflict
         then send_conflict_notification participant_email event_name start_time end_time ;;;
              ret (ReplyConflict participant_email)
         else
           created <- create_event_with_meeting_link event_name start_time end_time
                        participant_email ;;
           match created with
           | Some (event_created, actual_meeting_link) =>
               track_scheduled_meeting participant_email event_name
                 (dict_item details "event_date") (dict_item details "event_time")
                 actual_meeting_link (Some (ev_id event_created)) ;;;
               count <- get_scheduled_meetings_count ;;
               ret (ReplyScheduled event_name participant_email actual_meeting_link count)
           | None => ret ReplyCreateFailed
           end)
        (fun e => ret (ReplyScheduleError (exn_str e))) ;;
    session_clear ;;;
    ret msg.

Definition schedule_flow (user_input : string) (data : FieldDict) : M Reply :=
  ended <- schedule_collect user_input data ;;
  match ended with
  | Some reply => ret reply
  | None =>
      details <- session_data ;;
      match get_missing_field_prompt details with
      | Some (field, prompt) =>
          modify_session (set_waiting_for (Some field)) ;;;
          ret (ReplyPrompt field prompt)
      | None => schedule_execute details
      end
  end.

(** The Update flow, input for the awaited field. *)
Definition update_collect (user_input : string) : M (option Reply) :=
  s <- get_session ;;
  match s_waiting_for s with
  | None => ret None
  | Some field =>
      current_data <- session_data ;;
      verdict <- lift_res (process_update_field_input field user_input current_data) ;;
      let '(success, message, current_data) := verdict in
      modify_session (set_data (Some current_data)) ;;;
      if success
      then modify_session (set_waiting_for None) ;;; ret None
      else ret (Some (ReplyFieldRejected message))
  end.

(** The Update flow once every field is present. *)
Definition update_execute (details : FieldDict) : M Reply :=
  if negb (services_calendar env && services_gmail env)
  then session_clear ;;; ret ReplyServicesUnavailable
  else
    try_catch
      (outcome <- update_event_with_sync (dict_item details "event_name")
                    (dict_item details "new_date") (dict_item details "new_time") ;;
       let '(success, message) := outcome in
       if success
       then sync_session_with_calendar ;;;
            meeting_count <- get_scheduled_meetings_count ;;
            session_clear ;;;
            ret (ReplyUpdated message meeting_count)
       else session_clear ;;; ret (ReplyUpdateFailed message))
      (fun e => session_clear ;;; ret (ReplyUpdateError (exn_str e))).

Definition update_flow (user_input : string) : M Reply :=
  ended <- update_collect user_input ;;
  match ended with
  | Some reply => ret reply
  | None =>
      details <- session_data ;;
      match get_missing_update_field_prompt details with
      | Some (field, prompt) =>
          modify_session (set_waiting_for (Some field)) ;;;
          ret (ReplyPrompt field prompt)
      | None => update_execute details
      end
  end.

(** The entry of the deletable-events listing for one event, if the
    event qualifies; formatting its start may raise. *)
Definition deletable_entry (user_email : option string) (event : Event)
    : res (option Deletable) :=
  if is_user_organizer (ev_organizer_email event) (ev_creator_email event) user_email &&
     truthy_opt (ev_summary event)
  then
    let start_str := start_string (ev_start event) in
    res_bind
      (if Str.truthy start_str
       then if Str.contains "T" start_str
            then res_bind (fromisoformat env (Str.replace_char "Z" "+00:00" start_str))
                   (fun parsed_start =>
                      Ok (strftime env "%b %d, %Y at %I:%M %p" parsed_start))
            else Ok start_str
       else Ok "Date unknown")
      (fun formatted_date =>
         Ok (Some (mkDeletable (default "" (ev_summary event)) formatted_date
                     (ev_id event)
                     (1 <? length (default [] (ev_attendees event)))%nat)))
  else Ok None.

(** The listing shown when a Delete conversation has no event name yet:
    [Some reply] unless the calendar is missing or the listing raised. *)
Definition list_deletable_events : M (option Reply) :=
  try_catch
    (if services_calendar env
     then
       let time_min := isoformat env (DT.add_days (-1) (utcnow env)) +:+ "Z" in
       let time_max := isoformat env (DT.add_days 30 (utcnow env)) +:+ "Z" in
       events <- request (CalendarList time_min time_max (Some 20))
                   (calendar_list env time_min time_max (Some 20)) ;;
       user_email <- get_authenticated_user_email ;;
       entries <- lift_res (res_map_list (deletable_entry user_email) events) ;;
       let deletable_events := omap id entries in
       match deletable_events with
       | _ :: _ =>
           modify_session (fun s =>
             set_deletable_events (Some deletable_events)
               (set_waiting_for (Some "event_name") s)) ;;;
           ret (Some (ReplyDeletableEvents (take 8 deletable_events)))
       | [] =>
           session_clear ;;;
           ret (Some ReplyNoDeletableEvents)
       end
     else ret None)
    (fun _ => ret None).

(** The Delete flow once an event name is known. *)
Definition delete_execute (details : FieldDict) : M Reply :=
  if negb (services_calendar env && services_gmail env)
  then session_clear ;;; ret ReplyServicesUnavailable
  else
    try_catch
      (outcome <- delete_event_with_sync (dict_item details "event_name") ;;
       let '(success, message) := outcome in
       if success
       then sync_session_with_calendar ;;;
            meeting_count <- get_scheduled_meetings_count ;;
            session_clear ;;;
            ret (ReplyDeleted message meeting_count)
       else session_clear ;;; ret (ReplyDeleteFailed message))
      (fun e => session_clear ;;; ret (ReplyDeleteError (exn_str e))).

(** The selection of a listed event by its number. *)
Definition select_by_number (user_input : string) (details : FieldDict)
    : M (FieldDict + Reply) :=
  s <- get_session ;;
  match s_deletable_events s with
  | Some deletable_events =>
      if Str.isdigit user_input
      then
        let event_index := Str.int user_input - 1 in
        if (0 <=? event_index) && (event_index <? Z.of_nat (length deletable_events))
        then
          match deletable_events !! Z.to_nat event_index with
          | Some selected_event =>
              let details := <["event_name" := Some (de_name selected_event)]> details in
              modify_session (fun s =>
                set_deletable_events None (set_data (Some details) s)) ;;;
              ret (inl details)
          | None => raise (Error "list index out of range")
          end
        else ret (inr ReplyInvalidEventNumber)
      else ret (inl details)
  | None => ret (inl details)
  end.

Definition delete_flow (user_input : string) : M Reply :=
  details <- session_data ;;
  s <- get_session ;;
  named <-
    (if bool_decide (s_waiting_for s = Some "event_name")
     then
       let event_name := Str.strip user_input in
       if Str.truthy event_name
       then
         let details := <["event_name" := Some event_name]> details in
         modify_session (fun s => set_waiting_for None (set_data (Some details) s)) ;;;
         ret (inl details)
       else ret (inr ReplyInvalidEventName)
     else ret (inl details)) ;;
  match named with
  | inr reply => ret reply
  | inl details =>
      if field_missing details "event_name"
      then
        listed <- list_deletable_events ;;
        match listed with
        | Some reply => ret reply
        | None =>
            modify_session (set_waiting_for (Some "event_name")) ;;;
            ret ReplyAskEventName
        end
      else
        selected <- select_by_number user_input details ;;
        match selected with
        | inr reply => ret reply
        | inl details => delete_execute details
        end
  end.

(** The head of the route: the e-mail branch, then intent detection.
    [Some reply] when the turn ends there. *)
Definition classify (user_input : string) : M (option Reply) :=
  emails <- email_branch user_input ;;
  match emails with
  | Some reply => ret (Some reply)
  | None => detect_intent user_input
  end.

(** [chat_route]: one turn of the conversation. *)
Definition chat_route (message : string) : M Reply :=
  try_catch
    (let user_input := Str.strip message in
     if negb (Str.truthy user_input) then ret ReplyEnterMessage
     else
       let user_input := correct_schedule_spelling user_input in
       modify_session (fun s =>
         match s_data s with
         | Some _ => s
         | None => set_data (Some ∅) s
         end) ;;;
       data <- session_data ;;
       modify_session (fun s =>
         match s_messages s with
         | Some _ => s
         | None => set_messages (Some []) s
         end) ;;;
       answered <- classify user_input ;;
       match answered with
       | Some reply => ret reply
       | None =>
           s <- get_session ;;
           match s_intent s with
           | Some Schedule => schedule_flow user_input data
           | Some Update => update_flow user_input
           | Some Delete => delete_flow user_input
           | None => raise (KeyError "intent")
           end
       end)
    (fun _ => session_clear ;;; ret ReplyError).

(** *** The [/api/chat] route of [calenderinternal.py]: intent detection *)

(** The intent the stand-alone route gives a first message: Update, then
    Delete, then Schedule; [None] hands the message to the chat model. *)
Definition internal_detect_intent (user_input : string) : option Intent :=
  if is_update_intent user_input then Some Update
  else if is_delete_intent user_input then Some Delete
  else if is_schedule_intent user_input then Some Schedule
  else None.

(** One turn from a session: the reply, the session the turn leaves and
    the requests it issued. *)
Definition turn (s : Session) (message : string) : Reply * Session * list Call :=
  match chat_route message (mkWorld s []) with
  | (Ok reply, w) => (reply, session w, trace w)
  | (Raise _, w) => (ReplyError, session w, trace w)
  end.

End Assistant.

(** ** A test double for the environment *)

Module Demo.

(** The clock of the examples: 15 June 2025, 10:30. *)
Definition clock : datetime := mkdatetime (mkdate 2025 6 15) 10 30 0 0 None.

Definition iso (t : datetime) : string :=
  Date.isoformat (dt_date t) +:+ "T" +:+ Str.pad2 (hour t) +:+ ":" +:+
  Str.pad2 (minute t) +:+ ":" +:+ Str.pad2 (second t).

(** A date in the form [YYYY-MM-DD] at the head of [s], and the rest. *)
Definition read_date (s : string) : option (date * string) :=
  match s with
  | String y1 (String y2 (String y3 (String y4 (String "-"
      (String m1 (String m2 (String "-" (String d1 (String d2 rest))))))))) =>
      if forallb Str.is_digit [y1; y2; y3; y4; m1; m2; d1; d2]
      then Some (mkdate (Str.int (String y1 (String y2 (String y3 (String y4 ""))))) 
                        (Str.int (String m1 (String m2 "")))
                        (Str.int (String d1 (String d2 ""))), rest)
      else None
  | _ => None
  end.

Fixpoint leading_digits (s : string) : string * string :=
  match s with
  | String c s' =>
      if Str.is_digit c
      then let '(ds, rest) := leading_digits s' in (String c ds, rest)
      else ("", s)
  | EmptyString => ("", "")
  end.

(** A twelve-hour clock time such as [11:30 pm] or [2 pm]. *)
Definition read_clock (s : string) : option (Z * Z) :=
  let '(h, rest) := leading_digits (Str.lower (Str.strip s)) in
  if String.eqb h "" then None
  else
    let '(m, rest) :=
      match rest with
      | String ":" rest' => leading_digits rest'
      | _ => ("00", rest)
      end in
    let meridiem := Str.strip rest in
    let h := Str.int h mod 12 in
    if String.eqb meridiem "am" then Some (h, Str.int m)
    else if String.eqb meridiem "pm" then Some (h + 12, Str.int m)
    else None.

(** A small [dateparser]: the three relative words, an ISO date, an ISO
    date followed by a clock time. *)
Definition parse (text : string) (prefer_future : bool) : res (option datetime) :=
  let text := Str.lower (Str.strip text) in
  if String.eqb text "today" then Ok (Some clock)
  else if String.eqb text "tomorrow" then Ok (Some (DT.add_days 1 clock))
  else if String.eqb text "yesterday" then Ok (Some (DT.add_days (-1) clock))
  else match read_date text with
       | Some (d, rest) =>
           if String.eqb (Str.strip rest) "" then Ok (Some (mkdatetime d 0 0 0 0 None))
           else match read_clock rest with
                | Some (h, m) => Ok (Some (mkdatetime d h m 0 0 None))
                | None => Ok None
                end
       | None => Ok None
       end.

(** A small [re]: the e-mail shape is one [@] with a dot after it, a time
    is anything with a digit, nothing is rewritten or split. *)
Definition has_digit (s : string) : bool :=
  existsb Str.is_digit (list_ascii_of_string s).

Definition email_shaped (s : string) : bool :=
  match Str.split_char "@" s with
  | [local; domain] =>
      Str.truthy local && Str.contains "." domain &&
      negb (existsb Str.is_space (list_ascii_of_string s))
  | _ => false
  end.

Definition search (p : Pattern) (text : string) : option (list (option string)) :=
  match p with
  | PatTime => if has_digit text then Some [Some text] else None
  | PatEmailShape => if email_shaped text then Some [Some text] else None
  | _ => None
  end.

Definition attendee (email : string) : Attendee := mkAttendee (Some email).

Definition timed (start : string) : TimeSpec := mkTimeSpec (Some start) None (Some "UTC").

(** An event of the user's calendar. *)
Definition event (id summary organizer creator : string) (attendees : list string) : Event :=
  mkEvent id (Some summary) (timed "2025-06-20T09:00:00Z") (timed "2025-06-20T10:00:00Z")
    (Some (map attendee attendees)) (Some organizer) (Some creator)
    (Some "confirmed") None None None.

(** The environment of the examples, by what the services answer: the
    user's profile, the events every listing returns, and the answers to
    insert, update, delete and get. *)
Definition env (profile : res (option string)) (events : res (list Event))
    (inserted : res Event) (updated : res Event) (deleted : res unit)
    (got : res Event) : Env :=
  {| now := clock;
     utcnow := clock;
     isoformat := iso;
     strftime := fun _ t => iso t;
     fromisoformat := fun _ => Ok clock;
     dateparser_parse := parse;
     re_search := search;
     re_match := search;
     re_sub := fun _ _ text => text;
     re_split := fun _ text => [text];
     services_gmail := true;
     services_calendar := true;
     internal_services_gmail := true;
     chat := None;
     gmail_profile := profile;
     gmail_send := fun _ _ => Ok tt;
     calendar_list := fun _ _ _ => events;
     calendar_insert := fun _ => inserted;
     calendar_update := fun _ _ => updated;
     calendar_delete := fun _ => deleted;
     calendar_get := fun _ => got;
     email_pipeline := fun _ _ => Ok NoEmails;
     meeting_request_pipeline := fun _ => ("", []);
     extract_update_details := fun _ => ∅;
     fresh_meeting_id := fun name => "scheduled_" +:+ name |}.

Definition me : string := "me@example.com".

Definition not_found : exn :=
  HttpError "<HttpError 404 when requesting the event returned Not Found>".

End Demo.

(** ** What the collaborators' answers make of the helpers *)

Section Resolved.

Variable env : Env.

(** The user's address as [get_authenticated_user_email] resolves it. *)
Definition user_email_of : option string :=
  if services_gmail env
  then match gmail_profile env with
       | Ok profile => profile
       | Raise _ => None
       end
  else None.

(** The event [get_event_by_name] resolves a name to. *)
Definition found_event (event_name : string) : option Event :=
  match calendar_list env (isoformat env (DT.add_days (-30) (utcnow env)) +:+ "Z")
          (isoformat env (DT.add_days 180 (utcnow env)) +:+ "Z") (Some 50) with
  | Ok events => first_strategy_match search_strategies events event_name
  | Raise _ => None
  end.

(** The suggestions [suggest_similar_events] returns for a name. *)
Definition suggestions_for (event_name : string) : list (gmap string SugVal) :=
  match calendar_list env (isoformat env (DT.add_days (-30) (utcnow env)) +:+ "Z")
          (isoformat env (DT.add_days 30 (utcnow env)) +:+ "Z") (Some 50) with
  | Ok events => take 3 (sort_by_score (similar_events event_name events))
  | Raise _ => []
  end.

(** The verdict of [check_participant_calendar_conflicts] on a window:
    the calendar lists an event there with the participant among its
    attendees. *)
Definition has_conflict (participant_email : string) (start_time end_time : datetime)
    : bool :=
  match calendar_list env (isoformat env start_time) (isoformat env end_time) None with
  | Ok events => participant_in_events participant_email events
  | Raise _ => false
  end.

(** Did the send of a mail go through? *)
Definition sent (to_email : string) (mail : Mail) : bool :=
  match gmail_send env to_email mail with
  | Ok _ => true
  | Raise _ => false
  end.

End Resolved.

(** The replies that end a conversation: the outcome of an executor, or a
    failure that keeps the route from running one. *)
Definition terminal (r : Reply) : bool :=
  match r with
  | ReplyScheduleServicesUnavailable | ReplyInvalidParticipantEmail
  | ReplyConflict _ | ReplyScheduled _ _ _ _ | ReplyCreateFailed | ReplyScheduleError _
  | ReplyServicesUnavailable
  | ReplyUpdated _ _ | ReplyUpdateFailed _ | ReplyUpdateError _
  | ReplyNoDeletableEvents
  | ReplyDeleted _ _ | ReplyDeleteFailed _ | ReplyDeleteError _
  | ReplyError => true
  | _ => false
  end.

(** ** Reasoning about computations *)

(** [m] only appends requests that satisfy [P] to the trace. *)
Definition emits {A} (P : Call -> Prop) (m : M A) : Prop :=
  forall w, exists tr, trace (snd (m w)) = trace w ++ tr /\ Forall P tr.

(** [m] never raises. *)
Definition total {A} (m : M A) : Prop :=
  forall w, exists a, fst (m w) = Ok a.

(** [m] leaves the session as it found it. *)
Definition keeps_session {A} (m : M A) : Prop :=
  forall w, session (snd (m w)) = session w.

(** [x] ranks before [y]: its word overlap is at least that of [y]. *)
Definition ranks_before (x y : gmap string SugVal) : Prop :=
  (overlap_score y <= overlap_score x)%nat.

(** The attendees [update_event_with_sync] finds in conflict at the new
    time: other than the user, and busy in the window. *)
Definition in_conflict (env : Env) (user_email : string) (start_time end_time : datetime)
    (attendee : Attendee) : bool :=
  is_other_attendee user_email attendee &&
  has_conflict env (default "" (at_email attendee)) start_time end_time.

(** C7 as the specification words it, for one Update record: when the named
    event is found and some attendee with an address other than the
    authenticated user's is busy at the new time, the executor issues no
    calendar mutation. *)
Definition update_respects_conflicts (env : Env) (event_name new_date new_time : string)
    : Prop :=
  forall event attendee,
    found_event env event_name = Some event ->
    attendee ∈ default [] (ev_attendees event) ->
    truthy_opt (at_email attendee) = true ->
    Str.lower <$> at_email attendee <> Str.lower <$> user_email_of env ->
    has_conflict env (default "" (at_email attendee))
      (parse_datetime env new_date new_time).1 (parse_datetime env new_date new_time).2 = true ->
    Forall (fun c => is_calendar_mutation c = false)
      (trace (update_event_with_sync env event_name new_date new_time
                (mkWorld empty_session [])).2).

Module Scenario.

(** The user's calendar holds one meeting, Team Sync, with Bob. *)
Definition team_sync : Event :=
  Demo.event "e1" "Team Sync" Demo.me Demo.me ["bob@example.com"; Demo.me].

(** Every listing returns Team Sync: Bob is busy in every window. *)
Definition busy (profile : res (option string)) : Env :=
  Demo.env profile (Ok [team_sync]) (Ok team_sync) (Ok team_sync) (Ok tt)
    (Raise Demo.not_found).

(** The calendar holds HR review, and the user asks for HR sync. *)
Definition hr_review : Event :=
  Demo.event "e2" "HR review" Demo.me Demo.me ["bob@example.com"].

Definition hr : Env :=
  Demo.env (Ok (Some Demo.me)) (Ok [hr_review]) (Ok hr_review) (Ok hr_review) (Ok tt)
    (Raise Demo.not_found).

(** The event was listed, but the calendar answers the delete call with
    a 404: it is already gone. *)
Definition gone : Env :=
  Demo.env (Ok (Some Demo.me)) (Ok [hr_review]) (Ok hr_review) (Ok hr_review)
    (Raise Demo.not_found) (Raise Demo.not_found).

(** An empty calendar that refuses to create events. *)
Definition no_insert : Env :=
  Demo.env (Ok (Some Demo.me)) (Ok []) (Raise (HttpError "<HttpError 403 Forbidden>"))
    (Raise (Error "unused")) (Ok tt) (Raise Demo.not_found).

(** An empty calendar that creates what it is asked to. *)
Definition free : Env :=
  Demo.env (Ok (Some Demo.me)) (Ok []) (Ok team_sync) (Ok team_sync) (Ok tt)
    (Raise Demo.not_found).

Definition start : World := mkWorld empty_session [].

(** A complete Schedule record. *)
Definition complete_record : FieldDict :=
  {[ "participant_email" := Some "bob@example.com";
     "event_name" := Some "Team Sync";
     "event_date" := Some "2025-06-20";
     "event_time" := Some "10 am" ]}.

End Scenario.

(** A request that leaves the calendar as it is. *)
Definition reads_only (c : Call) : Prop := is_calendar_mutation c = false.

(** The event body [create_event_with_meeting_link] inserts. *)
Definition new_event (env : Env) (summary : string) (start_time end_time : datetime)
    (participant_email : string) : NewEvent :=
  mkNewEvent summary (isoformat env start_time) (isoformat env end_time)
    [Some participant_email; user_email_of env].

(** C6 as the specification words it, for one complete Schedule record:
    with a conflict the participant is sent the conflict notice and nothing
    is inserted; without one the event is inserted and the reply reports
    success with the meeting link. *)
Definition schedule_as_specified (env : Env) (details : FieldDict) : Prop :=
  let participant_email := dict_item details "participant_email" in
  let event_name := dict_item details "event_name" in
  let window := parse_datetime env (dict_item details "event_date")
                  (dict_item details "event_time") in
  let run := schedule_execute env details (mkWorld empty_session []) in
  if has_conflict env participant_email window.1 window.2
  then GmailSend participant_email (ConflictNotice event_name) ∈ trace run.2 /\
       Forall (fun c => is_calendar_mutation c = false) (trace run.2)
  else (exists body, CalendarInsert body ∈ trace run.2) /\
       exists meeting_link count,
         run.1 = Ok (ReplyScheduled event_name participant_email meeting_link count).

(** The outcome a turn must have for C2: a terminal reply comes with a
    cleared session. *)
Definition cleared_if_terminal (r : res Reply) (w : World) : Prop :=
  match r with
  | Ok reply => terminal reply = true -> session w = empty_session
  | Raise _ => True
  end.

(** [m] clears the session whenever it answers with a terminal reply. *)
Definition clears (m : M Reply) : Prop :=
  forall w, cleared_if_terminal (m w).1 (m w).2.

(** The same for a stage that may leave the reply to a later stage. *)
Definition clears_opt (m : M (option Reply)) : Prop :=
  forall w, match (m w).1 with
            | Ok (Some reply) => terminal reply = true -> session (m w).2 = empty_session
            | _ => True
            end.

(** The same for a stage that hands on a value or ends the turn. *)
Definition clears_sum {X} (m : M (X + Reply)) : Prop :=
  forall w, match (m w).1 with
            | Ok (inr reply) => terminal reply = true -> session (m w).2 = empty_session
            | _ => True
            end.

(** The invariant of the conversation: while a field is awaited the session
    holds an intent, the message list and the record, and a Schedule
    conversation awaits the first field its record lacks. *)
Definition session_ok (s : Session) : Prop :=
  forall field,
    s_waiting_for s = Some field ->
    is_Some (s_intent s) /\ is_Some (s_messages s) /\
    exists data,
      s_data s = Some data /\
      (s_intent s = Some Schedule ->
       exists prompt, get_missing_field_prompt data = Some (field, prompt)).

(** The sessions a conversation can be in: the empty session, and the
    session any turn leaves, whatever the services answer on that turn. *)
Inductive reachable : Session -> Prop :=
| reachable_empty : reachable empty_session
| reachable_turn (env : Env) (s : Session) (message : string) :
    reachable s -> reachable (turn env s message).1.2.

(** The field validators reject [user_input] for the awaited field: an
    address that is not one, a date that does not parse or lies before
    today, a text without a time.  (The Update flow strips its input once
    more.) *)
Inductive rejected (env : Env) : Intent -> string -> string -> Prop :=
| invalid_email (user_input : string) :
    validate_email env user_input = false ->
    rejected env Schedule "participant_email" user_input
| past_date (user_input : string) (parsed : option datetime) :
    dateparser_parse env user_input true = Ok parsed ->
    future_date env parsed = None ->
    rejected env Schedule "event_date" user_input
| unparseable_time (user_input : string) :
    truthy_opt (dict_get (extract_event_details env user_input) "event_time") = false ->
    rejected env Schedule "event_time" user_input
| past_new_date (user_input : string) (parsed : option datetime) :
    dateparser_parse env (Str.strip user_input) true = Ok parsed ->
    future_date env parsed = None ->
    rejected env Update "new_date" user_input
| unparseable_new_time (user_input : string) :
    truthy_opt (dict_get (extract_event_details env (Str.strip user_input)) "event_time")
      = false ->
    rejected env Update "new_time" user_input.

(** The reply that asks again for a field. *)
Definition reprompt (intent : Intent) (field : string) : Reply :=
  match intent with
  | Schedule =>
      if String.eqb field "participant_email"
      then ReplyPrompt field
             ("Please specify the missing information: " +:+ schedule_question field)
      else if String.eqb field "event_date" then ReplyInvalidDate
      else ReplyInvalidTime
  | Update =>
      if String.eqb field "new_date" then ReplyFieldRejected InvalidFutureDate
      else ReplyFieldRejected InvalidTimeRange
  | Delete => ReplyInvalidEventName
  end.

(** [m] leaves the session cleared whenever it returns. *)
Definition always_clears {A} (m : M A) : Prop :=
  forall w, match (m w).1 with
            | Ok _ => session (m w).2 = empty_session
            | Raise _ => True
            end.

(** The state in which the route enters the flow of an intent. *)
Definition ready (intent : Intent) (w : World) : Prop :=
  s_intent (session w) = Some intent /\
  is_Some (s_data (session w)) /\
  is_Some (s_messages (session w)) /\
  session_ok (session w).

(** What a stage owes the invariant: if it returns, the session is well
    formed. *)
Definition ok_after {A} (run : res A * World) : Prop :=
  match run.1 with
  | Ok _ => session_ok (session run.2)
  | Raise _ => True
  end.

(** The classifiers of a first message, in the priority order the
    specification gives them. *)
Inductive Classifier := EmailRequest | ScheduleKeywords | UpdateKeywords | DeleteKeywords.

Definition priority_order : list Classifier :=
  [EmailRequest; ScheduleKeywords; UpdateKeywords; DeleteKeywords].

Definition classifier_matches (env : Env) (c : Classifier) (user_input : string) : bool :=
  match c with
  | EmailRequest => is_email_processing_intent env user_input
  | ScheduleKeywords => is_schedule_intent user_input
  | UpdateKeywords => is_update_intent user_input
  | DeleteKeywords => is_delete_intent user_input
  end.

(** First match wins. *)
Definition first_match (env : Env) (user_input : string) : option Classifier :=
  List.find (fun c => classifier_matches env c user_input) priority_order.

(** The intent a classifier stands for; an e-mail request is served within
    its turn and stands for none. *)
Definition intent_of (c : Classifier) : option Intent :=
  match c with
  | EmailRequest => None
  | ScheduleKeywords => Some Schedule
  | UpdateKeywords => Some Update
  | DeleteKeywords => Some Delete
  end.

(** The replies of the e-mail branch. *)
Definition email_reply (r : Reply) : bool :=
  match r with
  | ReplyGmailUnavailable | ReplyNoEmails | ReplyEmailSummary _ | ReplyEmailError _ => true
  | _ => false
  end.

(** The replies to a message without intent: the outcome of a confirmed
    batch of meeting requests, the chat model's answer or a canned one. *)
Definition free_form_reply (r : Reply) : bool :=
  match r with
  | ReplyMeetingRequests _ | ReplyChat _ | ReplyFallback _ | ReplyFallbackDefault
  | ReplyFallbackError => true
  | _ => false
  end.

(** C4 as the specification words it, for the intent a route gives a first
    message: the intent of the first classifier that matches, in the order
    e-mail request, Schedule, Update, Delete. *)
Definition intent_as_specified (env : Env) (user_input : string) : option Intent :=
  first_match env user_input ≫= intent_of.

(** The acceptance of a date as the specification words it: the
    future-preferring parser produces a date, that date is today or later,
    and [iso] is its [YYYY-MM-DD] form. *)
Definition accepted_date (env : Env) (value iso : string) : Prop :=
  exists parsed,
    dateparser_parse env value true = Ok (Some parsed) /\
    Date.leb (DT.date_of (now env)) (DT.date_of parsed) = true /\
    iso = DT.strftime_Ymd parsed.

(** Ten characters: four digits, a dash, two digits, a dash, two digits. *)
Definition iso_date_shape (s : string) : bool :=
  match s with
  | String y1 (String y2 (String y3 (String y4 (String "-"
      (String m1 (String m2 (String "-" (String d1 (String d2 EmptyString))))))))) =>
      forallb Str.is_digit [y1; y2; y3; y4; m1; m2; d1; d2]
  | _ => false
  end.

(** * Further helpers and routes of [app.py] and [calenderinternal.py] *)

(** ** Rule-based mail triage *)

(** A mail as [parse_email_message] hands it on: the keys [id], [subject],
    [sender], [date], [body], [snippet] and [thread_id], each with a
    string. *)
Abbreviation EmailDict := (gmap string string).

(** [email.get(key, fallback)] *)
Definition email_get (email : EmailDict) (key fallback : string) : string :=
  default fallback (email !! key).

Definition high_urgency_keywords : list string :=
  ["urgent"; "asap"; "emergency"; "critical"; "deadline"; "immediate";
   "important"; "!!!"; "priority"; "expires"; "due today"].
Definition meeting_keywords : list string :=
  ["meeting"; "schedule"; "appointment"; "call"; "conference";
   "zoom"; "teams"; "meet"; "calendar"; "booking"; "available"].
Definition task_keywords : list string :=
  ["task"; "todo"; "action"; "review"; "complete"; "deadline";
   "project"; "assignment"; "deliverable"].
Definition spam_keywords : list string :=
  ["unsubscribe"; "promotion"; "offer"; "deal"; "discount";
   "free"; "winner"; "congratulations"; "click here"].
Definition personal_domains : list string := ["gmail.com"; "yahoo.com"; "hotmail.com"].

(** The [dict] an analysis of a mail is: [confidence] is a fraction. *)
Record Analysis := mkAnalysis {
  an_urgency : string;
  an_category : string;
  an_action_required : bool;
  an_confidence : Z * Z;
  an_reason : string;
  an_is_meeting_request : bool
}.

(** [categorize_email_fallback] *)
Definition categorize_email_fallback (email : EmailDict) : Analysis :=
  let subject := Str.lower (email_get email "subject" "") in
  let body := Str.lower (email_get email "body" "") in
  let snippet := Str.lower (email_get email "snippet" "") in
  let text := Str.lower (subject +:+ " " +:+ body +:+ " " +:+ snippet) in
  let urgency :=
    if any_in high_urgency_keywords text then "high"
    else if any_in (meeting_keywords ++ task_keywords) text then "medium"
    else "low" in
  let '(category, is_meeting_request) :=
    if any_in spam_keywords text then ("spam", false)
    else if any_in meeting_keywords text then ("meeting", true)
    else if any_in personal_domains (Str.lower (email_get email "sender" ""))
    then ("personal", false)
    else ("information", false) in
  let action_required :=
    String.eqb urgency "high" || bool_decide (category ∈ ["meeting"; "task"]) in
  mkAnalysis urgency category action_required (7, 10)
    ("Rule-based categorization: " +:+ category +:+ " with " +:+ urgency +:+ " urgency")
    is_meeting_request.

(** A mail with what the analysis added to it: [{**email, 'ai_urgency': ..}]. *)
Record ProcessedEmail := mkProcessedEmail {
  pe_email : EmailDict;
  pe_ai_urgency : string;
  pe_ai_category : string;
  pe_action_required : bool;
  pe_confidence : Z * Z;
  pe_ai_reason : string;
  pe_ai_summary : string;
  pe_is_meeting_request : bool
}.

(** [urgency_order.get(urgency, 1)] *)
Definition urgency_rank (urgency : string) : nat :=
  if String.eqb urgency "high" then 0
  else if String.eqb urgency "medium" then 1
  else if String.eqb urgency "low" then 2
  else 1.

(** [l.sort(key=lambda x: urgency_order.get(x['ai_urgency'], 1))]: stable *)
Fixpoint insert_by_urgency (x : ProcessedEmail) (l : list ProcessedEmail)
    : list ProcessedEmail :=
  match l with
  | [] => [x]
  | y :: l' =>
      if (urgency_rank (pe_ai_urgency x) <=? urgency_rank (pe_ai_urgency y))%nat
      then x :: y :: l'
      else y :: insert_by_urgency x l'
  end.
Definition sort_by_urgency (l : list ProcessedEmail) : list ProcessedEmail :=
  foldr insert_by_urgency [] l.

Section Triage.

(** The two analysers behind [process_emails_with_ai]: each hands back the
    answer of the model or its rule-based fallback, or raises. *)
Variable categorize_email_with_ai : EmailDict -> res Analysis.
Variable summarize_email_with_ai : EmailDict -> res string.

(** The body of the loop of [process_emails_with_ai] for one mail: the
    [try] block, and the record of the [except] block. *)
Definition process_email (email : EmailDict) : ProcessedEmail :=
  match res_bind (categorize_email_with_ai email) (fun ai_analysis =>
        res_bind (summarize_email_with_ai email) (fun ai_summary =>
        Ok (mkProcessedEmail email (an_urgency ai_analysis) (an_category ai_analysis)
              (an_action_required ai_analysis) (an_confidence ai_analysis)
              (an_reason ai_analysis) ai_summary (an_is_meeting_request ai_analysis))))
  with
  | Ok processed_email => processed_email
  | Raise _ =>
      mkProcessedEmail email "medium" "information" false (3, 10) "Error in processing"
        ("Email from " +:+ email_get email "sender" "Unknown" +:+ ": " +:+
         email_get email "subject" "No Subject")
        false
  end.

(** [process_emails_with_ai]: the processed mails by urgency, and the
    meeting requests among them in the order of arrival. *)
Definition process_emails_with_ai (emails : list EmailDict)
    : list ProcessedEmail * list ProcessedEmail :=
  let processed_emails := map process_email emails in
  let meeting_requests := List.filter pe_is_meeting_request processed_emails in
  (sort_by_urgency processed_emails, meeting_requests).

End Triage.

(** ** The e-mail configuration route *)

Record EmailConfig := mkEmailConfig {
  default_batch_size : Z;
  max_batch_size : Z;
  refresh_interval : Z;
  cache_duration : Z
}.

Definition EMAIL_CONFIG : EmailConfig := mkEmailConfig 20 200 300 600.

(** [request.method] of a route for GET and POST (a HEAD request, which
    the framework also sends to such a route, reaches neither branch and
    writes nothing). *)
Inductive Method := GET | POST.

(** The answer of [email_config]: the HTTP status, [success], the
    configuration shown and the error text. *)
Record ConfigResponse := mkConfigResponse {
  cr_status : Z;
  cr_success : bool;
  cr_config : option EmailConfig;
  cr_error : option string
}.

Section EmailConfigRoute.

(** The values of a JSON body and Python's [int] on them. *)
Variable Json : Type.
Variable int : Json -> res Z.

(** [email_config] on the configuration it finds; [data] is
    [request.json] when the body is a JSON object.  A body that is no
    object behaves as an object without keys (an array or a string that
    does not mention the two keys) or raises at the first use. *)
Definition email_config (method : Method) (data : res (gmap string Json))
    (config : EmailConfig) : ConfigResponse * EmailConfig :=
  match method with
  | GET => (mkConfigResponse 200 true (Some config) None, config)
  | POST =>
      match data with
      | Raise error => (mkConfigResponse 400 false None (Some (exn_str error)), config)
      | Ok data =>
          match
            match data !! "default_batch_size" with
            | Some v =>
                res_bind (int v) (fun n =>
                let new_batch_size := Z.min n (max_batch_size config) in
                Ok (mkEmailConfig (Z.max 10 new_batch_size) (max_batch_size config)
                      (refresh_interval config) (cache_duration config)))
            | None => Ok config
            end
          with
          | Raise error => (mkConfigResponse 400 false None (Some (exn_str error)), config)
          | Ok config1 =>
              match
                match data !! "refresh_interval" with
                | Some v =>
                    res_bind (int v) (fun n =>
                    Ok (mkEmailConfig (default_batch_size config1) (max_batch_size config1)
                          (Z.max 60 n) (cache_duration config1)))
                | None => Ok config1
                end
              with
              | Raise error =>
                  (mkConfigResponse 400 false None (Some (exn_str error)), config1)
              | Ok config2 => (mkConfigResponse 200 true (Some config2) None, config2)
              end
          end
      end
  end.

End EmailConfigRoute.

(** ** Validators and recovery helpers *)

(** The prompts of [get_missing_update_field_prompt] in
    [calenderinternal.py]. *)
Definition internal_update_question (field : string) : string :=
  if String.eqb field "event_name"
  then "What is the name of the event you want to update? (e.g., 'Team Meeting', 'Project Review')"
  else if String.eqb field "new_date"
  then "What is the new date for the meeting? (e.g., tomorrow, Friday, March 15)"
  else "What is the new time for the meeting? (e.g., 2:00 PM to 3:00 PM, 10 AM, morning)".

(** [get_missing_update_field_prompt] of [calenderinternal.py] *)
Definition internal_get_missing_update_field_prompt (current_data : FieldDict)
    : option (string * string) :=
  let missing :=
    (if field_missing current_data "event_name" then ["event_name"] else []) ++
    (if field_missing current_data "new_date" then ["new_date"] else []) ++
    (if field_missing current_data "new_time" then ["new_time"] else []) in
  match missing with
  | field :: _ => Some (field, internal_update_question field)
  | [] => None
  end.

(** The replies of [/handle_input]. *)
Inductive InputReply :=
| EmailSaved | InvalidEmailAddress | EventNameSaved | InvalidEventName | UnknownField.

(** The messages of [recover_from_calendar_error]. *)
Inductive RecoveryMsg :=
| RecAuthenticationExpired
| RecPermissionDenied
| RecAlreadyDeleted
| RecNoLongerExists
| RecRateLimit
| RecUnavailable
| RecOperationFailed (error : string)
| RecRecoveryFailed (error : string).


Section Helpers.

Variable env : Env.

(** [validate_update_request] *)
Definition validate_update_request (data : FieldDict) : list string :=
  let errors := [] in
  let errors :=
    if truthy_opt (dict_get data "event_name") then errors
    else errors ++ ["Event name is required"] in
  let errors :=
    if truthy_opt (dict_get data "new_date") then errors
    else errors ++ ["New date is required"] in
  let errors :=
    if truthy_opt (dict_get data "new_time") then errors
    else errors ++ ["New time is required"] in
  if truthy_opt (dict_get data "new_date")
  then match dateparser_parse env (dict_item data "new_date") false with
       | Ok parsed =>
           (* [not parsed or parsed.date() < today]: no date that is today or later *)
           if bool_decide (is_Some (future_date env parsed)) then errors
           else errors ++ ["New date must be today or in the future"]
       | Raise _ => errors ++ ["Invalid date format"]
       end
  else errors.

(** The [/handle_input] route. *)
Definition handle_input (user_input field : string) : M InputReply :=
  s <- get_session ;;
  let data := default ∅ (s_data s) in
  if String.eqb field "email"
  then if validate_email env (Str.strip user_input)
       then let email := Str.strip user_input in
            modify_session (fun s =>
              set_waiting_for None (set_data (Some (<[field := Some email]> data)) s)) ;;;
            ret EmailSaved
       else ret InvalidEmailAddress
  else if String.eqb field "event_name"
  then let event_name := Str.strip user_input in
       if Str.truthy event_name
       then modify_session (fun s =>
              set_waiting_for None (set_data (Some (<[field := Some event_name]> data)) s)) ;;;
            ret EventNameSaved
       else ret InvalidEventName
  else ret UnknownField.

(** [recover_from_calendar_error]; [None] is the [None] a fall through the
    404 branch returns.  [services['calendar']] raises when the service is
    missing. *)
Definition recover_from_calendar_error (operation_type : string) (error : exn)
    : M (option (bool * RecoveryMsg)) :=
  try_catch
    (let text := exn_str error in
     if Str.contains "401" text then ret (Some (false, RecAuthenticationExpired))
     else if Str.contains "403" text then ret (Some (false, RecPermissionDenied))
     else if Str.contains "404" text
     then if String.eqb operation_type "delete"
          then (if services_calendar env then ret tt else raise (KeyError "calendar")) ;;;
               sync_session_with_calendar env ;;;
               ret (Some (true, RecAlreadyDeleted))
          else if String.eqb operation_type "update"
          then ret (Some (false, RecNoLongerExists))
          else ret None
     else if Str.contains "429" text then ret (Some (false, RecRateLimit))
     else if Str.contains "503" text || Str.contains "502" text
     then ret (Some (false, RecUnavailable))
     else ret (Some (false, RecOperationFailed text)))
    (fun recovery_error => ret (Some (false, RecRecoveryFailed (exn_str recovery_error)))).

(** [delete_event_with_recovery]: the answer of the executor, or that of
    the recovery. *)
Definition delete_event_with_recovery (event_name : string)
    : M (bool * SyncMsg + option (bool * RecoveryMsg)) :=
  try_catch
    (r <- delete_event_with_sync env event_name ;; ret (inl r))
    (fun error => r <- recover_from_calendar_error "delete" error ;; ret (inr r)).

(** [update_event_with_recovery] *)
Definition update_event_with_recovery (event_name new_date new_time : string)
    : M (bool * SyncMsg + option (bool * RecoveryMsg)) :=
  try_catch
    (r <- update_event_with_sync env event_name new_date new_time ;; ret (inl r))
    (fun error => r <- recover_from_calendar_error "update" error ;; ret (inr r)).



(** The meetings [get_scheduled_meetings_from_calendar] resolves to. *)
Definition listed_meetings : list Meeting :=
  if negb (services_calendar env) then []
  else
    match calendar_list env (isoformat env (utcnow env) +:+ "Z")
            (isoformat env (DT.add_days 30 (utcnow env)) +:+ "Z") (Some 50) with
    | Ok events =>
        match organized_meetings (user_email_of env) events with
        | Ok meetings => meetings
        | Raise _ => []
        end
    | Raise _ => []
    end.

(** The filter [sync_session_with_calendar] applies to the session list. *)
Definition still_listed (calendar_meetings : list Meeting) (session_meeting : Meeting)
    : bool :=
  if truthy_opt (mt_calendar_event_id session_meeting)
  then existsb (fun cal_meeting => bool_decide (mt_calendar_event_id cal_meeting =
                                                mt_calendar_event_id session_meeting))
         calendar_meetings
  else true.

(** What [get_all_scheduled_meetings] makes of the session list: the
    listed meetings first, then the session meetings with an id not seen,
    sorted by date and time. *)
Definition merged_meetings (session_meetings : list Meeting) : list Meeting :=
  sort_by_key (fold_left add_unseen session_meetings
                 (fold_left add_unseen listed_meetings [])).

(** The session [sync_session_with_calendar] leaves. *)
Definition synced (s : Session) : Session :=
  match s_scheduled_meetings s with
  | Some session_meetings =>
      set_scheduled_meetings
        (Some (List.filter (still_listed listed_meetings) session_meetings)) s
  | None => s
  end.

End Helpers.

(** The session of a user who scheduled Team Sync through the assistant:
    the meeting is tracked under the id of the session, and the calendar
    lists it under the id of its event. *)
Module Tracking.

Definition tracked : Meeting :=
  mkMeeting "scheduled_Team Sync" "bob@example.com" "Team Sync" "2025-06-20" "10 am" ""
    (Some "e1").

Definition listed : Meeting :=
  mkMeeting "cal_e1" "bob@example.com" "Team Sync" "2025-06-20" "09:00 - 10:00" ""
    (Some "e1").

Definition start : World :=
  mkWorld (set_scheduled_meetings (Some [tracked]) empty_session) [].

End Tracking.

(** A calendar whose only event has no summary. *)
Module Untitled.

Definition event : Event :=
  mkEvent "e3" None (Demo.timed "2025-06-21T09:00:00Z") (Demo.timed "2025-06-21T10:00:00Z")
    None (Some Demo.me) (Some Demo.me) (Some "confirmed") None None None.

Definition calendar : Env :=
  Demo.env (Ok (Some Demo.me)) (Ok [event]) (Ok event) (Ok event) (Ok tt)
    (Raise Demo.not_found).

End Untitled.

(** A Delete conversation in which the listing of the user's one event
    has just been shown. *)
Module Listing.

Definition shown : list Deletable := [mkDeletable "HR review" "Jun 20, 2025" "e2" false].

Definition start : World :=
  mkWorld (mkSession (Some Delete) (Some ∅) (Some "event_name") (Some []) None
             (Some "delete an event") (Some shown) None None None ∅) [].

End Listing.

(** * Properties *)

Section MonadFacts.

Context {A B : Type}.

Lemma emits_ret (P : Call -> Prop) (a : A) : emits P (ret a).
Proof. intros w. exists []. simpl. by rewrite app_nil_r. Qed.

Lemma emits_raise (P : Call -> Prop) (e : exn) : emits P (@raise A e).
Proof. intros w. exists []. simpl. by rewrite app_nil_r. Qed.

Lemma emits_lift_res (P : Call -> Prop) (r : res A) : emits P (lift_res r).
Proof. intros w. exists []. simpl. by rewrite app_nil_r. Qed.

Lemma emits_request (P : Call -> Prop) (c : Call) (r : res A) :
  P c -> emits P (request c r).
Proof. intros Hc w. exists [c]. simpl. split; [done | by constructor]. Qed.

Lemma emits_bind (P : Call -> Prop) (m : M A) (k : A -> M B) :
  emits P m -> (forall a, emits P (k a)) -> emits P (bind m k).
Proof.
  intros Hm Hk w. unfold bind.
  destruct (Hm w) as (tr1 & E1 & F1).
  destruct (m w) as [[a | e] w1]; simpl in *.
  - destruct (Hk a w1) as (tr2 & E2 & F2).
    exists (tr1 ++ tr2). rewrite E2, E1, app_assoc. split; [done | by apply Forall_app].
  - by exists tr1.
Qed.

Lemma emits_weaken (P Q : Call -> Prop) (m : M A) :
  (forall c, P c -> Q c) -> emits P m -> emits Q m.
Proof.
  intros HPQ Hm w. destruct (Hm w) as (tr & E & F). exists tr. split; [done |].
  eapply Forall_impl; eauto.
Qed.

Lemma total_ret (a : A) : total (ret a).
Proof. intros w. by exists a. Qed.

Lemma keeps_session_ret (a : A) : keeps_session (ret a).
Proof. by intros w. Qed.

Lemma keeps_session_request (c : Call) (r : res A) : keeps_session (request c r).
Proof. by intros w. Qed.

Lemma keeps_session_lift_res (r : res A) : keeps_session (lift_res r).
Proof. by intros w. Qed.

Lemma keeps_session_bind (m : M A) (k : A -> M B) :
  keeps_session m -> (forall a, keeps_session (k a)) -> keeps_session (bind m k).
Proof.
  intros Hm Hk w. unfold bind. specialize (Hm w).
  destruct (m w) as [[a | e] w1]; simpl in *; [| done].
  by rewrite Hk.
Qed.

End MonadFacts.

Lemma emits_try_catch {A} (P : Call -> Prop) (m : M A) (h : exn -> M A) :
  emits P m -> (forall e, emits P (h e)) -> emits P (try_catch m h).
Proof.
  intros Hm Hh w. unfold try_catch.
  destruct (Hm w) as (tr1 & E1 & F1).
  destruct (m w) as [[a | e] w1]; simpl in *.
  - by exists tr1.
  - destruct (Hh e w1) as (tr2 & E2 & F2).
    exists (tr1 ++ tr2). rewrite E2, E1, app_assoc. split; [done | by apply Forall_app].
Qed.

Lemma total_try_catch {A} (m : M A) (h : exn -> M A) :
  (forall e, total (h e)) -> total (try_catch m h).
Proof.
  intros Hh w. unfold try_catch.
  destruct (m w) as [[a | e] w1]; simpl; [by exists a |]. apply Hh.
Qed.

Lemma keeps_session_try_catch {A} (m : M A) (h : exn -> M A) :
  keeps_session m -> (forall e, keeps_session (h e)) -> keeps_session (try_catch m h).
Proof.
  intros Hm Hh w. unfold try_catch. specialize (Hm w).
  destruct (m w) as [[a | e] w1]; simpl in *; [done |].
  by rewrite Hh.
Qed.

Lemma emits_modify_session (P : Call -> Prop) (f : Session -> Session) :
  emits P (modify_session f).
Proof. intros w. exists []. simpl. by rewrite app_nil_r. Qed.

Lemma emits_get_session (P : Call -> Prop) : emits P get_session.
Proof. intros w. exists []. simpl. by rewrite app_nil_r. Qed.

Lemma emits_for_fold {A S} (P : Call -> Prop) (l : list A) (s : S) (body : A -> S -> M S) :
  (forall a s, emits P (body a s)) -> emits P (for_fold l s body).
Proof.
  intros Hb. revert s. induction l as [| a l IH]; intros s; simpl.
  - apply emits_ret.
  - apply emits_bind; [apply Hb | intros s'; apply IH].
Qed.

Lemma emits_for_each {A} (P : Call -> Prop) (l : list A) (body : A -> M unit) :
  (forall a, emits P (body a)) -> emits P (for_each l body).
Proof.
  intros Hb. induction l as [| a l IH]; simpl.
  - apply emits_ret.
  - apply emits_bind; [apply Hb | intros _; apply IH].
Qed.

(** ** The helpers, run *)

Section Runs.

Variable env : Env.

Lemma logged_nil (w : World) : logged w [] = w.
Proof. destruct w. unfold logged. simpl. by rewrite app_nil_r. Qed.

Lemma logged_logged (w : World) (c1 c2 : list Call) :
  logged (logged w c1) c2 = logged w (c1 ++ c2).
Proof. unfold logged. simpl. by rewrite app_assoc. Qed.

Lemma get_authenticated_user_email_run (w : World) :
  get_authenticated_user_email env w =
  (Ok (user_email_of env),
   logged w (if services_gmail env then [GmailGetProfile] else [])).
Proof.
  unfold get_authenticated_user_email, user_email_of, try_catch, request, ret.
  destruct (services_gmail env); [| by rewrite logged_nil].
  by destruct (gmail_profile env).
Qed.

Lemma get_event_by_name_run (event_name : string) (w : World) :
  get_event_by_name env event_name w =
  (Ok (found_event env event_name),
   logged w [CalendarList (isoformat env (DT.add_days (-30) (utcnow env)) +:+ "Z")
               (isoformat env (DT.add_days 180 (utcnow env)) +:+ "Z") (Some 50)]).
Proof.
  unfold get_event_by_name, found_event, try_catch, bind, request, ret. simpl.
  by destruct (calendar_list env _ _ _).
Qed.

Lemma suggest_similar_events_run (event_name : string) (w : World) :
  suggest_similar_events env event_name w =
  (Ok (suggestions_for env event_name),
   logged w [CalendarList (isoformat env (DT.add_days (-30) (utcnow env)) +:+ "Z")
               (isoformat env (DT.add_days 30 (utcnow env)) +:+ "Z") (Some 50)]).
Proof.
  unfold suggest_similar_events, suggestions_for, try_catch, bind, request, ret. simpl.
  by destruct (calendar_list env _ _ _).
Qed.

Lemma check_participant_calendar_conflicts_run (participant_email : string)
    (start_time end_time : datetime) (w : World) :
  check_participant_calendar_conflicts env participant_email start_time end_time w =
  (Ok (has_conflict env participant_email start_time end_time),
   logged w [CalendarList (isoformat env start_time) (isoformat env end_time) None]).
Proof.
  unfold check_participant_calendar_conflicts, has_conflict, try_catch, bind, request, ret.
  simpl. by destruct (calendar_list env _ _ _).
Qed.

Lemma send_enhanced_email_run (to_email : string) (mail : Mail) (w : World) :
  send_enhanced_email env to_email mail w =
  (Ok (sent env to_email mail), logged w [GmailSend to_email mail]).
Proof.
  unfold send_enhanced_email, sent, try_catch, bind, request, ret. simpl.
  by destruct (gmail_send env _ _).
Qed.

Lemma send_conflict_notification_run (participant_email event_name : string)
    (start_time end_time : datetime) (w : World) :
  send_conflict_notification env participant_email event_name start_time end_time w =
  (Ok (sent env participant_email (ConflictNotice event_name)),
   logged w [GmailSend participant_email (ConflictNotice event_name)]).
Proof.
  unfold send_conflict_notification, try_catch. by rewrite send_enhanced_email_run.
Qed.

Lemma send_meeting_cancellation_email_run (participant_email event_name reason : string)
    (w : World) :
  send_meeting_cancellation_email env participant_email event_name reason w =
  (Ok (sent env participant_email (CancellationNotice event_name reason)),
   logged w [GmailSend participant_email (CancellationNotice event_name reason)]).
Proof.
  unfold send_meeting_cancellation_email, try_catch. by rewrite send_enhanced_email_run.
Qed.

End Runs.

(** ** The organizer test (C9) *)

Lemma is_user_organizer_known (organizer creator user : option string) :
  truthy_opt user = true ->
  is_user_organizer organizer creator user =
  String.eqb (Str.lower (default "" organizer)) (Str.lower (default "" user)).
Proof. intros Hu. unfold is_user_organizer. by rewrite Hu. Qed.

(** C9: the test never looks at the creator.  Whatever the creator is, the
    answer is the same; a user who created an event that someone else
    organizes is not taken for its organizer, although the source announces
    an organizer-or-creator test. *)
Theorem is_user_organizer_ignores_creator :
  (forall organizer creator creator' user,
     is_user_organizer organizer creator user = is_user_organizer organizer creator' user) /\
  is_user_organizer (Some "boss@example.com") (Some "me@example.com")
                    (Some "me@example.com") = false.
Proof.
  split; [| reflexivity].
  intros organizer creator creator' user. unfold is_user_organizer.
  by destruct (truthy_opt user).
Qed.

(** The listing of the user's meetings drops an event the user created
    when another address organizes it. *)
Example created_event_not_listed :
  let created := Demo.event "e7" "Design review" "boss@example.com" Demo.me
                   ["bob@example.com"] in
  let env := Demo.env (Ok (Some Demo.me)) (Ok [created]) (Raise (Error "unused"))
               (Raise (Error "unused")) (Ok tt) (Raise Demo.not_found) in
  fst (get_scheduled_meetings_from_calendar env (mkWorld empty_session [])) = Ok [].
Proof. reflexivity. Qed.

(** ** Deleting an event that is already gone (C3) *)

Section Delete.

Variable env : Env.

Lemma notify_cancellation_run (user_email event_summary reason : string)
    (attendees : list Attendee) (w : World) :
  exists notified tr,
    notify_cancellation env user_email event_summary reason attendees w =
    (Ok notified, logged w tr) /\
    Forall (fun c => negb (is_calendar_mutation c) = true) tr.
Proof.
  unfold notify_cancellation. generalize false as acc. revert w.
  induction attendees as [| a attendees IH]; intros w acc; simpl.
  - exists acc, []. by rewrite logged_nil.
  - unfold bind at 1. destruct (is_other_attendee user_email a).
    + unfold bind at 1. rewrite send_meeting_cancellation_email_run. simpl.
      destruct (IH (logged w [GmailSend (default "" (at_email a))
                                (CancellationNotice event_summary reason)])
                   (if sent env (default "" (at_email a))
                             (CancellationNotice event_summary reason)
                    then true else acc)) as (b & tr & E & F).
      exists b, (GmailSend (default "" (at_email a))
                   (CancellationNotice event_summary reason) :: tr).
      rewrite E, logged_logged. split; [done | by constructor].
    + simpl. apply IH.
Qed.

Lemma delete_event_with_sync_gone (event_name : string) (event : Event) (e : exn)
    (w : World) :
  found_event env event_name = Some event ->
  calendar_delete env (ev_id event) = Raise e ->
  Str.contains "404" (exn_str e) = true ->
  fst (delete_event_with_sync env event_name w) = Ok (false, MsgAlreadyDeleted event_name).
Proof.
  intros Hfound Hdel H404.
  unfold delete_event_with_sync, try_catch at 1, bind at 1.
  rewrite get_event_by_name_run, Hfound.
  unfold bind at 1. rewrite get_authenticated_user_email_run.
  unfold bind at 1.
  match goal with
  | |- context [(if ?c then notify_cancellation _ ?u ?s ?r ?a else ret false) ?w'] =>
      assert (exists b tr, (if c then notify_cancellation env u s r a else ret false) w'
                           = (Ok b, logged w' tr)) as (b & tr & ->)
  end.
  { destruct (_ && _).
    - destruct (notify_cancellation_run (default "" (user_email_of env))
                  (default event_name (ev_summary event)) "Meeting cancelled by organizer"
                  (default [] (ev_attendees event))
                  (logged (logged w [CalendarList
                     (isoformat env (DT.add_days (-30) (utcnow env)) +:+ "Z")
                     (isoformat env (DT.add_days 180 (utcnow env)) +:+ "Z") (Some 50)])
                     (if services_gmail env then [GmailGetProfile] else [])))
        as (b & tr & E & _). eauto.
    - exists false, []. by rewrite logged_nil. }
  unfold try_catch, bind, request. simpl. rewrite Hdel. simpl. by rewrite H404.
Qed.

Lemma delete_event_gone (event_name : string) (event : Event) (e : exn) (w : World) :
  found_event env event_name = Some event ->
  calendar_delete env (ev_id event) = Raise e ->
  Str.contains "404" (exn_str e) = true ->
  fst (delete_event env event_name w) = Ok true.
Proof.
  intros Hfound Hdel H404.
  unfold delete_event, try_catch at 1, bind at 1.
  rewrite get_event_by_name_run, Hfound.
  unfold bind at 1.
  destruct (internal_get_authenticated_user_email env _) as [[user_email | e1] w1] eqn:Eu.
  2:{ exfalso. revert Eu. unfold internal_get_authenticated_user_email, try_catch, bind,
        request, ret. destruct (internal_services_gmail env); [| done].
      by destruct (gmail_profile env). }
  unfold bind at 1.
  destruct (for_each _ _ w1) as [[[] | e2] w2] eqn:Eloop.
  2:{ exfalso. revert Eloop. generalize w1.
      induction (default [] (ev_attendees event)) as [| a l IH]; intros w'; simpl; [done |].
      unfold bind at 1. destruct (is_other_attendee user_email a).
      - unfold bind at 1. rewrite send_meeting_cancellation_email_run. simpl. apply IH.
      - simpl. apply IH. }
  unfold try_catch, bind, request. simpl. rewrite Hdel. simpl. by rewrite H404.
Qed.

(** C3, as the code has it: when the event a Delete conversation names is
    found and the calendar then answers the delete call with a 404,
    [delete_event_with_sync] reports failure and the route's reply is the
    failure reply, while the sibling [delete_event] of
    [calenderinternal.py] reports success on the same answer. *)
Theorem delete_of_gone_event_reports_failure (details : FieldDict) (event : Event)
    (e : exn) (w : World) :
  services_calendar env = true ->
  services_gmail env = true ->
  found_event env (dict_item details "event_name") = Some event ->
  calendar_delete env (ev_id event) = Raise e ->
  Str.contains "404" (exn_str e) = true ->
  fst (delete_execute env details w) =
    Ok (ReplyDeleteFailed (MsgAlreadyDeleted (dict_item details "event_name"))) /\
  fst (delete_event env (dict_item details "event_name") w) = Ok true.
Proof.
  intros Hc Hg Hfound Hdel H404. split; [| by eapply delete_event_gone].
  unfold delete_execute. rewrite Hc, Hg. simpl.
  unfold try_catch, bind.
  pose proof (delete_event_with_sync_gone _ _ _ w Hfound Hdel H404) as E.
  destruct (delete_event_with_sync env _ w) as [r w1]. simpl in E. subst r.
  reflexivity.
Qed.

End Delete.

(** ** An event name that resolves to nothing (C8) *)

Section Suggestions.

Variable env : Env.

Lemma elem_of_insert_by_score (x z : gmap string SugVal) (l : list (gmap string SugVal)) :
  z ∈ insert_by_score x l <-> z = x \/ z ∈ l.
Proof.
  induction l as [| y l IH]; simpl.
  - rewrite list_elem_of_singleton. split; [by left | by intros [? | ?%elem_of_nil]].
  - destruct (_ <=? _)%nat.
    + by rewrite elem_of_cons.
    + rewrite !elem_of_cons, IH. tauto.
Qed.

Lemma elem_of_sort_by_score (z : gmap string SugVal) (l : list (gmap string SugVal)) :
  z ∈ sort_by_score l <-> z ∈ l.
Proof.
  induction l as [| x l IH]; simpl; [done |].
  by rewrite elem_of_insert_by_score, IH, elem_of_cons.
Qed.

Lemma insert_by_score_sorted (x : gmap string SugVal) (l : list (gmap string SugVal)) :
  StronglySorted ranks_before l -> StronglySorted ranks_before (insert_by_score x l).
Proof.
  induction 1 as [| y l Hl IH Hy]; simpl.
  - by repeat constructor.
  - destruct (Nat.leb_spec (overlap_score y) (overlap_score x)) as [Hle | Hlt].
    + constructor; [by constructor |].
      constructor; [done |].
      eapply Forall_impl; [exact Hy |]. unfold ranks_before. intros z Hz. lia.
    + constructor; [done |].
      apply Forall_forall. intros z [-> | Hz]%elem_of_insert_by_score.
      * unfold ranks_before. lia.
      * by eapply Forall_forall in Hy.
Qed.

Lemma sort_by_score_sorted (l : list (gmap string SugVal)) :
  StronglySorted ranks_before (sort_by_score l).
Proof.
  induction l as [| x l IH]; simpl; [constructor |].
  by apply insert_by_score_sorted.
Qed.

Lemma take_sorted (n : nat) (l : list (gmap string SugVal)) :
  StronglySorted ranks_before l -> StronglySorted ranks_before (take n l).
Proof.
  intros Hl. revert n. induction Hl as [| x l Hl IH Hx]; intros [| n]; simpl;
    try constructor; [apply IH |].
  apply Forall_forall. intros z Hz. apply (subseteq_take n) in Hz.
  by eapply Forall_forall in Hx.
Qed.

(** What holds of the suggestions: at most three, best overlap first,
    each one a listed event's summary that shares a word with the name. *)
Lemma suggestions_for_ranked (event_name : string) :
  (length (suggestions_for env event_name) <= 3)%nat /\
  StronglySorted ranks_before (suggestions_for env event_name) /\
  Forall (fun s => (0 < overlap_score s)%nat /\ s !! "summary" = None /\
                   exists summary, s !! "name" = Some (SugStr summary))
         (suggestions_for env event_name).
Proof.
  unfold suggestions_for. destruct (calendar_list env _ _ _) as [events | e].
  2:{ simpl. split; [lia |]. split; constructor. }
  split; [rewrite length_take; lia |].
  split; [apply take_sorted, sort_by_score_sorted |].
  apply Forall_forall. intros s Hs.
  apply (subseteq_take 3) in Hs. rewrite elem_of_sort_by_score in Hs.
  unfold similar_events in Hs. apply list_elem_of_In, in_flat_map in Hs.
  destruct Hs as (event & _ & Hs).
  destruct (Str.truthy _); [| by destruct Hs].
  destruct (Nat.ltb_spec 0 (size (word_set event_name ∩
                                   word_set (default "" (ev_summary event)))))
    as [Hpos | Hzero]; [| by destruct Hs].
  destruct Hs as [<- | []].
  split; [| split].
  - unfold overlap_score. by rewrite lookup_insert_ne, lookup_insert_ne, lookup_singleton_eq.
  - by rewrite !lookup_insert_ne, lookup_singleton_ne.
  - eexists. by rewrite lookup_insert_eq.
Qed.

Lemma summary_of_suggestions_raises (l : list (gmap string SugVal)) :
  l <> [] ->
  Forall (fun s => s !! "summary" = None) l ->
  res_map_list (sug_item "summary") l = Raise (KeyError "summary").
Proof.
  destruct l as [| s l]; [done |]. intros _ Hl. inversion_clear Hl as [| ? ? Hs _].
  simpl. unfold sug_item. by rewrite Hs.
Qed.

Lemma suggestions_lack_summary (event_name : string) (n : nat) :
  suggestions_for env event_name <> [] ->
  res_map_list (sug_item "summary") (take n (suggestions_for env event_name)) =
    match n with
    | O => Ok []
    | S _ => Raise (KeyError "summary")
    end.
Proof.
  intros Hne. destruct n as [| n]; [by rewrite take_0 |].
  apply summary_of_suggestions_raises.
  - by destruct (suggestions_for env event_name).
  - apply Forall_forall. intros s Hs. apply (subseteq_take (S n)) in Hs.
    destruct (suggestions_for_ranked event_name) as (_ & _ & H).
    by eapply Forall_forall in H as (_ & ? & _).
Qed.

(** C8, as the code has it: when the name resolves to no event and the
    calendar holds similar events, both executors read the key [summary]
    of a suggestion, which has none, and report an unexpected error
    instead of the not-found message with its suggestions.  The two
    requests they issue are listings. *)
Theorem not_found_with_suggestions_is_an_error (event_name new_date new_time : string)
    (w : World) :
  found_event env event_name = None ->
  suggestions_for env event_name <> [] ->
  let listings :=
    [CalendarList (isoformat env (DT.add_days (-30) (utcnow env)) +:+ "Z")
       (isoformat env (DT.add_days 180 (utcnow env)) +:+ "Z") (Some 50);
     CalendarList (isoformat env (DT.add_days (-30) (utcnow env)) +:+ "Z")
       (isoformat env (DT.add_days 30 (utcnow env)) +:+ "Z") (Some 50)] in
  update_event_with_sync env event_name new_date new_time w =
    (Ok (false, MsgUnexpectedUpdateError "'summary'"), logged w listings) /\
  delete_event_with_sync env event_name w =
    (Ok (false, MsgUnexpectedDeleteError "'summary'"), logged w listings).
Proof.
  intros Hnone Hsome listings.
  pose proof (suggestions_lack_summary event_name 3 Hsome) as H3.
  assert (res_map_list (sug_item "summary") (suggestions_for env event_name) =
          Raise (KeyError "summary")) as Hall.
  { pose proof (suggestions_lack_summary event_name
                  (S (length (suggestions_for env event_name))) Hsome) as H.
    by rewrite take_ge in H by lia. }
  split.
  - unfold update_event_with_sync, try_catch at 1, bind at 1.
    rewrite get_event_by_name_run, Hnone.
    unfold bind at 1. rewrite suggest_similar_events_run.
    destruct (suggestions_for env event_name) as [| s l] eqn:E; [done |].
    unfold bind, lift_res. rewrite H3. simpl. by rewrite logged_logged.
  - unfold delete_event_with_sync, try_catch at 1, bind at 1.
    rewrite get_event_by_name_run, Hnone.
    unfold bind at 1. rewrite suggest_similar_events_run.
    destruct (suggestions_for env event_name) as [| s l] eqn:E; [done |].
    unfold bind, lift_res. rewrite Hall. simpl. by rewrite logged_logged.
Qed.

(** Without a similar event the executors do report not-found. *)
Lemma not_found_without_suggestions (event_name new_date new_time : string) (w : World) :
  found_event env event_name = None ->
  suggestions_for env event_name = [] ->
  fst (update_event_with_sync env event_name new_date new_time w) =
    Ok (false, MsgNotFound event_name) /\
  fst (delete_event_with_sync env event_name w) = Ok (false, MsgNotFound event_name).
Proof.
  intros Hnone Hsug. split.
  - unfold update_event_with_sync, try_catch at 1, bind at 1.
    rewrite get_event_by_name_run, Hnone.
    unfold bind at 1. by rewrite suggest_similar_events_run, Hsug.
  - unfold delete_event_with_sync, try_catch at 1, bind at 1.
    rewrite get_event_by_name_run, Hnone.
    unfold bind at 1. by rewrite suggest_similar_events_run, Hsug.
Qed.

End Suggestions.

(** ** Updating an event whose attendees are busy (C7) *)

Section UpdateConflicts.

Variable env : Env.

Lemma check_attendee_conflicts_run (user_email event_summary : string)
    (new_start_time new_end_time : datetime) (attendees : list Attendee) (w : World) :
  exists tr,
    check_attendee_conflicts env user_email event_summary new_start_time new_end_time
      attendees w =
    (Ok (existsb (in_conflict env user_email new_start_time new_end_time) attendees),
     logged w tr) /\
    Forall (fun c => negb (is_calendar_mutation c) = true) tr /\
    forall attendee,
      attendee ∈ attendees ->
      in_conflict env user_email new_start_time new_end_time attendee = true ->
      GmailSend (default "" (at_email attendee)) (ConflictNotice event_summary) ∈ tr.
Proof.
  unfold check_attendee_conflicts.
  enough (forall acc w, exists tr,
    for_fold attendees acc
      (fun attendee conflict_detected =>
         if is_other_attendee user_email attendee
         then
           has_conflict <- check_participant_calendar_conflicts env
                             (default "" (at_email attendee)) new_start_time new_end_time ;;
           if has_conflict
           then send_conflict_notification env (default "" (at_email attendee))
                  event_summary new_start_time new_end_time ;;; ret true
           else ret conflict_detected
         else ret conflict_detected) w =
    (Ok (acc || existsb (in_conflict env user_email new_start_time new_end_time) attendees),
     logged w tr) /\
    Forall (fun c => negb (is_calendar_mutation c) = true) tr /\
    forall attendee,
      attendee ∈ attendees ->
      in_conflict env user_email new_start_time new_end_time attendee = true ->
      GmailSend (default "" (at_email attendee)) (ConflictNotice event_summary) ∈ tr)
    as H by apply (H false w).
  induction attendees as [| a l IH]; intros acc w'; simpl.
  - exists []. rewrite logged_nil, orb_false_r. split; [done |]. split; [constructor |].
    by intros attendee ?%elem_of_nil.
  - unfold bind at 1, in_conflict at 1 3.
    destruct (is_other_attendee user_email a) eqn:Eo; simpl.
    + unfold bind at 1. rewrite check_participant_calendar_conflicts_run.
      destruct (has_conflict env _ _ _) eqn:Ec; simpl.
      * unfold bind at 1. rewrite send_conflict_notification_run. simpl.
        destruct (IH true (logged (logged w'
                    [CalendarList (isoformat env new_start_time)
                       (isoformat env new_end_time) None])
                    [GmailSend (default "" (at_email a)) (ConflictNotice event_summary)]))
          as (tr & E & F & Hn).
        eexists. rewrite E, !logged_logged, orb_true_r. simpl. split; [done |].
        split; [by repeat constructor |].
        intros attendee [-> | Hin]%elem_of_cons Hc.
        -- apply elem_of_cons. right. apply elem_of_cons. by left.
        -- do 2 (apply elem_of_cons; right). by apply Hn.
      * destruct (IH acc (logged w' [CalendarList (isoformat env new_start_time)
                                       (isoformat env new_end_time) None]))
          as (tr & E & F & Hn).
        eexists. rewrite E, !logged_logged. split; [done |].
        split; [by repeat constructor |].
        intros attendee [-> | Hin]%elem_of_cons Hc.
        -- unfold in_conflict in Hc. by rewrite Eo, Ec in Hc.
        -- apply elem_of_cons. right. by apply Hn.
    + destruct (IH acc w') as (tr & E & F & Hn).
      exists tr. split; [done |]. split; [done |].
      intros attendee [-> | Hin]%elem_of_cons Hc.
      * unfold in_conflict in Hc. by rewrite Eo in Hc.
      * by apply Hn.
Qed.

Lemma notify_reschedule_run (user_email event_summary : string)
    (attendees : list Attendee) (w : World) :
  exists notified tr,
    notify_reschedule env user_email event_summary attendees w =
    (Ok notified, logged w tr) /\
    Forall (fun c => negb (is_calendar_mutation c) = true) tr.
Proof.
  unfold notify_reschedule. generalize false as acc. revert w.
  induction attendees as [| a attendees IH]; intros w acc; simpl.
  - exists acc, []. by rewrite logged_nil.
  - unfold bind at 1. destruct (is_other_attendee user_email a).
    + unfold bind at 1. rewrite send_enhanced_email_run. simpl.
      destruct (IH (logged w [GmailSend (default "" (at_email a))
                                (RescheduleNotice event_summary)])
                   (if sent env (default "" (at_email a)) (RescheduleNotice event_summary)
                    then true else acc)) as (b & tr & E & F).
      eexists b, _. rewrite E, logged_logged. split; [done | by constructor].
    + simpl. apply IH.
Qed.

(** C7, amended: with the authenticated user's address known, a found
    event with an attendee other than the user who is busy at the new time
    is left alone: the executor answers that conflicts were detected,
    issues no calendar mutation and sends every such attendee the conflict
    notice.  When no such attendee is busy it issues the update call. *)
Theorem update_with_known_user_respects_conflicts (event_name new_date new_time user : string)
    (event : Event) (w : World) :
  found_event env event_name = Some event ->
  user_email_of env = Some user ->
  Str.truthy user = true ->
  let start_time := (parse_datetime env new_date new_time).1 in
  let end_time := (parse_datetime env new_date new_time).2 in
  let event_summary := default event_name (ev_summary event) in
  let attendees := default [] (ev_attendees event) in
  let run := update_event_with_sync env event_name new_date new_time w in
  (existsb (in_conflict env user start_time end_time) attendees = true ->
   exists tr,
     run = (Ok (false, MsgConflictsDetected), logged w tr) /\
     Forall (fun c => is_calendar_mutation c = false) tr /\
     forall attendee,
       attendee ∈ attendees ->
       in_conflict env user start_time end_time attendee = true ->
       GmailSend (default "" (at_email attendee)) (ConflictNotice event_summary) ∈ tr) /\
  (existsb (in_conflict env user start_time end_time) attendees = false ->
   exists tr,
     trace run.2 = trace w ++ tr /\
     CalendarUpdate (ev_id event) (rescheduled env event start_time end_time) ∈ tr).
Proof.
  intros Hfound Huser Htruthy start_time end_time event_summary attendees run.
  subst run start_time end_time.
  destruct (parse_datetime env new_date new_time) as [start_time end_time] eqn:Eparse.
  simpl fst; simpl snd.
  set (w1 := logged (logged w [CalendarList
               (isoformat env (DT.add_days (-30) (utcnow env)) +:+ "Z")
               (isoformat env (DT.add_days 180 (utcnow env)) +:+ "Z") (Some 50)])
               (if services_gmail env then [GmailGetProfile] else [])).
  assert (update_event_with_sync env event_name new_date new_time w =
          try_catch
            (conflict_detected <-
               (if negb (bool_decide (attendees = [])) && true
                then check_attendee_conflicts env user event_summary start_time end_time
                       attendees
                else ret false) ;;
             if conflict_detected then ret (false, MsgConflictsDetected)
             else
               notification_sent <-
                 (if negb (bool_decide (attendees = [])) && true
                  then notify_reschedule env user event_summary attendees
                  else ret false) ;;
               try_catch
                 (let updated_event := rescheduled env event start_time end_time in
                  request (CalendarUpdate (ev_id event) updated_event)
                    (calendar_update env (ev_id event) updated_event) ;;;
                  modify_session (fun s =>
                    match s_scheduled_meetings s with
                    | Some meetings =>
                        set_scheduled_meetings
                          (Some (retime_first (ev_id event) new_date new_time meetings)) s
                    | None => s
                    end) ;;;
                  try_catch
                    (request (CalendarGet (ev_id event)) (calendar_get env (ev_id event)) ;;;
                     ret tt)
                    (fun _ => ret tt) ;;;
                  ret (true, MsgUpdated event_summary new_date new_time notification_sent))
                 (fun update_error =>
                    let error_msg := exn_str update_error in
                    if Str.contains "404" error_msg
                    then ret (false, MsgNoLongerExists event_name)
                    else if Str.contains "403" error_msg
                    then ret (false, MsgUpdatePermissionDenied)
                    else if Str.contains "401" error_msg
                    then ret (false, MsgAuthenticationError)
                    else ret (false, MsgUpdateFailed error_msg)))
            (fun error => ret (false, MsgUnexpectedUpdateError (exn_str error))) w1) as ->.
  { unfold update_event_with_sync, try_catch at 1 3, bind at 1.
    rewrite get_event_by_name_run, Hfound, Eparse.
    unfold bind at 1. rewrite get_authenticated_user_email_run, Huser.
    unfold truthy_opt. rewrite Htruthy. reflexivity. }
  split.
  - intros Hc.
    assert (attendees <> []) as Hne by (intros E; by rewrite E in Hc).
    rewrite bool_decide_eq_false_2 by done.
    unfold try_catch at 1, bind at 1. cbn [negb andb].
    destruct (check_attendee_conflicts_run user event_summary start_time end_time
                attendees w1) as (tr & E & F & Hn).
    rewrite E, Hc. subst w1. rewrite !logged_logged.
    eexists. split; [reflexivity |]. split.
    + repeat (apply Forall_app; split).
      * by repeat constructor.
      * destruct (services_gmail env); by repeat constructor.
      * eapply Forall_impl; [exact F |]. intros c Hcall. by apply negb_true_iff in Hcall.
    + intros attendee Hin Hbusy. rewrite !elem_of_app. right. right. by apply Hn.
  - intros Hc.
    assert (exists tr, (if negb (bool_decide (attendees = [])) && true
                        then check_attendee_conflicts env user
                               event_summary start_time end_time attendees
                        else ret false) w1 = (Ok false, logged w1 tr)) as (tr1 & E1).
    { destruct (bool_decide (attendees = [])); simpl.
      - exists []. by rewrite logged_nil.
      - destruct (check_attendee_conflicts_run user event_summary start_time end_time
                    attendees w1) as (tr & E & _). rewrite Hc in E. eauto. }
    unfold try_catch at 1, bind at 1. rewrite E1.
    assert (exists b tr, (if negb (bool_decide (attendees = [])) && true
                          then notify_reschedule env user
                                 event_summary attendees
                          else ret false) (logged w1 tr1) = (Ok b, logged (logged w1 tr1) tr))
      as (b & tr2 & E2).
    { destruct (bool_decide (attendees = [])); simpl.
      - exists false, []. by rewrite logged_nil.
      - destruct (notify_reschedule_run user event_summary attendees (logged w1 tr1))
          as (b & tr & E & _). eauto. }
    unfold bind at 1. rewrite E2. subst w1. rewrite !logged_logged.
    unfold try_catch, bind, request, modify_session, ret. simpl.
    destruct (calendar_update env _ _) as [updated | e]; simpl.
    + destruct (calendar_get env _) as [got | e]; simpl;
        rewrite <- !app_assoc; (eexists; split; [reflexivity |]);
        rewrite !elem_of_app, !elem_of_cons; tauto.
    + repeat (destruct (Str.contains _ _)); simpl;
        rewrite <- !app_assoc; (eexists; split; [reflexivity |]);
        rewrite !elem_of_app, !elem_of_cons; tauto.
Qed.

End UpdateConflicts.

(** A run of the amended C7: Bob is busy, the user is known. *)
Lemma update_with_known_user_respects_conflicts_witness :
  let env := Scenario.busy (Ok (Some Demo.me)) in
  found_event env "Team Sync" = Some Scenario.team_sync /\
  user_email_of env = Some Demo.me /\
  exists tr,
    update_event_with_sync env "Team Sync" "2025-06-20" "10 am" Scenario.start =
      (Ok (false, MsgConflictsDetected), logged Scenario.start tr) /\
    Forall (fun c => is_calendar_mutation c = false) tr.
Proof.
  intros env. split; [reflexivity |]. split; [reflexivity |].
  destruct (update_with_known_user_respects_conflicts env "Team Sync" "2025-06-20" "10 am"
              Demo.me Scenario.team_sync Scenario.start) as [Hbusy _];
    [reflexivity | reflexivity | reflexivity |].
  destruct Hbusy as (tr & E & F & _); [reflexivity |].
  exists tr. by split.
Defined.

(** C7 as worded fails when the profile lookup fails: the conflict check
    is skipped and the event is updated although Bob is busy. *)
Lemma update_respects_conflicts_fails :
  ~ update_respects_conflicts (Scenario.busy (Raise (Error "profile unavailable")))
      "Team Sync" "2025-06-20" "10 am".
Proof.
  intros H.
  specialize (H Scenario.team_sync (Demo.attendee "bob@example.com")).
  assert (Hrun : Forall (fun c => is_calendar_mutation c = false)
            (trace (update_event_with_sync
                      (Scenario.busy (Raise (Error "profile unavailable")))
                      "Team Sync" "2025-06-20" "10 am" (mkWorld empty_session [])).2)).
  { apply H.
    - reflexivity.
    - apply elem_of_cons. by left.
    - reflexivity.
    - vm_compute. discriminate.
    - reflexivity. }
  vm_compute in Hrun.
  repeat match goal with
         | H : Forall _ (_ :: _) |- _ => inversion H; clear H; subst
         end;
    discriminate.
Qed.

(** ** Scheduling a complete record (C6) *)

Lemma run_of {A} (P : Call -> Prop) (m : M A) :
  total m -> emits P m -> keeps_session m ->
  forall w, exists a tr, m w = (Ok a, logged w tr) /\ Forall P tr.
Proof.
  intros Ht He Hk w.
  destruct (Ht w) as (a & Ea), (He w) as (tr & Etr & F). specialize (Hk w).
  exists a, tr. split; [| done].
  destruct (m w) as [r [s' t']]. simpl in *. subst. reflexivity.
Qed.

Section Schedule.

Variable env : Env.

Lemma get_authenticated_user_email_facts :
  total (get_authenticated_user_email env) /\
  emits reads_only (get_authenticated_user_email env) /\
  keeps_session (get_authenticated_user_email env).
Proof.
  split; [| split]; intros w; rewrite get_authenticated_user_email_run; simpl.
  - eauto.
  - eexists. split; [done |]. destruct (services_gmail env); by repeat constructor.
  - done.
Qed.

Lemma get_scheduled_meetings_from_calendar_facts :
  total (get_scheduled_meetings_from_calendar env) /\
  emits reads_only (get_scheduled_meetings_from_calendar env) /\
  keeps_session (get_scheduled_meetings_from_calendar env).
Proof.
  unfold get_scheduled_meetings_from_calendar. split; [| split].
  - apply total_try_catch. intros e. apply total_ret.
  - apply emits_try_catch; [| intros e; apply emits_ret].
    destruct (negb _); [apply emits_ret |].
    apply emits_bind; [by apply emits_request |]. intros events.
    apply emits_bind; [apply get_authenticated_user_email_facts |]. intros u.
    apply emits_lift_res.
  - apply keeps_session_try_catch; [| intros e; apply keeps_session_ret].
    destruct (negb _); [apply keeps_session_ret |].
    apply keeps_session_bind; [apply keeps_session_request |]. intros events.
    apply keeps_session_bind; [apply get_authenticated_user_email_facts |]. intros u.
    apply keeps_session_lift_res.
Qed.

Lemma get_scheduled_meetings_count_facts :
  total (get_scheduled_meetings_count env) /\
  emits reads_only (get_scheduled_meetings_count env) /\
  keeps_session (get_scheduled_meetings_count env).
Proof.
  unfold get_scheduled_meetings_count, get_all_scheduled_meetings. split; [| split].
  - intros w. unfold bind at 1.
    destruct (total_try_catch
                (s <- get_session ;;
                 calendar_meetings <- get_scheduled_meetings_from_calendar env ;;
                 ret (sort_by_key
                        (fold_left add_unseen (default [] (s_scheduled_meetings s))
                           (fold_left add_unseen calendar_meetings []))))
                (fun _ => ret []) (fun e => total_ret []) w) as (l & El).
    destruct (try_catch _ _ w) as [r w1]. simpl in El. subst r. simpl. eauto.
  - apply emits_bind; [| intros l; apply emits_ret].
    apply emits_try_catch; [| intros e; apply emits_ret].
    apply emits_bind; [apply emits_get_session |]. intros s.
    apply emits_bind; [apply get_scheduled_meetings_from_calendar_facts |]. intros l.
    apply emits_ret.
  - apply keeps_session_bind; [| intros l; apply keeps_session_ret].
    apply keeps_session_try_catch; [| intros e; apply keeps_session_ret].
    apply keeps_session_bind; [by intros w |]. intros s.
    apply keeps_session_bind; [apply get_scheduled_meetings_from_calendar_facts |]. intros l.
    apply keeps_session_ret.
Qed.

Lemma create_event_with_meeting_link_run (summary : string) (start_time end_time : datetime)
    (participant_email : string) (w : World) :
  let body := new_event env summary start_time end_time participant_email in
  create_event_with_meeting_link env summary start_time end_time participant_email w =
  (Ok match calendar_insert env body with
      | Ok created => Some (created, video_link created)
      | Raise _ => None
      end,
   logged w ((if services_gmail env then [GmailGetProfile] else []) ++
             [CalendarInsert body])).
Proof.
  intros body. subst body.
  unfold create_event_with_meeting_link, try_catch, bind at 1.
  rewrite get_authenticated_user_email_run. unfold bind, request, ret, new_event. simpl.
  rewrite <- app_assoc. by destruct (calendar_insert env _).
Qed.

(** C6, amended: for a complete Schedule record whose participant
    address passes [validate_email], with both services at hand, the
    executor clears the session and
    - with a conflict in the resolved window, sends the participant the
      conflict notice, issues no calendar mutation and replies that there
      is a conflict;
    - without one, issues the insert call for the event (its only
      calendar mutation) and replies success with the meeting link when
      the calendar returns the created event, and that the creation
      failed when it does not. *)
Theorem schedule_execute_outcomes (details : FieldDict) (w : World) :
  services_gmail env = true ->
  services_calendar env = true ->
  validate_email env (dict_item details "participant_email") = true ->
  let participant_email := dict_item details "participant_email" in
  let event_name := dict_item details "event_name" in
  let window := parse_datetime env (dict_item details "event_date")
                  (dict_item details "event_time") in
  let body := new_event env event_name window.1 window.2 participant_email in
  let run := schedule_execute env details w in
  session run.2 = empty_session /\
  exists tr,
    trace run.2 = trace w ++ tr /\
    if has_conflict env participant_email window.1 window.2
    then run.1 = Ok (ReplyConflict participant_email) /\
         GmailSend participant_email (ConflictNotice event_name) ∈ tr /\
         Forall reads_only tr
    else CalendarInsert body ∈ tr /\
         Forall (fun c => is_calendar_mutation c = true -> c = CalendarInsert body) tr /\
         match calendar_insert env body with
         | Ok created =>
             exists count,
               run.1 = Ok (ReplyScheduled event_name participant_email
                             (video_link created) count)
         | Raise _ => run.1 = Ok ReplyCreateFailed
         end.
Proof.
  intros Hg Hc Hvalid participant_email event_name window body run.
  subst body window.
  destruct run as [r w'] eqn:Erun. subst run. simpl fst; simpl snd.
  unfold schedule_execute in Erun. rewrite Hg, Hc, Hvalid in Erun.
  cbn [negb andb] in Erun. fold participant_email event_name in Erun |- *.
  destruct (parse_datetime env _ _) as [start_time end_time]. simpl fst; simpl snd.
  unfold bind at 1, try_catch at 1, bind at 1 in Erun.
  rewrite check_participant_calendar_conflicts_run in Erun.
  destruct (has_conflict env participant_email start_time end_time).
  - unfold bind at 1 in Erun. rewrite send_conflict_notification_run in Erun.
    simpl in Erun. injection Erun as <- <-. simpl.
    split; [done |]. eexists. rewrite <- ?app_assoc. split; [reflexivity |].
    split; [done |]. split; [| by repeat constructor].
    apply elem_of_cons. right. apply elem_of_cons. by left.
  - unfold bind at 1 in Erun. rewrite create_event_with_meeting_link_run in Erun.
    destruct (calendar_insert env _) as [created | e] eqn:Einsert.
    + unfold bind at 1, track_scheduled_meeting, try_catch at 1, bind at 1, modify_session,
        ret at 1 in Erun.
      match type of Erun with
      | context [bind (get_scheduled_meetings_count env) _ ?w0] =>
          destruct (run_of reads_only (get_scheduled_meetings_count env)
                      (proj1 get_scheduled_meetings_count_facts)
                      (proj1 (proj2 get_scheduled_meetings_count_facts))
                      (proj2 (proj2 get_scheduled_meetings_count_facts)) w0)
            as (count & tr & E & F)
      end.
      unfold bind at 1 in Erun. rewrite E in Erun. simpl in Erun.
      injection Erun as <- <-. simpl.
      split; [done |]. eexists. rewrite <- ?app_assoc. split; [reflexivity |].
      split; [| split; [| by eexists]].
      * rewrite !elem_of_app, !elem_of_cons. tauto.
      * apply Forall_cons. split; [done |].
        apply Forall_app. split; [destruct (services_gmail env); by repeat constructor |].
        apply Forall_cons. split; [done |].
        eapply Forall_impl; [exact F |]. unfold reads_only. intros c -> ?. done.
    + simpl in Erun. injection Erun as <- <-. simpl.
      split; [done |]. eexists. rewrite <- ?app_assoc. split; [reflexivity |].
      split; [| split; [| done]].
      * rewrite !elem_of_app, !elem_of_cons. tauto.
      * apply Forall_cons. split; [done |].
        apply Forall_app. split; [destruct (services_gmail env); by repeat constructor |].
        by repeat constructor.
Qed.

End Schedule.

(** A run of the amended C6 on a free calendar. *)
Lemma schedule_execute_outcomes_witness :
  services_gmail Scenario.free = true /\
  services_calendar Scenario.free = true /\
  validate_email Scenario.free (dict_item Scenario.complete_record "participant_email") = true /\
  session (schedule_execute Scenario.free Scenario.complete_record Scenario.start).2 =
    empty_session.
Proof.
  split; [reflexivity |]. split; [reflexivity |]. split; [reflexivity |].
  destruct (schedule_execute_outcomes Scenario.free Scenario.complete_record Scenario.start)
    as [Hclear _]; [reflexivity | reflexivity | reflexivity |].
  exact Hclear.
Defined.

(** C6 as worded fails on a calendar that refuses the insert: there is no
    conflict, and the reply is that the creation failed. *)
Lemma schedule_as_specified_fails :
  get_missing_field_prompt Scenario.complete_record = None /\
  ~ schedule_as_specified Scenario.no_insert Scenario.complete_record.
Proof.
  split; [reflexivity |].
  unfold schedule_as_specified.
  replace (has_conflict Scenario.no_insert _ _ _) with false by reflexivity.
  replace (schedule_execute Scenario.no_insert Scenario.complete_record
             (mkWorld empty_session [])).1 with (Ok ReplyCreateFailed) by reflexivity.
  intros (_ & link & count & H). discriminate H.
Qed.

(** ** Terminal outcomes clear the session (C2) *)

Section Clearing.

Variable env : Env.

Lemma clears_bind {A} (m : M A) (k : A -> M Reply) :
  (forall a, clears (k a)) -> clears (bind m k).
Proof.
  intros Hk w. unfold bind. destruct (m w) as [[a | e] w1]; [apply Hk | done].
Qed.

Lemma clears_try_catch (m : M Reply) (h : exn -> M Reply) :
  clears m -> (forall e, clears (h e)) -> clears (try_catch m h).
Proof.
  intros Hm Hh w. unfold try_catch. specialize (Hm w).
  destruct (m w) as [[a | e] w1]; [done | apply Hh].
Qed.

Lemma clears_ret (r : Reply) : terminal r = false -> clears (ret r).
Proof. intros Hr w. simpl. by rewrite Hr. Qed.

Lemma clears_raise (e : exn) : clears (raise e).
Proof. by intros w. Qed.

Lemma clears_session_clear (r : Reply) : clears (session_clear ;;; ret r).
Proof. by intros w. Qed.

Lemma clears_of_opt (m : M (option Reply)) (k : M Reply) :
  clears_opt m -> clears k ->
  clears (r <- m ;; match r with Some reply => ret reply | None => k end).
Proof.
  intros Hm Hk w. unfold bind. specialize (Hm w).
  destruct (m w) as [[[reply |] | e] w1]; simpl in *; [done | apply Hk | done].
Qed.

Lemma clears_opt_bind {A} (m : M A) (k : A -> M (option Reply)) :
  (forall a, clears_opt (k a)) -> clears_opt (bind m k).
Proof.
  intros Hk w. unfold bind. destruct (m w) as [[a | e] w1]; [apply Hk | done].
Qed.

Lemma clears_opt_try_catch (m : M (option Reply)) (h : exn -> M (option Reply)) :
  clears_opt m -> (forall e, clears_opt (h e)) -> clears_opt (try_catch m h).
Proof.
  intros Hm Hh w. unfold try_catch. specialize (Hm w).
  destruct (m w) as [[a | e] w1]; [done | apply Hh].
Qed.

Lemma clears_opt_ret_none : clears_opt (ret None).
Proof. by intros w. Qed.

Lemma clears_opt_ret (r : Reply) : terminal r = false -> clears_opt (ret (Some r)).
Proof. intros Hr w. simpl. by rewrite Hr. Qed.

Lemma always_clears_bind {A B} (m : M A) (k : A -> M B) :
  (forall a, always_clears (k a)) -> always_clears (bind m k).
Proof.
  intros Hk w. unfold bind. destruct (m w) as [[a | e] w1]; [apply Hk | done].
Qed.

Lemma always_clears_try_catch {A} (m : M A) (h : exn -> M A) :
  always_clears m -> (forall e, always_clears (h e)) -> always_clears (try_catch m h).
Proof.
  intros Hm Hh w. unfold try_catch. specialize (Hm w).
  destruct (m w) as [[a | e] w1]; [done | apply Hh].
Qed.

Lemma always_clears_session_clear {A} (a : A) : always_clears (session_clear ;;; ret a).
Proof. by intros w. Qed.

Lemma clears_always (m : M Reply) : always_clears m -> clears m.
Proof.
  intros Hm w. specialize (Hm w). unfold cleared_if_terminal.
  by destruct (m w).1.
Qed.

Lemma schedule_execute_always_clears (details : FieldDict) :
  always_clears (schedule_execute env details).
Proof.
  unfold schedule_execute.
  destruct (negb _); [apply always_clears_session_clear |].
  destruct (negb _); [apply always_clears_session_clear |].
  apply always_clears_bind. intros msg. apply always_clears_session_clear.
Qed.

Lemma update_execute_always_clears (details : FieldDict) :
  always_clears (update_execute env details).
Proof.
  unfold update_execute.
  destruct (negb _); [apply always_clears_session_clear |].
  apply always_clears_try_catch; [| intros e; apply always_clears_session_clear].
  apply always_clears_bind. intros [[] message].
  - apply always_clears_bind. intros _. apply always_clears_bind. intros count.
    apply always_clears_session_clear.
  - apply always_clears_session_clear.
Qed.

Lemma delete_execute_always_clears (details : FieldDict) :
  always_clears (delete_execute env details).
Proof.
  unfold delete_execute.
  destruct (negb _); [apply always_clears_session_clear |].
  apply always_clears_try_catch; [| intros e; apply always_clears_session_clear].
  apply always_clears_bind. intros [[] message].
  - apply always_clears_bind. intros _. apply always_clears_bind. intros count.
    apply always_clears_session_clear.
  - apply always_clears_session_clear.
Qed.

Lemma schedule_execute_clears (details : FieldDict) : clears (schedule_execute env details).
Proof. apply clears_always, schedule_execute_always_clears. Qed.

Lemma update_execute_clears (details : FieldDict) : clears (update_execute env details).
Proof. apply clears_always, update_execute_always_clears. Qed.

Lemma delete_execute_clears (details : FieldDict) : clears (delete_execute env details).
Proof. apply clears_always, delete_execute_always_clears. Qed.

Lemma list_deletable_events_clears : clears_opt (list_deletable_events env).
Proof.
  unfold list_deletable_events.
  apply clears_opt_try_catch; [| intros e; apply clears_opt_ret_none].
  destruct (services_calendar env); [| apply clears_opt_ret_none].
  apply clears_opt_bind. intros events. apply clears_opt_bind. intros user_email.
  apply clears_opt_bind. intros entries.
  destruct (omap id entries); [by intros w |].
  apply clears_opt_bind. intros _. by apply clears_opt_ret.
Qed.

Lemma schedule_collect_clears (user_input : string) (data : FieldDict) :
  clears_opt (schedule_collect env user_input data).
Proof.
  intros w. unfold schedule_collect, bind, get_session, lift_res, modify_session, ret.
  simpl. destruct (s_waiting_for (session w)) as [field |]; [| done].
  destruct (_ && _); [done |]. destruct (_ && _); [done |].
  destruct (String.eqb field "event_date").
  { destruct (dateparser_parse env user_input true) as [parsed | e]; [| done].
    by destruct (future_date env parsed). }
  destruct (String.eqb field "event_time"); [| done].
  by destruct (truthy_opt _).
Qed.

Lemma schedule_flow_clears (user_input : string) (data : FieldDict) :
  clears (schedule_flow env user_input data).
Proof.
  unfold schedule_flow. apply clears_of_opt; [apply schedule_collect_clears |].
  apply clears_bind. intros details.
  destruct (get_missing_field_prompt details) as [[field prompt] |].
  - apply clears_bind. intros _. by apply clears_ret.
  - apply schedule_execute_clears.
Qed.

Lemma update_collect_clears (user_input : string) :
  clears_opt (update_collect env user_input).
Proof.
  unfold update_collect. apply clears_opt_bind. intros s.
  destruct (s_waiting_for s) as [field |]; [| apply clears_opt_ret_none].
  apply clears_opt_bind. intros current_data.
  apply clears_opt_bind. intros [[[] message] current_data'];
    apply clears_opt_bind; intros _.
  - apply clears_opt_bind. intros _. apply clears_opt_ret_none.
  - by apply clears_opt_ret.
Qed.

Lemma update_flow_clears (user_input : string) : clears (update_flow env user_input).
Proof.
  unfold update_flow. apply clears_of_opt; [apply update_collect_clears |].
  apply clears_bind. intros details.
  destruct (get_missing_update_field_prompt details) as [[field prompt] |].
  - apply clears_bind. intros _. by apply clears_ret.
  - apply update_execute_clears.
Qed.

Lemma clears_of_sum {X} (m : M (X + Reply)) (k : X -> M Reply) :
  clears_sum m -> (forall x, clears (k x)) ->
  clears (r <- m ;; match r with inl x => k x | inr reply => ret reply end).
Proof.
  intros Hm Hk w. unfold bind. specialize (Hm w).
  destruct (m w) as [[[x | reply] | e] w1]; simpl in *; [apply Hk | done | done].
Qed.

Lemma select_by_number_clears (user_input : string) (details : FieldDict) :
  clears_sum (select_by_number user_input details).
Proof.
  intros w. unfold select_by_number, bind, get_session, modify_session, ret, raise. simpl.
  destruct (s_deletable_events (session w)) as [deletable_events |]; [| done].
  destruct (Str.isdigit user_input); [| done].
  destruct (_ && _); [| done].
  by destruct (deletable_events !! _).
Qed.

Lemma delete_flow_clears (user_input : string) : clears (delete_flow env user_input).
Proof.
  unfold delete_flow. apply clears_bind. intros details. apply clears_bind. intros s.
  apply clears_of_sum.
  { intros w. destruct (bool_decide _); [| done].
    destruct (Str.truthy _); [| done].
    unfold bind, modify_session, ret. done. }
  intros details'. destruct (field_missing details' "event_name").
  - apply clears_of_opt; [apply list_deletable_events_clears |].
    apply clears_bind. intros _. by apply clears_ret.
  - apply clears_of_sum; [apply select_by_number_clears |].
    apply delete_execute_clears.
Qed.

Lemma classify_clears (user_input : string) : clears_opt (classify env user_input).
Proof.
  intros w. unfold classify, bind at 1.
  destruct (email_branch env user_input w) as [[[reply |] | e] w1] eqn:Eemail; simpl.
  - intros Hterminal. exfalso. revert Eemail Hterminal.
    unfold email_branch, bind at 1, get_session.
    destruct (_ && _); [| done].
    unfold bind, try_catch, request, lift_res, modify_session, ret.
    destruct (negb (services_gmail env)); [by intros [= <- _] |].
    destruct (email_pipeline env user_input (session w)) as [[| p r [summary | e]] | e];
      simpl; by intros [= <- _].
  - unfold detect_intent, bind at 1, get_session.
    destruct (s_intent (session w1)); [done |].
    destruct (is_schedule_intent user_input); [done |].
    destruct (is_update_intent user_input); [done |].
    destruct (is_delete_intent user_input); [done |].
    unfold bind at 1.
    destruct (no_intent_reply env user_input w1) as [[reply | e] w2] eqn:Ereply; [| done].
    simpl. intros Hterminal. exfalso. revert Ereply Hterminal.
    unfold no_intent_reply, bind at 1, get_session.
    destruct (_ && _).
    + destruct (meeting_request_pipeline env (session w1)) as [text tracked].
      unfold bind, request, modify_session, ret. simpl.
      destruct tracked; by intros [= <- _].
    + unfold try_catch, bind, request, ret. destruct (chat env) as [send_message |].
      * destruct (send_message user_input); by intros [= <- _].
      * destruct (List.filter _ _); by intros [= <- _].
  - done.
Qed.

Lemma chat_route_clears (message : string) : clears (chat_route env message).
Proof.
  unfold chat_route. apply clears_try_catch; [| intros e; apply clears_session_clear].
  destruct (negb _); [by apply clears_ret |].
  apply clears_bind. intros _. apply clears_bind. intros data. apply clears_bind. intros _.
  apply clears_of_opt; [apply classify_clears |].
  apply clears_bind. intros s.
  destruct (s_intent s) as [[] |].
  - apply schedule_flow_clears.
  - apply update_flow_clears.
  - apply delete_flow_clears.
  - apply clears_raise.
Qed.

Lemma chat_route_total (message : string) : total (chat_route env message).
Proof.
  unfold chat_route. apply total_try_catch. intros e w. by exists ReplyError.
Qed.

(** C2: a turn that ends in a terminal outcome (a success, a not-found,
    a conflict or a failure of an executor, or a failure that keeps the
    route from running one) leaves the whole session cleared: every key
    of it, whatever the session held before. *)
Theorem terminal_turn_clears_session (s : Session) (message : string) :
  terminal (turn env s message).1.1 = true ->
  (turn env s message).1.2 = empty_session.
Proof.
  unfold turn. pose proof (chat_route_clears message (mkWorld s [])) as H.
  destruct (chat_route_total message (mkWorld s [])) as (reply & Hreply).
  destruct (chat_route env message (mkWorld s [])) as [r w]; simpl in *. subst r.
  exact H.
Qed.

End Clearing.

(** ** A rejected value leaves the conversation where it was (C1) *)

Ltac session_simpl :=
  cbn [session trace s_intent s_data s_waiting_for s_messages s_update_text s_delete_text
       s_deletable_events s_processed_emails s_meeting_requests s_scheduled_meetings s_other
       set_intent set_data set_waiting_for set_messages set_update_text set_delete_text
       set_deletable_events set_processed_emails set_meeting_requests
       set_scheduled_meetings fst snd andb orb negb String.eqb Ascii.eqb Bool.eqb].

Section Rejection.

Variable env : Env.

Lemma get_missing_field_prompt_Some (data : FieldDict) (field prompt : string) :
  get_missing_field_prompt data = Some (field, prompt) ->
  prompt = "Please specify the missing information: " +:+ schedule_question field.
Proof.
  unfold get_missing_field_prompt. destruct (List.filter _ _); [done |].
  by intros [= <- <-].
Qed.

Lemma rejected_input_keeps_ok_session (s : Session) (message : string) (intent : Intent)
    (field : string) :
  session_ok s ->
  s_intent s = Some intent ->
  s_waiting_for s = Some field ->
  Str.truthy (Str.strip message) = true ->
  rejected env intent field (correct_schedule_spelling env (Str.strip message)) ->
  turn env s message = (reprompt intent field, s, []).
Proof.
  intros Hok Hintent Hwaiting Hmessage Hrejected.
  destruct (Hok field Hwaiting) as (_ & [messages Hmessages] & data & Hdata & Hfirst).
  destruct s as [i d wf ms ut dt de pe mr sm ot]. simpl in *. subst i d wf ms.
  unfold turn, chat_route, try_catch, bind at 1. rewrite Hmessage. cbn [negb].
  unfold bind at 1, modify_session at 1. cbn [session s_data trace].
  unfold bind at 1, session_data, bind at 1, get_session at 1. cbn [session s_data].
  unfold ret at 1. unfold bind at 1, modify_session at 1. cbn [session s_messages trace].
  unfold bind at 1, classify, bind at 1, email_branch, bind at 1, get_session at 1.
  cbn [session s_intent]. rewrite andb_false_r.
  unfold ret at 1. unfold detect_intent, bind at 1, get_session at 1. cbn [session s_intent].
  unfold ret at 1. unfold bind at 1, get_session at 1. cbn [session s_intent].
  set (user_input := correct_schedule_spelling env (Str.strip message)) in *.
  destruct Hrejected as [u Hinvalid | u parsed Hparse Hpast | u Htime
                        | u parsed Hparse Hpast | u Htime].
  - destruct Hfirst as (prompt & Hprompt); [done |].
    pose proof (get_missing_field_prompt_Some _ _ _ Hprompt) as ->.
    unfold schedule_flow, schedule_collect, bind, get_session, ret, modify_session,
      session_data, bind, get_session, ret.
    session_simpl. rewrite Hinvalid. session_simpl. rewrite Hprompt.
    unfold reprompt. session_simpl. reflexivity.
  - unfold schedule_flow, schedule_collect, bind, get_session, ret, modify_session,
      session_data, lift_res, bind, get_session, ret.
    session_simpl. rewrite Hparse, Hpast. reflexivity.
  - unfold schedule_flow, schedule_collect, bind, get_session, ret, modify_session,
      session_data, lift_res, bind, get_session, ret.
    session_simpl. rewrite Htime. reflexivity.
  - unfold update_flow, update_collect, bind, get_session, ret, modify_session,
      session_data, lift_res, bind, get_session, ret, process_update_field_input.
    session_simpl. rewrite Hparse. unfold res_bind. rewrite Hpast. reflexivity.
  - unfold update_flow, update_collect, bind, get_session, ret, modify_session,
      session_data, lift_res, bind, get_session, ret, process_update_field_input.
    session_simpl. rewrite Htime. reflexivity.
Qed.

End Rejection.

(** ** The invariant of the conversation *)

Section Invariant.

Variable env : Env.

Lemma session_ok_no_waiting (s : Session) : s_waiting_for s = None -> session_ok s.
Proof. intros Hw field Hfield. by rewrite Hw in Hfield. Qed.

Lemma session_ok_empty : session_ok empty_session.
Proof. by apply session_ok_no_waiting. Qed.

Lemma session_ok_present (s : Session) :
  is_Some (s_intent s) -> is_Some (s_messages s) -> is_Some (s_data s) ->
  s_intent s <> Some Schedule -> session_ok s.
Proof.
  intros Hi Hm [data Hd] Hns field _. split; [done |]. split; [done |].
  exists data. by split.
Qed.

Lemma ok_after_always_clears {A} (m : M A) (w : World) :
  always_clears m -> ok_after (m w).
Proof.
  intros Hm. specialize (Hm w). unfold ok_after.
  destruct (m w).1; [| done]. rewrite Hm. apply session_ok_empty.
Qed.

(** The tail of the Schedule flow: prompt for the first missing field or
    run the executor. *)
Lemma schedule_tail_ok (w : World) :
  s_intent (session w) = Some Schedule ->
  is_Some (s_messages (session w)) ->
  ok_after ((details <- session_data ;;
             match get_missing_field_prompt details with
             | Some (field, prompt) =>
                 modify_session (set_waiting_for (Some field)) ;;;
                 ret (ReplyPrompt field prompt)
             | None => schedule_execute env details
             end) w).
Proof.
  intros Hi Hm. unfold bind at 1, session_data, bind at 1, get_session at 1.
  destruct (s_data (session w)) as [details |] eqn:Hd; [| done].
  unfold ret at 1.
  destruct (get_missing_field_prompt details) as [[field prompt] |] eqn:Hp.
  - unfold ok_after, bind, modify_session, ret. simpl.
    intros field' [= <-]. simpl. rewrite Hi, Hd. split; [done |]. split; [done |].
    exists details. split; [done |]. intros _. by exists prompt.
  - apply ok_after_always_clears, schedule_execute_always_clears.
Qed.

Lemma schedule_flow_ok (user_input : string) (data : FieldDict) (w : World) :
  ready Schedule w -> ok_after (schedule_flow env user_input data w).
Proof.
  intros (Hi & Hd & Hm & Hok).
  unfold schedule_flow, bind at 1, schedule_collect, bind at 1, get_session at 1.
  destruct (s_waiting_for (session w)) as [field |] eqn:Hw.
  2:{ unfold ret at 1. by apply schedule_tail_ok. }
  assert (forall data' : FieldDict,
    ok_after
      (let (r, w') :=
         (modify_session (fun s => set_waiting_for None (set_data (Some data') s)) ;;;
          ret None) w in
       match r with
       | Ok a =>
           match a with
           | Some reply => ret reply
           | None =>
               details <- session_data ;;
               match get_missing_field_prompt details with
               | Some (field, prompt) =>
                   modify_session (set_waiting_for (Some field)) ;;;
                   ret (ReplyPrompt field prompt)
               | None => schedule_execute env details
               end
           end w'
       | Raise e => (Raise e, w')
       end)) as Hstored.
  { intros data'. unfold bind at 1, modify_session at 1, ret at 1.
    by apply schedule_tail_ok. }
  unfold bind at 1.
  destruct (_ && _); [apply Hstored |].
  destruct (_ && _); [apply Hstored |].
  destruct (String.eqb field "event_date").
  { unfold bind at 1, lift_res.
    destruct (dateparser_parse env user_input true) as [parsed | e]; [| done].
    destruct (future_date env parsed); [apply Hstored | exact Hok]. }
  destruct (String.eqb field "event_time"); [| apply Hstored].
  destruct (truthy_opt _); [apply Hstored | exact Hok].
Qed.

Lemma update_flow_ok (user_input : string) (w : World) :
  ready Update w -> ok_after (update_flow env user_input w).
Proof.
  intros (Hi & Hd & Hm & Hok).
  assert (forall w',
    s_intent (session w') = Some Update -> is_Some (s_messages (session w')) ->
    ok_after ((details <- session_data ;;
               match get_missing_update_field_prompt details with
               | Some (field, prompt) =>
                   modify_session (set_waiting_for (Some field)) ;;;
                   ret (ReplyPrompt field prompt)
               | None => update_execute env details
               end) w')) as Htail.
  { intros w' Hi' Hm'. unfold bind at 1, session_data, bind at 1, get_session at 1.
    destruct (s_data (session w')) as [details |] eqn:Hd'; [| done].
    unfold ret at 1.
    destruct (get_missing_update_field_prompt details) as [[field prompt] |].
    - unfold ok_after, bind, modify_session, ret. simpl.
      apply session_ok_present; simpl; rewrite ?Hi', ?Hd'; done.
    - apply ok_after_always_clears, update_execute_always_clears. }
  unfold update_flow, bind at 1, update_collect, bind at 1, get_session at 1.
  destruct (s_waiting_for (session w)) as [field |] eqn:Hw.
  2:{ unfold ret at 1. by apply Htail. }
  unfold bind at 1, session_data, bind at 1, get_session at 1.
  destruct Hd as [data Hd]. rewrite Hd. unfold ret at 1.
  unfold bind at 1, lift_res.
  destruct (process_update_field_input env field user_input data)
    as [[[success message] data'] | e]; [| done].
  unfold bind at 1, modify_session at 1.
  destruct success.
  - unfold bind at 1, modify_session at 1, ret at 1. by apply Htail.
  - unfold ret, ok_after. simpl.
    apply session_ok_present; simpl; rewrite ?Hi; done.
Qed.

Lemma list_deletable_events_ok (w : World) :
  is_Some (s_intent (session w)) ->
  is_Some (s_messages (session w)) ->
  is_Some (s_data (session w)) ->
  s_intent (session w) <> Some Schedule ->
  match (list_deletable_events env w).1 with
  | Ok (Some _) => session_ok (session (list_deletable_events env w).2)
  | Ok None => session (list_deletable_events env w).2 = session w
  | Raise _ => True
  end.
Proof.
  intros Hi Hm Hd Hns.
  destruct (list_deletable_events env w) as [r w'] eqn:Erun. simpl.
  unfold list_deletable_events, try_catch in Erun.
  destruct (services_calendar env); [| by injection Erun as <- <-].
  unfold bind at 1, request at 1 in Erun.
  destruct (calendar_list env _ _ _) as [events | e]; [| by injection Erun as <- <-].
  unfold bind at 1 in Erun. rewrite get_authenticated_user_email_run in Erun.
  unfold bind at 1, lift_res in Erun.
  destruct (res_map_list _ events) as [entries | e]; [| by injection Erun as <- <-].
  destruct (omap id entries) as [| entry deletable_events]; simpl in Erun;
    injection Erun as <- <-.
  - apply session_ok_empty.
  - by apply session_ok_present.
Qed.

Lemma delete_flow_ok (user_input : string) (w : World) :
  ready Delete w -> ok_after (delete_flow env user_input w).
Proof.
  intros (Hi & Hd & Hm & Hok).
  assert (forall details w',
    s_intent (session w') = Some Delete -> is_Some (s_messages (session w')) ->
    is_Some (s_data (session w')) -> session_ok (session w') ->
    ok_after ((if field_missing details "event_name"
               then listed <- list_deletable_events env ;;
                    match listed with
                    | Some reply => ret reply
                    | None =>
                        modify_session (set_waiting_for (Some "event_name")) ;;;
                        ret ReplyAskEventName
                    end
               else selected <- select_by_number user_input details ;;
                    match selected with
                    | inl details => delete_execute env details
                    | inr reply => ret reply
                    end) w')) as Htail.
  { intros details w' Hi' Hm' Hd' Hok'. destruct (field_missing details "event_name").
    - unfold bind at 1.
      pose proof (list_deletable_events_ok w') as Hlist.
      destruct (list_deletable_events env w') as [[[reply |] | e] w2]; simpl in Hlist.
      + apply Hlist; rewrite ?Hi'; done.
      + unfold ok_after, bind, modify_session, ret. simpl.
        rewrite Hlist by (rewrite ?Hi'; done).
        apply session_ok_present; simpl; rewrite ?Hi'; done.
      + done.
    - unfold bind at 1, select_by_number, bind at 1, get_session at 1.
      destruct (s_deletable_events (session w')) as [deletable_events |].
      2:{ unfold ret at 1. apply ok_after_always_clears, delete_execute_always_clears. }
      destruct (Str.isdigit user_input).
      2:{ unfold ret at 1. apply ok_after_always_clears, delete_execute_always_clears. }
      destruct (_ && _); [| exact Hok'].
      destruct (deletable_events !! _); [| done].
      unfold bind at 1, modify_session at 1, ret at 1.
      apply ok_after_always_clears, delete_execute_always_clears. }
  unfold delete_flow, bind at 1, session_data, bind at 1, get_session at 1.
  destruct Hd as [details Hd]. rewrite Hd. unfold ret at 1.
  unfold bind at 1, get_session at 1. unfold bind at 1.
  destruct (bool_decide _).
  - destruct (Str.truthy _); [| exact Hok].
    unfold bind at 1, modify_session at 1, ret at 1.
    apply Htail; simpl; rewrite ?Hi; try done; by apply session_ok_no_waiting.
  - unfold ret at 1. apply Htail; rewrite ?Hd; done.
Qed.

Lemma no_waiting_without_intent (s : Session) :
  session_ok s -> s_intent s = None -> s_waiting_for s = None.
Proof.
  intros Hok Hi. destruct (s_waiting_for s) as [field |] eqn:Hw; [| done].
  destruct (Hok field Hw) as ([i Hi'] & _). congruence.
Qed.

(** The head of the route either answers, leaving a well-formed session,
    or hands a session with an intent to a flow. *)
Lemma classify_ok (user_input : string) (w : World) :
  is_Some (s_data (session w)) ->
  is_Some (s_messages (session w)) ->
  session_ok (session w) ->
  match (classify env user_input w).1 with
  | Ok (Some _) => session_ok (session (classify env user_input w).2)
  | Ok None => exists intent, ready intent (classify env user_input w).2
  | Raise _ => True
  end.
Proof.
  intros Hd Hm Hok.
  destruct (classify env user_input w) as [r w'] eqn:Erun. simpl.
  unfold classify, bind at 1, email_branch, bind at 1, get_session at 1 in Erun.
  destruct (is_email_processing_intent env user_input &&
            bool_decide (s_intent (session w) = None)) eqn:Eemail.
  { apply andb_true_iff in Eemail as [_ Hnone%bool_decide_eq_true].
    pose proof (no_waiting_without_intent _ Hok Hnone) as Hw.
    unfold bind at 1, try_catch in Erun.
    destruct (negb (services_gmail env)); [by injection Erun as <- <- |].
    unfold bind at 1, request in Erun.
    destruct (email_pipeline env user_input (session w)) as [[| p r0 summary] | e];
      [by injection Erun as <- <- | | by injection Erun as <- <-].
    unfold bind at 1, modify_session at 1, bind at 1, lift_res in Erun.
    destruct summary; injection Erun as <- <-; by apply session_ok_no_waiting. }
  unfold ret at 1 in Erun. unfold detect_intent, bind at 1, get_session at 1 in Erun.
  destruct (s_intent (session w)) as [intent |] eqn:Hi.
  { injection Erun as <- <-. exists intent. by split_and!. }
  pose proof (no_waiting_without_intent _ Hok Hi) as Hw.
  destruct (is_schedule_intent user_input).
  { injection Erun as <- <-. exists Schedule. split_and!; try done.
    by apply session_ok_no_waiting. }
  destruct (is_update_intent user_input).
  { injection Erun as <- <-. exists Update. split_and!; try done.
    by apply session_ok_no_waiting. }
  destruct (is_delete_intent user_input).
  { injection Erun as <- <-. exists Delete. split_and!; try done.
    by apply session_ok_no_waiting. }
  unfold bind at 1, no_intent_reply, bind at 1, get_session at 1 in Erun.
  clear Eemail. destruct (_ && _).
  - destruct (meeting_request_pipeline env (session w)) as [text tracked].
    unfold bind at 1, request at 1 in Erun. unfold bind at 1 in Erun.
    destruct tracked; injection Erun as <- <-; by apply session_ok_no_waiting.
  - unfold try_catch in Erun. destruct (chat env) as [send_message |].
    + unfold bind, request, ret in Erun.
      destruct (send_message user_input); injection Erun as <- <-;
        by apply session_ok_no_waiting.
    + destruct (List.filter _ _); by injection Erun as <- <-.
Qed.

Lemma turn_ok (s : Session) (message : string) :
  session_ok s -> session_ok (turn env s message).1.2.
Proof.
  intros Hok. unfold turn, chat_route, try_catch at 1.
  destruct (negb _); [exact Hok |].
  unfold bind at 1, modify_session at 1. cbn [session trace].
  set (w1 := mkWorld (match s_data s with Some _ => s | None => _ end) []).
  assert (is_Some (s_data (session w1)) /\ s_messages (session w1) = s_messages s /\
          session_ok (session w1)) as (Hd1 & Hm1 & Hok1).
  { subst w1. simpl. destruct (s_data s) as [d |] eqn:Hd; [by split_and!; eauto |].
    simpl. split; [by eauto |]. split; [done |].
    apply session_ok_no_waiting. simpl.
    destruct (s_waiting_for s) as [field |] eqn:Hw; [| done].
    destruct (Hok field Hw) as (_ & _ & data & Hdata & _). congruence. }
  unfold bind at 1, session_data, bind at 1, get_session at 1.
  destruct Hd1 as [data Hd1]. rewrite Hd1. unfold ret at 1. clearbody w1.
  unfold bind at 1, modify_session at 1. cbn [session trace].
  set (w2 := mkWorld (match s_messages (session w1) with Some _ => _ | None => _ end) _).
  assert (s_data (session w2) = Some data /\ is_Some (s_messages (session w2)) /\
          session_ok (session w2)) as (Hd2 & Hm2 & Hok2).
  { subst w2. cbn [session]. destruct (s_messages (session w1)) as [ms |] eqn:Hms;
      [by split_and!; eauto |].
    simpl. split; [done |]. split; [by eauto |].
    apply session_ok_no_waiting. simpl.
    destruct (s_waiting_for (session w1)) as [field |] eqn:Hw; [| done].
    destruct (Hok1 field Hw) as (_ & [ms Hms'] & _). congruence. }
  clearbody w2. unfold bind at 1.
  pose proof (classify_ok (correct_schedule_spelling env (Str.strip message)) w2) as Hc.
  destruct (classify env _ w2) as [[[reply |] | e] w3]; simpl in Hc.
  - simpl. apply Hc; rewrite ?Hd2; done.
  - destruct Hc as (intent & Hready); [rewrite ?Hd2; done.. |].
    unfold bind at 1, get_session at 1.
    destruct Hready as (Hi & Hready). rewrite Hi.
    assert (ready intent w3) as Hready' by done.
    destruct intent.
    + pose proof (schedule_flow_ok (correct_schedule_spelling env (Str.strip message))
                    data w3 Hready') as Hflow.
      unfold ok_after in Hflow.
      destruct (schedule_flow env _ data w3) as [[reply | e] w4]; simpl in *;
        [exact Hflow | apply session_ok_empty].
    + pose proof (update_flow_ok (correct_schedule_spelling env (Str.strip message))
                    w3 Hready') as Hflow.
      unfold ok_after in Hflow.
      destruct (update_flow env _ w3) as [[reply | e] w4]; simpl in *;
        [exact Hflow | apply session_ok_empty].
    + pose proof (delete_flow_ok (correct_schedule_spelling env (Str.strip message))
                    w3 Hready') as Hflow.
      unfold ok_after in Hflow.
      destruct (delete_flow env _ w3) as [[reply | e] w4]; simpl in *;
        [exact Hflow | apply session_ok_empty].
  - simpl. apply session_ok_empty.
Qed.

End Invariant.

Lemma reachable_ok (s : Session) : reachable s -> session_ok s.
Proof.
  induction 1 as [| env s message _ IH]; [apply session_ok_empty |].
  by apply turn_ok.
Qed.

(** C1: in a conversation that awaits a field, a message the validator of
    that field rejects (an invalid e-mail address, a date that is no date
    or lies in the past, a text without a time) is answered by asking for
    the same field again, and the turn leaves the session exactly as it
    found it: nothing is written into the record, the same field is
    awaited, and no service is called. *)
Theorem rejected_input_keeps_session (env : Env) (s : Session) (message : string)
    (intent : Intent) (field : string) :
  reachable s ->
  s_intent s = Some intent ->
  s_waiting_for s = Some field ->
  Str.truthy (Str.strip message) = true ->
  rejected env intent field (correct_schedule_spelling env (Str.strip message)) ->
  turn env s message = (reprompt intent field, s, []).
Proof.
  intros Hreach. apply rejected_input_keeps_ok_session. by apply reachable_ok.
Qed.

(** A run of C1: the conversation asks for the participant's address and
    is given something else. *)
Lemma rejected_input_keeps_session_witness :
  let s := (turn Scenario.free empty_session "schedule a meeting").1.2 in
  s_waiting_for s = Some "participant_email" /\
  turn Scenario.free s "not an address" = (reprompt Schedule "participant_email", s, []).
Proof.
  intros s. split; [reflexivity |].
  apply (rejected_input_keeps_session Scenario.free s "not an address" Schedule
           "participant_email").
  - apply reachable_turn, reachable_empty.
  - reflexivity.
  - reflexivity.
  - reflexivity.
  - apply invalid_email. reflexivity.
Defined.

(** A run of C2: the last field of a Schedule record arrives and the
    meeting is scheduled. *)
Lemma terminal_turn_clears_session_witness :
  let s := mkSession (Some Schedule)
             (Some (delete "event_time" Scenario.complete_record))
             (Some "event_time") (Some []) None None None None None None ∅ in
  terminal (turn Scenario.free s "10 am").1.1 = true /\
  (turn Scenario.free s "10 am").1.2 = empty_session.
Proof.
  intros s. split; [reflexivity |].
  apply (terminal_turn_clears_session Scenario.free s "10 am"). reflexivity.
Defined.

(** ** The classification of a first message (C4) *)

Section Classification.

Variable env : Env.

Lemma email_branch_taken (user_input : string) (w : World) :
  s_intent (session w) = None ->
  is_email_processing_intent env user_input = true ->
  exists reply w',
    email_branch env user_input w = (Ok (Some reply), w') /\
    email_reply reply = true /\ s_intent (session w') = None.
Proof.
  intros Hi Hemail. unfold email_branch, bind at 1, get_session at 1.
  rewrite Hemail, Hi. cbn [andb]. rewrite bool_decide_eq_true_2 by done.
  unfold bind at 1, try_catch.
  destruct (negb (services_gmail env)); [by eexists _, _ |].
  unfold bind at 1, request.
  destruct (email_pipeline env user_input (session w)) as [[| p r summary] | e];
    [by eexists _, _ | | by eexists _, _].
  unfold bind at 1, modify_session at 1, bind at 1, lift_res.
  destruct summary; by eexists _, _.
Qed.

Lemma no_intent_reply_free_form (user_input : string) (w : World) :
  s_intent (session w) = None ->
  exists reply w',
    no_intent_reply env user_input w = (Ok reply, w') /\
    free_form_reply reply = true /\ s_intent (session w') = None.
Proof.
  intros Hi. unfold no_intent_reply, bind at 1, get_session at 1.
  destruct (_ && _).
  - destruct (meeting_request_pipeline env (session w)) as [text tracked].
    unfold bind at 1, request at 1. unfold bind at 1.
    destruct tracked; by eexists _, _.
  - unfold try_catch. destruct (chat env) as [send_message |].
    + unfold bind, request, ret. destruct (send_message user_input); by eexists _, _.
    + destruct (List.filter _ _); by eexists _, _.
Qed.

(** C4, amended: on the [/chat] route of [app.py], a first message (no
    intent in the session) goes through the classifiers in the order
    e-mail request, Schedule, Update, Delete, and the first that matches
    decides: an e-mail request is answered by the e-mail branch within
    the turn and stores no intent, a keyword match stores its intent and
    hands the turn to that flow, and without any match the intent stays
    unset and the message is answered as free-form conversation.  The
    [/api/chat] route of [calenderinternal.py] has no e-mail classifier
    and orders its keyword classifiers Update, Delete, Schedule. *)
Theorem first_message_classification (user_input : string) (w : World) :
  s_intent (session w) = None ->
  let run := classify env user_input w in
  match first_match env user_input with
  | Some EmailRequest =>
      exists reply,
        run.1 = Ok (Some reply) /\ email_reply reply = true /\
        s_intent (session run.2) = None
  | Some classifier =>
      run.1 = Ok None /\ s_intent (session run.2) = intent_of classifier
  | None =>
      exists reply,
        run.1 = Ok (Some reply) /\ free_form_reply reply = true /\
        s_intent (session run.2) = None
  end /\
  internal_detect_intent user_input =
    List.find (fun c => classifier_matches env c user_input)
      [UpdateKeywords; DeleteKeywords; ScheduleKeywords] ≫= intent_of.
Proof.
  intros Hi run. split.
  2:{ unfold internal_detect_intent. simpl.
      by destruct (is_update_intent user_input), (is_delete_intent user_input),
           (is_schedule_intent user_input). }
  subst run. destruct (classify env user_input w) as [r w'] eqn:Erun. simpl.
  unfold first_match, priority_order. simpl.
  unfold classify, bind at 1 in Erun.
  destruct (is_email_processing_intent env user_input) eqn:Hemail.
  { destruct (email_branch_taken user_input w Hi Hemail) as (reply & w1 & E & Hr & Hi').
    rewrite E in Erun. injection Erun as <- <-. eauto. }
  unfold email_branch, bind at 1, get_session at 1 in Erun. rewrite Hemail in Erun.
  cbn [andb] in Erun. unfold ret at 1 in Erun.
  unfold detect_intent, bind at 1, get_session at 1 in Erun. rewrite Hi in Erun.
  destruct (is_schedule_intent user_input); [by injection Erun as <- <- |].
  destruct (is_update_intent user_input); [by injection Erun as <- <- |].
  destruct (is_delete_intent user_input); [by injection Erun as <- <- |].
  unfold bind at 1 in Erun.
  destruct (no_intent_reply_free_form user_input w Hi) as (reply & w1 & E & Hr & Hi').
  rewrite E in Erun. injection Erun as <- <-. eauto.
Qed.

End Classification.

(** A run of the amended C4: the first message asks to update a meeting and
    mentions it, so Schedule, which comes first, takes it. *)
Lemma first_message_classification_witness :
  first_match Scenario.free "update the team meeting" = Some ScheduleKeywords /\
  s_intent (session (classify Scenario.free "update the team meeting" Scenario.start).2) =
    Some Schedule.
Proof.
  split; [reflexivity |].
  destruct (first_message_classification Scenario.free "update the team meeting"
              Scenario.start) as [Hroute _]; [reflexivity |].
  replace (first_match Scenario.free "update the team meeting")
    with (Some ScheduleKeywords) in Hroute by reflexivity.
  exact (proj2 Hroute).
Defined.

(** C4 as worded fails on the [/api/chat] route: the same message is an
    Update there. *)
Lemma internal_detect_intent_not_as_specified :
  internal_detect_intent "update the team meeting" <>
  intent_as_specified Scenario.free "update the team meeting".
Proof. vm_compute. discriminate. Qed.

(** ** The validation of a date (C5) *)

Section DateValidation.

Variable env : Env.

Lemma digit_is_digit (n : Z) : Str.is_digit (Str.digit n) = true.
Proof.
  unfold Str.digit, Str.is_digit.
  assert (0 <= n mod 10 < 10) as Hn by (apply Z.mod_pos_bound; lia).
  rewrite nat_ascii_embedding by lia.
  apply andb_true_iff. split; apply Nat.leb_le; lia.
Qed.

Lemma isoformat_shape (d : date) : iso_date_shape (Date.isoformat d) = true.
Proof.
  unfold Date.isoformat, Str.pad4, Str.pad2.
  repeat match goal with
  | |- context [Str.digit ?n] =>
      let c := fresh "c" in
      pose proof (digit_is_digit n); set (c := Str.digit n) in *; clearbody c
  end.
  unfold iso_date_shape. cbv [String.append forallb].
  by rewrite H, H0, H1, H2, H3, H4, H5, H6.
Qed.

Lemma digit_value (n : Z) :
  0 <= n < 10 -> Z.of_nat (nat_of_ascii (Str.digit n)) - 48 = n.
Proof.
  intros Hn. unfold Str.digit. rewrite Z.mod_small by lia.
  rewrite nat_ascii_embedding by lia. lia.
Qed.

Lemma leb_refl (d : date) : Date.leb d d = true.
Proof.
  unfold Date.leb. rewrite Z.eqb_refl, Z.eqb_refl, Z.leb_refl.
  by rewrite !orb_true_r.
Qed.

Lemma leb_prev_day (d : date) : Date.leb d (Date.add_days (-1) d) = false.
Proof.
  change (Date.add_days (-1) d) with (Date.prev_day d).
  unfold Date.prev_day, Date.leb.
  destruct (1 <? day d); [| destruct (1 <? month d)]; cbn [year month day];
    apply not_true_is_false;
    rewrite ?orb_true_iff, ?andb_true_iff, ?Z.ltb_lt, ?Z.eqb_eq, ?Z.leb_le; lia.
Qed.

Lemma future_date_Some (parsed : option datetime) (t : datetime) :
  future_date env parsed = Some t <->
  parsed = Some t /\ Date.leb (DT.date_of (now env)) (DT.date_of t) = true.
Proof.
  unfold future_date. destruct parsed as [t' |]; [| naive_solver].
  destruct (Date.leb _ _) eqn:E.
  - split; [by intros [= ->] | by intros [[= ->] _]].
  - split; [done | intros [[= ->] H]; congruence].
Qed.

Lemma update_date_accepted (value : string) (data data' : FieldDict) (message : FieldMsg) :
  process_update_field_input env "new_date" value data = Ok (true, message, data') <->
  message = NewDateSaved /\
  exists iso, accepted_date env (Str.strip value) iso /\ data' = <["new_date" := Some iso]> data.
Proof.
  unfold process_update_field_input, accepted_date. simpl.
  destruct (dateparser_parse env (Str.strip value) true) as [parsed | e]; simpl;
    [| naive_solver].
  destruct (future_date env parsed) as [t |] eqn:Ef.
  - apply future_date_Some in Ef as [-> Hle]. split.
    + intros [= <- <-]. eauto 10.
    + intros (-> & iso & (t' & [= <-] & _ & ->) & ->). done.
  - split; [done |]. intros (_ & iso & (t & [= ->] & Hle & _) & _).
    assert (future_date env (Some t) = Some t) as E by by apply future_date_Some.
    congruence.
Qed.

Lemma schedule_date_accepted (value : string) (data : FieldDict) (w w' : World) :
  s_waiting_for (session w) = Some "event_date" ->
  schedule_collect env value data w = (Ok None, w') <->
  exists iso,
    accepted_date env value iso /\
    w' = mkWorld (set_waiting_for None
                    (set_data (Some (<["event_date" := Some iso]> data)) (session w)))
           (trace w).
Proof.
  intros Hw. unfold schedule_collect, bind at 1, get_session at 1. rewrite Hw.
  unfold bind at 1. session_simpl. unfold bind at 1, lift_res, accepted_date.
  destruct (dateparser_parse env value true) as [parsed | e]; [| naive_solver].
  destruct (future_date env parsed) as [t |] eqn:Ef.
  - apply future_date_Some in Ef as [-> Hle].
    unfold ret at 1, bind, modify_session, ret. split.
    + intros [= <-]. eauto 10.
    + intros (iso & (t' & [= <-] & _ & ->) & ->). done.
  - unfold ret. split; [done |]. intros (iso & (t & [= ->] & Hle & _) & _).
    assert (future_date env (Some t) = Some t) as E by by apply future_date_Some.
    congruence.
Qed.

Lemma internal_date_accepted (value : string) :
  validate_update_input env "new_date" value = true <->
  exists iso, accepted_date env (Str.strip value) iso.
Proof.
  unfold validate_update_input, accepted_date. simpl.
  destruct (dateparser_parse env (Str.strip value) true) as [parsed | e];
    [| naive_solver].
  rewrite bool_decide_eq_true. split.
  - intros [t Ht]. apply future_date_Some in Ht as [-> Hle]. eauto 10.
  - intros (iso & t & [= ->] & Hle & _). exists t. by apply future_date_Some.
Qed.

End DateValidation.

(** C5: a value for an awaited date is accepted exactly when the
    future-preferring parser produces a date that is today or later, and
    what is stored is that date in the form [YYYY-MM-DD]; so it is in the
    Schedule flow, in the Update flow and in the validator of
    [calenderinternal.py].  With a parser that reads the words today and
    yesterday relative to the clock, [today] is accepted and [yesterday]
    rejected. *)
Theorem date_validation (env : Env) :
  dateparser_parse env "today" true = Ok (Some (now env)) ->
  dateparser_parse env "yesterday" true = Ok (Some (DT.add_days (-1) (now env))) ->
  (forall value data w w',
     s_waiting_for (session w) = Some "event_date" ->
     schedule_collect env value data w = (Ok None, w') <->
     exists iso,
       accepted_date env value iso /\
       w' = mkWorld (set_waiting_for None
                       (set_data (Some (<["event_date" := Some iso]> data)) (session w)))
              (trace w)) /\
  (forall value data data' message,
     process_update_field_input env "new_date" value data = Ok (true, message, data') <->
     message = NewDateSaved /\
     exists iso,
       accepted_date env (Str.strip value) iso /\ data' = <["new_date" := Some iso]> data) /\
  (forall value,
     validate_update_input env "new_date" value = true <->
     exists iso, accepted_date env (Str.strip value) iso) /\
  (forall value iso, accepted_date env value iso -> iso_date_shape iso = true) /\
  accepted_date env "today" (DT.strftime_Ymd (now env)) /\
  (forall iso, ~ accepted_date env "yesterday" iso) /\
  (forall data w,
     s_waiting_for (session w) = Some "event_date" ->
     schedule_collect env "yesterday" data w = (Ok (Some ReplyInvalidDate), w)) /\
  (forall data,
     process_update_field_input env "new_date" "yesterday" data =
       Ok (false, InvalidFutureDate, data)) /\
  validate_update_input env "new_date" "yesterday" = false.
Proof.
  intros Htoday Hyesterday.
  assert (forall iso, ~ accepted_date env "yesterday" iso) as Hreject.
  { intros iso (t & Hparse & Hle & _). rewrite Hyesterday in Hparse.
    injection Hparse as <-. unfold DT.date_of, DT.add_days in Hle. simpl in Hle.
    by rewrite leb_prev_day in Hle. }
  split_and!.
  - intros. by apply schedule_date_accepted.
  - intros. apply update_date_accepted.
  - intros. apply internal_date_accepted.
  - intros value iso (t & _ & _ & ->). apply isoformat_shape.
  - exists (now env). split_and!; [done | apply leb_refl | done].
  - exact Hreject.
  - intros data w Hw. unfold schedule_collect, bind at 1, get_session at 1. rewrite Hw.
    unfold bind at 1. session_simpl. unfold bind at 1, lift_res. rewrite Hyesterday.
    unfold future_date, DT.date_of, DT.add_days. simpl dt_date. by rewrite leb_prev_day.
  - intros data. unfold process_update_field_input.
    change (Str.strip "yesterday") with "yesterday". session_simpl.
    rewrite Hyesterday. unfold res_bind, future_date, DT.date_of, DT.add_days. simpl dt_date.
    by rewrite leb_prev_day.
  - apply not_true_is_false. intros H. apply internal_date_accepted in H as [iso H].
    by apply (Hreject iso).
Qed.

(** A run of C5 with the parser of the examples. *)
Lemma date_validation_witness :
  accepted_date Scenario.free "today" "2025-06-15" /\
  validate_update_input Scenario.free "new_date" "yesterday" = false.
Proof.
  destruct (date_validation Scenario.free) as (_ & _ & _ & _ & Htoday & _ & _ & _ & Hno);
    [reflexivity | reflexivity |].
  split; [exact Htoday | exact Hno].
Defined.

(** ** [parse_datetime] (C10) *)

Section ParseDatetime.

Variable env : Env.

(** Both results are localized to Asia/Kolkata, on every input. *)
Lemma parse_datetime_in_kolkata (date_str time_str : string) :
  tzinfo (parse_datetime env date_str time_str).1 = Some "Asia/Kolkata" /\
  tzinfo (parse_datetime env date_str time_str).2 = Some "Asia/Kolkata".
Proof.
  unfold parse_datetime.
  destruct (parse_datetime_try env date_str time_str) as [[start_time end_time] | e] eqn:E;
    [| done].
  revert E. unfold parse_datetime_try, res_bind.
  destruct (dateparser_parse env date_str true) as [parsed | e]; [| done].
  destruct (re_split env _ _) as [| first [| second rest]]; [done | |].
  - destruct (dateparser_parse env _ false) as [start1 | e]; [| done].
    destruct start1 as [start1 |].
    + destruct (dateparser_parse env _ false) as [start2 | e]; [| done].
      destruct (dateparser_parse env _ false) as [end2 | e]; [| done].
      by intros [= <- <-].
    + destruct (dateparser_parse env _ false) as [end2 | e]; [| done].
      by intros [= <- <-].
  - destruct (dateparser_parse env _ false) as [start2 | e]; [| done].
    destruct (dateparser_parse env _ false) as [end2 | e]; [| done].
    by intros [= <- <-].
Qed.

(** When the parser raises on the date, the result is tomorrow from ten
    to eleven. *)
Lemma parse_datetime_parser_raises (date_str time_str : string) (e : exn) :
  dateparser_parse env date_str true = Raise e ->
  parse_datetime env date_str time_str = parse_datetime_default env.
Proof.
  intros H. unfold parse_datetime, parse_datetime_try. by rewrite H.
Qed.

(** When the parser reads neither the date nor anything of the time, the
    result is again tomorrow from ten to eleven. *)
Lemma parse_datetime_nothing_parses (date_str time_str : string) :
  (forall text flag, dateparser_parse env text flag = Ok None) ->
  parse_datetime env date_str time_str = parse_datetime_default env.
Proof.
  intros H. unfold parse_datetime, parse_datetime_try, res_bind. rewrite H.
  destruct (re_split env _ _) as [| first [| second rest]]; [done | |];
    by rewrite ?H.
Qed.

(** With a start time only, the end is not the start plus one hour but
    what the parser makes of the clock time of that instant on the date
    of the start: the day the hour may have rolled into is lost. *)
Lemma parse_datetime_start_only (date_str time_str first : string)
    (parsed_date start_time end_time : datetime) :
  dateparser_parse env date_str true = Ok (Some parsed_date) ->
  re_split env PatTimeSeparator
    (map_natural_time time_mappings (Str.strip (Str.lower time_str))) = [first] ->
  dateparser_parse env (on_date parsed_date (Str.strip first)) false = Ok (Some start_time) ->
  dateparser_parse env (on_date parsed_date (DT.strftime_IMp (DT.add_hour start_time))) false
    = Ok (Some end_time) ->
  parse_datetime env date_str time_str =
    (DT.localize "Asia/Kolkata" (DT.naive start_time),
     DT.localize "Asia/Kolkata" (DT.naive end_time)).
Proof.
  intros Hdate Hsplit Hstart Hend.
  unfold parse_datetime, parse_datetime_try, res_bind.
  rewrite Hdate. simpl default. rewrite Hsplit, Hstart, Hstart, Hend. reflexivity.
Qed.

End ParseDatetime.

(** C10, as the code has it: a meeting that starts at 11:30 PM and names
    no end does not end one hour later.  The end is read back from the
    clock time 12:30 AM on the date of the start, which puts it twenty-three
    hours before the start. *)
Theorem late_start_ends_before_it_starts :
  let start_time := mkdatetime (mkdate 2025 1 1) 23 30 0 0 (Some "Asia/Kolkata") in
  let end_time := mkdatetime (mkdate 2025 1 1) 0 30 0 0 (Some "Asia/Kolkata") in
  parse_datetime Scenario.free "2025-01-01" "11:30 PM" = (start_time, end_time) /\
  end_time <> DT.add_hour start_time.
Proof. split; [reflexivity | discriminate]. Qed.

(** A run of C3: HR review was listed, but is gone when the delete call
    arrives. *)
Lemma delete_of_gone_event_reports_failure_witness :
  let details : FieldDict := {[ "event_name" := Some "HR review" ]} in
  found_event Scenario.gone (dict_item details "event_name") = Some Scenario.hr_review /\
  calendar_delete Scenario.gone (ev_id Scenario.hr_review) = Raise Demo.not_found /\
  (delete_execute Scenario.gone details Scenario.start).1 =
    Ok (ReplyDeleteFailed (MsgAlreadyDeleted "HR review")) /\
  (delete_event Scenario.gone "HR review" Scenario.start).1 = Ok true.
Proof.
  intros details. split; [reflexivity |]. split; [reflexivity |].
  apply (delete_of_gone_event_reports_failure Scenario.gone details Scenario.hr_review
           Demo.not_found Scenario.start); reflexivity.
Defined.

(** A run of C8: the user asks for HR sync, the calendar holds HR review. *)
Lemma not_found_with_suggestions_is_an_error_witness :
  found_event Scenario.hr "HR sync" = None /\
  suggestions_for Scenario.hr "HR sync" <> [] /\
  (update_event_with_sync Scenario.hr "HR sync" "2025-06-20" "10 am" Scenario.start).1 =
    Ok (false, MsgUnexpectedUpdateError "'summary'") /\
  (delete_event_with_sync Scenario.hr "HR sync" Scenario.start).1 =
    Ok (false, MsgUnexpectedDeleteError "'summary'").
Proof.
  assert (found_event Scenario.hr "HR sync" = None) as Hnone by reflexivity.
  assert (suggestions_for Scenario.hr "HR sync" <> []) as Hsome by (vm_compute; discriminate).
  split; [exact Hnone |]. split; [exact Hsome |].
  destruct (not_found_with_suggestions_is_an_error Scenario.hr "HR sync" "2025-06-20" "10 am"
              Scenario.start Hnone Hsome) as [Hupdate Hdelete].
  split; [by rewrite Hupdate | by rewrite Hdelete].
Defined.

(** * Further properties of the helpers and routes *)

(** ** The missing-field prompts *)

Lemma first_of_filter {A} (p : A -> bool) (l : list A) :
  match List.filter p l with
  | [] => forall x, x ∈ l -> p x = false
  | x :: _ =>
      exists before after,
        l = before ++ x :: after /\ p x = true /\ forall y, y ∈ before -> p y = false
  end.
Proof.
  induction l as [| a l IH]; simpl.
  - intros x Hx. by apply elem_of_nil in Hx.
  - destruct (p a) eqn:Ea.
    + exists [], l. split_and!; [done | done |]. intros y Hy. by apply elem_of_nil in Hy.
    + destruct (List.filter p l) as [| x rest].
      * intros x [-> | Hx]%elem_of_cons; [done | by apply IH].
      * destruct IH as (before & after & -> & Hx & Hbefore).
        exists (a :: before), after. split_and!; [done | done |].
        intros y [-> | Hy]%elem_of_cons; [done | by apply Hbefore].
Qed.

(** X1: [get_missing_field_prompt] and [get_missing_update_field_prompt]
    ask for the first field, in the order of [REQUIRED_FIELDS]
    (resp. [UPDATE_REQUIRED_FIELDS]), that is absent or falsy, every field
    before it being filled; they answer [(None, None)] exactly when no
    required field is missing. *)
Theorem missing_field_prompt_is_first_missing (current_data : FieldDict) :
  match get_missing_field_prompt current_data with
  | Some (field, prompt) =>
      exists before after,
        REQUIRED_FIELDS = before ++ field :: after /\
        field_missing current_data field = true /\
        (forall f, f ∈ before -> field_missing current_data f = false) /\
        prompt = "Please specify the missing information: " +:+ schedule_question field
  | None => forall f, f ∈ REQUIRED_FIELDS -> field_missing current_data f = false
  end /\
  match get_missing_update_field_prompt current_data with
  | Some (field, prompt) =>
      exists before after,
        UPDATE_REQUIRED_FIELDS = before ++ field :: after /\
        field_missing current_data field = true /\
        (forall f, f ∈ before -> field_missing current_data f = false) /\
        prompt = "Please specify: " +:+ update_question field
  | None => forall f, f ∈ UPDATE_REQUIRED_FIELDS -> field_missing current_data f = false
  end.
Proof.
  unfold get_missing_field_prompt, get_missing_update_field_prompt. split.
  - pose proof (first_of_filter (field_missing current_data) REQUIRED_FIELDS) as H.
    destruct (List.filter _ REQUIRED_FIELDS) as [| field rest]; [done |].
    destruct H as (before & after & E & Hm & Hb). by exists before, after.
  - pose proof (first_of_filter (field_missing current_data) UPDATE_REQUIRED_FIELDS) as H.
    destruct (List.filter _ UPDATE_REQUIRED_FIELDS) as [| field rest]; [done |].
    destruct H as (before & after & E & Hm & Hb). by exists before, after.
Qed.

(** X2: the two versions of [get_missing_update_field_prompt], that of
    [app.py] and that of [calenderinternal.py], ask for the same field
    on every record (their prompts differ). *)
Theorem update_prompts_agree_on_field (current_data : FieldDict) :
  fst <$> internal_get_missing_update_field_prompt current_data =
  fst <$> get_missing_update_field_prompt current_data.
Proof.
  unfold internal_get_missing_update_field_prompt, get_missing_update_field_prompt,
    UPDATE_REQUIRED_FIELDS.
  simpl.
  by destruct (field_missing current_data "event_name"),
       (field_missing current_data "new_date"),
       (field_missing current_data "new_time").
Qed.

(** ** The user's meetings: listing, tracking and synchronising *)

Section Meetings.

Variable env : Env.

Lemma is_user_organizer_unknown (organizer creator : option string) (user : option string) :
  truthy_opt user = false -> is_user_organizer organizer creator user = false.
Proof. unfold is_user_organizer. by intros ->. Qed.

Lemma organized_meetings_unknown_user (user : option string) (events : list Event) :
  truthy_opt user = false -> organized_meetings user events = Ok [].
Proof.
  intros Hu. induction events as [| event rest IH]; [done |]. simpl.
  destruct (ev_attendees event) as [[| a attendees] |]; [done | | done].
  by rewrite is_user_organizer_unknown.
Qed.

Lemma organized_meetings_sound (user : option string) (events : list Event)
    (meetings : list Meeting) (m : Meeting) :
  organized_meetings user events = Ok meetings -> m ∈ meetings ->
  exists event,
    event ∈ events /\ has_attendees event = true /\
    is_user_organizer (ev_organizer_email event) (ev_creator_email event) user = true /\
    mt_id m = "cal_" +:+ ev_id event /\
    mt_calendar_event_id m = Some (ev_id event).
Proof.
  revert meetings. induction events as [| event rest IH]; intros meetings; simpl.
  - intros [= <-] Hm. by apply elem_of_nil in Hm.
  - destruct (ev_attendees event) as [[| a attendees] |] eqn:Ea.
    + intros E Hm. destruct (IH _ E Hm) as (ev & Hev & H). exists ev. split; [by right | done].
    + destruct (is_user_organizer _ _ _) eqn:Eo.
      * destruct (meeting_record user event (a :: attendees)) as [m0 | e] eqn:Er; [| done].
        simpl. destruct (organized_meetings user rest) as [ms | e] eqn:Erest; [| done].
        simpl. intros [= <-] [-> | Hm]%elem_of_cons.
        -- exists event. split; [by left |]. unfold has_attendees. rewrite Ea.
           split; [done |]. split; [done |].
           unfold meeting_record in Er.
           destruct (res_map_list _ _); [| done]. simpl in Er.
           destruct (clock_string (ev_start event)); [| done]. simpl in Er.
           destruct (clock_string (ev_end event)); [| done]. simpl in Er.
           by injection Er as <-.
        -- destruct (IH _ eq_refl Hm) as (ev & Hev & H). exists ev. split; [by right | done].
      * intros E Hm. destruct (IH _ E Hm) as (ev & Hev & H). exists ev. split; [by right | done].
    + intros E Hm. destruct (IH _ E Hm) as (ev & Hev & H). exists ev. split; [by right | done].
Qed.

Lemma get_scheduled_meetings_from_calendar_run (w : World) :
  exists calls,
    get_scheduled_meetings_from_calendar env w = (Ok (listed_meetings env), logged w calls) /\
    Forall reads_only calls.
Proof.
  unfold get_scheduled_meetings_from_calendar, listed_meetings, try_catch.
  destruct (services_calendar env); simpl.
  - unfold bind at 1, request at 1.
    destruct (calendar_list env _ _ _) as [events | e]; simpl.
    + unfold bind. rewrite get_authenticated_user_email_run. unfold lift_res, ret.
      unfold logged. simpl. rewrite <- app_assoc. simpl.
      eexists (_ :: _).
      split; [by destruct (organized_meetings _ _) |].
      constructor; [done |]. destruct (services_gmail env); by repeat constructor.
    + unfold ret, logged. eexists [_]. split; [reflexivity |]. by repeat constructor.
  - exists []. by rewrite logged_nil.
Qed.

Lemma seen_id (all_meetings : list Meeting) (meeting : Meeting) :
  existsb (fun m => String.eqb (mt_id m) (mt_id meeting)) all_meetings = true <->
  mt_id meeting ∈ map mt_id all_meetings.
Proof.
  rewrite existsb_exists, list_elem_of_fmap. split.
  - intros (m & Hm%list_elem_of_In & E%String.eqb_eq). eauto.
  - intros (m & E & Hm%list_elem_of_In). exists m. split; [done |]. by apply String.eqb_eq.
Qed.

Lemma fold_add_unseen_elem (l acc : list Meeting) (m : Meeting) :
  m ∈ fold_left add_unseen l acc ->
  m ∈ acc \/ (m ∈ l /\ mt_id m ∉ map mt_id acc).
Proof.
  revert acc. induction l as [| x l IH]; intros acc; simpl; [by left |].
  intros [Hm | [Hm Hid]]%IH; unfold add_unseen in *.
  - destruct (existsb _ acc) eqn:E; [by left |].
    apply elem_of_app in Hm as [Hm | ->%list_elem_of_singleton]; [by left |].
    right. split; [by left |]. rewrite <- seen_id. by rewrite E.
  - right. split; [by right |].
    destruct (existsb _ acc) eqn:E; [done |].
    intros Hin. apply Hid. rewrite fmap_app. apply elem_of_app. by left.
Qed.

Lemma fold_add_unseen_ids (l acc : list Meeting) (id : string) :
  id ∈ map mt_id (fold_left add_unseen l acc) <->
  id ∈ map mt_id acc \/ id ∈ map mt_id l.
Proof.
  revert acc. induction l as [| x l IH]; intros acc; simpl.
  - split; [by left |]. intros [H | H]; [done | by apply elem_of_nil in H].
  - rewrite IH. unfold add_unseen. destruct (existsb _ acc) eqn:E.
    + apply seen_id in E. split.
      * intros [H | H]; [by left | right; by right].
      * intros [H | [-> | H]%elem_of_cons]; [by left | by left | by right].
    + rewrite fmap_app, elem_of_app. simpl. rewrite list_elem_of_singleton. split.
      * intros [[H | ->] | H]; [by left | right; by left | right; by right].
      * intros [H | [-> | H]%elem_of_cons]; [left; by left | left; by right | by right].
Qed.

Lemma fold_add_unseen_nodup (l acc : list Meeting) :
  NoDup (map mt_id acc) -> NoDup (map mt_id (fold_left add_unseen l acc)).
Proof.
  revert acc. induction l as [| x l IH]; intros acc Hacc; simpl; [done |].
  apply IH. unfold add_unseen. destruct (existsb _ acc) eqn:E; [done |].
  rewrite fmap_app. apply NoDup_app. split; [done |]. split.
  - simpl. intros id Hid ->%list_elem_of_singleton.
    apply seen_id in Hid. by rewrite E in Hid.
  - apply NoDup_singleton.
Qed.

Lemma insert_by_key_perm (x : Meeting) (l : list Meeting) : insert_by_key x l ≡ₚ x :: l.
Proof.
  induction l as [| y l IH]; simpl; [done |].
  destruct (meeting_key_le x y); [done |]. rewrite IH. apply Permutation_swap.
Qed.

Lemma sort_by_key_perm (l : list Meeting) : sort_by_key l ≡ₚ l.
Proof.
  induction l as [| x l IH]; simpl; [done |].
  unfold sort_by_key in *. simpl. by rewrite insert_by_key_perm, IH.
Qed.

Lemma meeting_key_le_total (a b : Meeting) :
  meeting_key_le a b = false -> meeting_key_le b a = true.
Proof.
  unfold meeting_key_le. rewrite (String.compare_antisym (mt_event_date a)).
  destruct (String.compare (mt_event_date b) (mt_event_date a)); simpl; [| done | done].
  intros H. destruct (String.leb_total (mt_event_time a) (mt_event_time b)); congruence.
Qed.

Lemma insert_by_key_sorted (x : Meeting) (l : list Meeting) :
  Sorted (fun a b => meeting_key_le a b = true) l ->
  Sorted (fun a b => meeting_key_le a b = true) (insert_by_key x l).
Proof.
  induction 1 as [| y l Hl IH Hhd]; simpl; [by repeat constructor |].
  destruct (meeting_key_le x y) eqn:E.
  - constructor; [by constructor | by constructor].
  - constructor; [done |].
    destruct l as [| z l]; simpl.
    + constructor. by apply meeting_key_le_total.
    + destruct (meeting_key_le x z).
      * constructor. by apply meeting_key_le_total.
      * inversion Hhd; subst. by constructor.
Qed.

Lemma sort_by_key_sorted (l : list Meeting) :
  Sorted (fun a b => meeting_key_le a b = true) (sort_by_key l).
Proof.
  induction l as [| x l IH]; [constructor |]. by apply insert_by_key_sorted.
Qed.

Lemma get_all_scheduled_meetings_run (w : World) :
  exists calls,
    get_all_scheduled_meetings env w =
      (Ok (merged_meetings env (default [] (s_scheduled_meetings (session w)))),
       logged w calls) /\
    Forall reads_only calls.
Proof.
  unfold get_all_scheduled_meetings, try_catch, bind at 1, get_session, bind.
  destruct (get_scheduled_meetings_from_calendar_run w) as (calls & -> & Hcalls).
  exists calls. by split.
Qed.

Lemma is_user_organizer_true (organizer creator user : option string) :
  is_user_organizer organizer creator user = true ->
  exists address,
    user = Some address /\ address <> "" /\
    Str.lower (default "" organizer) = Str.lower address.
Proof.
  unfold is_user_organizer. destruct user as [address |]; [| done]. simpl.
  unfold Str.truthy. destruct (String.eqb_spec address ""); [done |]. simpl.
  intros E%String.eqb_eq. by exists address.
Qed.

(** X3: [get_scheduled_meetings_from_calendar] never raises, only reads
    and leaves the session alone.  Every meeting it lists stands for a
    listed event with attendees whose organizer is, up to case, the
    authenticated user; its id is [cal_] followed by the id of the event,
    which is also its calendar event id.  Without a calendar service,
    when the listing fails or when the user's address is unknown it lists
    nothing. *)
Theorem calendar_meetings_are_the_users (w : World) :
  exists meetings calls,
    get_scheduled_meetings_from_calendar env w = (Ok meetings, logged w calls) /\
    Forall reads_only calls /\
    (forall m, m ∈ meetings ->
       exists address events event,
         services_calendar env = true /\
         user_email_of env = Some address /\ address <> "" /\
         calendar_list env (isoformat env (utcnow env) +:+ "Z")
           (isoformat env (DT.add_days 30 (utcnow env)) +:+ "Z") (Some 50) = Ok events /\
         event ∈ events /\ has_attendees event = true /\
         Str.lower (default "" (ev_organizer_email event)) = Str.lower address /\
         mt_id m = "cal_" +:+ ev_id event /\
         mt_calendar_event_id m = Some (ev_id event)).
Proof.
  destruct (get_scheduled_meetings_from_calendar_run w) as (calls & E & Hcalls).
  exists (listed_meetings env), calls. split; [done |]. split; [done |].
  unfold listed_meetings. intros m Hm.
  destruct (services_calendar env); simpl in Hm; [| by apply elem_of_nil in Hm].
  destruct (calendar_list env _ _ _) as [events | e]; [| by apply elem_of_nil in Hm].
  destruct (organized_meetings _ events) as [ms | e] eqn:Eo; [| by apply elem_of_nil in Hm].
  destruct (organized_meetings_sound _ _ _ _ Eo Hm) as (event & Hev & Ha & Ho & Hid & Hcal).
  apply is_user_organizer_true in Ho as (address & Eu & Hne & Hlow).
  exists address, events, event. by split_and!.
Qed.

Lemma listed_meeting_id (c : Meeting) :
  c ∈ listed_meetings env -> String.prefix "cal_" (mt_id c) = true.
Proof.
  unfold listed_meetings. intros Hc.
  destruct (negb _); [by apply elem_of_nil in Hc |].
  destruct (calendar_list env _ _ _) as [events | e]; [| by apply elem_of_nil in Hc].
  destruct (organized_meetings _ events) as [ms | e] eqn:Eo; [| by apply elem_of_nil in Hc].
  destruct (organized_meetings_sound _ _ _ _ Eo Hc) as (event & _ & _ & _ & -> & _).
  cbv [String.append]. simpl. by destruct (ev_id event).
Qed.

Lemma merged_meetings_ids (session_meetings : list Meeting) (id : string) :
  id ∈ map mt_id (merged_meetings env session_meetings) <->
  id ∈ map mt_id (listed_meetings env) \/ id ∈ map mt_id session_meetings.
Proof.
  unfold merged_meetings. rewrite (sort_by_key_perm _).
  rewrite !fold_add_unseen_ids. simpl. rewrite elem_of_nil. tauto.
Qed.

(** X4: [get_all_scheduled_meetings] never raises, only reads and leaves
    the session alone.  Its list has no id twice, is sorted by date and
    then time, and has exactly the ids of the calendar meetings and of
    the session meetings; under an id of both, it is the calendar meeting
    that is listed. *)
Theorem all_scheduled_meetings_merged (w : World) :
  exists meetings calls,
    get_all_scheduled_meetings env w = (Ok meetings, logged w calls) /\
    Forall reads_only calls /\
    NoDup (map mt_id meetings) /\
    Sorted (fun a b => meeting_key_le a b = true) meetings /\
    (forall id,
       id ∈ map mt_id meetings <->
       id ∈ map mt_id (listed_meetings env) \/
       id ∈ map mt_id (default [] (s_scheduled_meetings (session w)))) /\
    (forall m,
       m ∈ meetings ->
       m ∈ listed_meetings env \/
       (m ∈ default [] (s_scheduled_meetings (session w)) /\
        mt_id m ∉ map mt_id (listed_meetings env))).
Proof.
  destruct (get_all_scheduled_meetings_run w) as (calls & E & Hcalls).
  eexists _, calls. split; [exact E |]. split; [done |].
  set (session_meetings := default [] (s_scheduled_meetings (session w))).
  split_and!.
  - unfold merged_meetings. rewrite (sort_by_key_perm _).
    apply fold_add_unseen_nodup, fold_add_unseen_nodup. constructor.
  - apply sort_by_key_sorted.
  - apply merged_meetings_ids.
  - unfold merged_meetings. intros m Hm. rewrite (sort_by_key_perm _) in Hm.
    apply fold_add_unseen_elem in Hm as [Hm | [Hm Hid]].
    + left. apply fold_add_unseen_elem in Hm as [Hm | [Hm _]]; [| done].
      by apply elem_of_nil in Hm.
    + right. split; [done |]. intros Hin. apply Hid.
      apply fold_add_unseen_ids. by right.
Qed.

Lemma track_scheduled_meeting_run (participant_email event_name event_date event_time
    meeting_link : string) (calendar_event_id : option string) (w : World) :
  let record := mkMeeting (fresh_meeting_id env event_name) participant_email event_name
                  event_date event_time meeting_link calendar_event_id in
  track_scheduled_meeting env participant_email event_name event_date event_time
    meeting_link calendar_event_id w =
  (Ok (Some record),
   mkWorld (set_scheduled_meetings
              (Some (default [] (s_scheduled_meetings (session w)) ++ [record]))
              (session w))
     (trace w)).
Proof. done. Qed.

(** X5: [track_scheduled_meeting] never raises and issues no request; it
    appends one record, made of its arguments, to the session list.  A
    following [get_all_scheduled_meetings] lists the id of that record,
    and [get_scheduled_meetings_count] is then at least one. *)
Theorem tracked_meeting_is_listed (participant_email event_name event_date event_time
    meeting_link : string) (calendar_event_id : option string) (w : World) :
  exists record w',
    track_scheduled_meeting env participant_email event_name event_date event_time
      meeting_link calendar_event_id w = (Ok (Some record), w') /\
    record = mkMeeting (fresh_meeting_id env event_name) participant_email event_name
               event_date event_time meeting_link calendar_event_id /\
    trace w' = trace w /\
    s_scheduled_meetings (session w') =
      Some (default [] (s_scheduled_meetings (session w)) ++ [record]) /\
    (exists meetings w'',
       get_all_scheduled_meetings env w' = (Ok meetings, w'') /\
       mt_id record ∈ map mt_id meetings) /\
    (exists n w'',
       get_scheduled_meetings_count env w' = (Ok n, w'') /\ (1 <= n)%nat).
Proof.
  eexists _, _. split; [apply track_scheduled_meeting_run |].
  split; [done |]. split; [done |]. split; [done |].
  set (record := mkMeeting _ _ _ _ _ _ _).
  set (w' := mkWorld _ _).
  destruct (get_all_scheduled_meetings_run w') as (calls & E & Hcalls).
  assert (mt_id record ∈
          map mt_id (merged_meetings env (default [] (s_scheduled_meetings (session w')))))
    as Hin.
  { apply merged_meetings_ids. right. simpl. rewrite fmap_app.
    apply elem_of_app. right. by apply list_elem_of_singleton. }
  split.
  - eexists _, _. split; [exact E | exact Hin].
  - unfold get_scheduled_meetings_count, bind. rewrite E. eexists _, _.
    split; [reflexivity |].
    destruct (merged_meetings env _); [by apply elem_of_nil in Hin | simpl; lia].
Qed.

(** X6: the merge of [get_all_scheduled_meetings] goes by the id of a
    record, and the ids of the two sources differ: a calendar meeting is
    [cal_] and the id of its event.  So a session meeting whose id does
    not begin with [cal_] is listed beside the calendar meeting of the
    very event it was tracked for, and that event is counted twice. *)
Theorem tracked_calendar_meeting_listed_twice (w : World) (m c : Meeting) :
  m ∈ default [] (s_scheduled_meetings (session w)) ->
  c ∈ listed_meetings env ->
  mt_calendar_event_id m = mt_calendar_event_id c ->
  String.prefix "cal_" (mt_id m) = false ->
  exists meetings w' m' c',
    get_all_scheduled_meetings env w = (Ok meetings, w') /\
    m' ∈ meetings /\ c' ∈ meetings /\
    mt_id m' = mt_id m /\ mt_id c' = mt_id c /\ mt_id m' <> mt_id c' /\
    (2 <= length meetings)%nat.
Proof.
  intros Hm Hc Hid Hprefix.
  destruct (get_all_scheduled_meetings_run w) as (calls & E & Hcalls).
  set (meetings := merged_meetings env (default [] (s_scheduled_meetings (session w)))) in *.
  assert (mt_id m ∈ map mt_id meetings) as Hm'.
  { apply merged_meetings_ids. right. by apply list_elem_of_fmap_2. }
  assert (mt_id c ∈ map mt_id meetings) as Hc'.
  { apply merged_meetings_ids. left. by apply list_elem_of_fmap_2. }
  apply list_elem_of_fmap in Hm' as (m' & Em & Hm').
  apply list_elem_of_fmap in Hc' as (c' & Ec & Hc').
  assert (mt_id m' <> mt_id c') as Hne.
  { rewrite <- Em, <- Ec. intros Heq. apply listed_meeting_id in Hc.
    rewrite <- Heq in Hc. congruence. }
  exists meetings, (logged w calls), m', c'. split_and!; try done.
  apply list_elem_of_split in Hm' as (l1 & l2 & El).
  rewrite El in Hc'. rewrite El, length_app. simpl.
  apply elem_of_app in Hc' as [Hc' | [-> | Hc']%elem_of_cons]; [| done |].
  - destruct l1; [by apply elem_of_nil in Hc' | simpl; lia].
  - destruct l2; [by apply elem_of_nil in Hc' | simpl; lia].
Qed.

Lemma sync_session_with_calendar_run (w : World) :
  exists calls,
    sync_session_with_calendar env w =
      (Ok true, mkWorld (synced env (session w)) (trace w ++ calls)) /\
    Forall reads_only calls.
Proof.
  unfold sync_session_with_calendar, try_catch, bind at 1.
  destruct (get_scheduled_meetings_from_calendar_run w) as (calls & -> & Hcalls).
  exists calls. by split.
Qed.

Lemma filter_sublist {A} (f : A -> bool) (l : list A) : sublist (List.filter f l) l.
Proof.
  induction l as [| x l IH]; simpl; [constructor |].
  destruct (f x); by constructor.
Qed.


Lemma still_listed_spec (calendar_meetings : list Meeting) (m : Meeting) :
  still_listed calendar_meetings m = true <->
  truthy_opt (mt_calendar_event_id m) = false \/
  exists c, c ∈ calendar_meetings /\ mt_calendar_event_id c = mt_calendar_event_id m.
Proof.
  unfold still_listed. destruct (truthy_opt _); [| by split; [left |]].
  rewrite existsb_exists. split.
  - intros (c & Hc%list_elem_of_In & E%bool_decide_eq_true). right. by exists c.
  - intros [? | (c & Hc%list_elem_of_In & E)]; [done |]. exists c.
    split; [done |]. by apply bool_decide_eq_true.
Qed.

(** X7: [sync_session_with_calendar] always answers [True]; it only
    reads the calendar and writes no session key but
    [scheduled_meetings].  It adds nothing to that list and keeps its
    order: a meeting stays exactly when it has no calendar event id or a
    listed calendar meeting has the same one.  A session without the key
    is left as it is. *)
Theorem sync_only_filters_session_meetings (w : World) :
  exists calls w',
    sync_session_with_calendar env w = (Ok true, w') /\
    trace w' = trace w ++ calls /\ Forall reads_only calls /\
    session w' = set_scheduled_meetings (s_scheduled_meetings (session w')) (session w) /\
    match s_scheduled_meetings (session w) with
    | None => session w' = session w
    | Some before =>
        exists after,
          s_scheduled_meetings (session w') = Some after /\
          sublist after before /\
          forall m,
            m ∈ after <->
            m ∈ before /\
            (truthy_opt (mt_calendar_event_id m) = false \/
             exists c, c ∈ listed_meetings env /\
                       mt_calendar_event_id c = mt_calendar_event_id m)
    end.
Proof.
  destruct (sync_session_with_calendar_run w) as (calls & E & Hcalls).
  eexists calls, _. split; [exact E |]. split; [done |]. split; [done |].
  simpl. unfold synced. destruct (session w) as [? ? ? ? ? ? ? ? ? sm ?]; simpl.
  destruct sm as [before |]; simpl; [| done]. split; [done |].
  eexists. split; [done |]. split; [apply filter_sublist |].
  intros m. rewrite list_elem_of_In, filter_In, <- list_elem_of_In.
  by rewrite still_listed_spec.
Qed.


Lemma listed_meetings_nil :
  services_calendar env = false \/
  (exists e, calendar_list env (isoformat env (utcnow env) +:+ "Z")
               (isoformat env (DT.add_days 30 (utcnow env)) +:+ "Z") (Some 50) = Raise e) \/
  truthy_opt (user_email_of env) = false ->
  listed_meetings env = [].
Proof.
  unfold listed_meetings. intros [-> | [(e & ->) | Hu]]; [done | |].
  - by destruct (negb _).
  - destruct (negb _); [done |]. destruct (calendar_list env _ _ _); [| done].
    by rewrite organized_meetings_unknown_user.
Qed.

(** X9: [sync_session_with_calendar] cannot tell an empty calendar from
    one it could not read.  Without a calendar service, when the listing
    raises or when the address of the user is unknown, it still answers
    [True] and drops every session meeting that has a calendar event id. *)
Theorem sync_forgets_meetings_when_listing_fails (w : World) (before : list Meeting) :
  services_calendar env = false \/
  (exists e, calendar_list env (isoformat env (utcnow env) +:+ "Z")
               (isoformat env (DT.add_days 30 (utcnow env)) +:+ "Z") (Some 50) = Raise e) \/
  truthy_opt (user_email_of env) = false ->
  s_scheduled_meetings (session w) = Some before ->
  exists w',
    sync_session_with_calendar env w = (Ok true, w') /\
    s_scheduled_meetings (session w') =
      Some (List.filter (fun m => negb (truthy_opt (mt_calendar_event_id m))) before).
Proof.
  intros Hfail Hbefore.
  destruct (sync_session_with_calendar_run w) as (calls & E & _).
  eexists. split; [exact E |]. simpl. unfold synced. rewrite Hbefore. simpl.
  by rewrite (listed_meetings_nil Hfail).
Qed.



End Meetings.

Lemma tracked_calendar_meeting_listed_twice_witness :
  exists meetings w' m' c',
    get_all_scheduled_meetings (Scenario.busy (Ok (Some Demo.me))) Tracking.start =
      (Ok meetings, w') /\
    m' ∈ meetings /\ c' ∈ meetings /\
    mt_id m' = mt_id Tracking.tracked /\ mt_id c' = mt_id Tracking.listed /\
    mt_id m' <> mt_id c' /\
    (2 <= length meetings)%nat.
Proof.
  apply (tracked_calendar_meeting_listed_twice (Scenario.busy (Ok (Some Demo.me)))
           Tracking.start Tracking.tracked Tracking.listed).
  - simpl. apply list_elem_of_here.
  - vm_compute. apply list_elem_of_here.
  - reflexivity.
  - reflexivity.
Defined.

Lemma sync_forgets_meetings_when_listing_fails_witness :
  exists w',
    sync_session_with_calendar (Scenario.busy (Raise Demo.not_found)) Tracking.start =
      (Ok true, w') /\
    s_scheduled_meetings (session w') =
      Some (List.filter (fun m => negb (truthy_opt (mt_calendar_event_id m)))
              [Tracking.tracked]).
Proof.
  apply (sync_forgets_meetings_when_listing_fails (Scenario.busy (Raise Demo.not_found))
           Tracking.start [Tracking.tracked]).
  - right. right. reflexivity.
  - reflexivity.
Defined.

(** ** The recovery wrappers *)

Section Recovery.

Variable env : Env.

Lemma delete_event_with_sync_total (event_name : string) :
  total (delete_event_with_sync env event_name).
Proof. apply total_try_catch. intros e. apply total_ret. Qed.

Lemma update_event_with_sync_total (event_name new_date new_time : string) :
  total (update_event_with_sync env event_name new_date new_time).
Proof. apply total_try_catch. intros e. apply total_ret. Qed.

(** X11: [delete_event_with_sync] and [update_event_with_sync] never
    raise: every failure comes back as [(False, message)].  So the
    [except] branch of [delete_event_with_recovery] and
    [update_event_with_recovery] is never entered, and the wrappers
    answer and act exactly as the executors do. *)
Theorem recovery_is_never_entered (event_name new_date new_time : string) (w : World) :
  (exists r w',
     delete_event_with_sync env event_name w = (Ok r, w') /\
     delete_event_with_recovery env event_name w = (Ok (inl r), w')) /\
  (exists r w',
     update_event_with_sync env event_name new_date new_time w = (Ok r, w') /\
     update_event_with_recovery env event_name new_date new_time w = (Ok (inl r), w')).
Proof.
  split.
  - destruct (delete_event_with_sync_total event_name w) as (r & Er).
    unfold delete_event_with_recovery, try_catch, bind.
    destruct (delete_event_with_sync env event_name w) as [r' w']. simpl in Er. subst r'.
    by exists r, w'.
  - destruct (update_event_with_sync_total event_name new_date new_time w) as (r & Er).
    unfold update_event_with_recovery, try_catch, bind.
    destruct (update_event_with_sync env event_name new_date new_time w) as [r' w'].
    simpl in Er. subst r'. by exists r, w'.
Qed.


End Recovery.

(** ** Keywords of the intent classifiers *)






(** ** Looking an event up by name *)

Section Lookup.

Variable env : Env.

Lemma first_strategy_match_first (strategy : Event -> string -> bool)
    (rest : list (Event -> string -> bool)) (events : list Event) (event_name : string)
    (e : Event) :
  e ∈ events -> strategy e event_name = true ->
  exists selected,
    first_strategy_match (strategy :: rest) events event_name = Some selected /\
    selected ∈ events /\ strategy selected event_name = true /\
    (has_attendees selected = true \/
     forall e', e' ∈ events -> strategy e' event_name = true -> has_attendees e' = false).
Proof.
  intros He Hs. cbn [first_strategy_match].
  assert (e ∈ List.filter (fun event => strategy event event_name) events) as Hin.
  { apply list_elem_of_In, filter_In. split; [by apply list_elem_of_In | done]. }
  destruct (List.filter (fun event => strategy event event_name) events)
    as [| first more] eqn:Ematches; [by apply elem_of_nil in Hin |].
  pose proof (first_of_filter has_attendees (first :: more)) as Hfirst.
  destruct (List.filter has_attendees (first :: more)) as [| selected others].
  - exists first.
    assert (first ∈ List.filter (fun event => strategy event event_name) events) as Hf
      by (rewrite Ematches; apply list_elem_of_here).
    apply list_elem_of_In, filter_In in Hf as [Hf%list_elem_of_In Hsf].
    split_and!; [done | done | done |]. right. intros e' He' Hs'. apply Hfirst.
    rewrite <- Ematches. apply list_elem_of_In, filter_In.
    split; [by apply list_elem_of_In | done].
  - destruct Hfirst as (before & after & E & Ha & _).
    assert (selected ∈ List.filter (fun event => strategy event event_name) events) as Hsel.
    { rewrite Ematches, E. apply elem_of_app. right. apply list_elem_of_here. }
    apply list_elem_of_In, filter_In in Hsel as [Hsel%list_elem_of_In Hss].
    exists selected. split_and!; [done | done | done | by left].
Qed.

Lemma first_strategy_match_some (strategies : list (Event -> string -> bool))
    (events : list Event) (event_name : string) (strategy : Event -> string -> bool)
    (e : Event) :
  strategy ∈ strategies -> e ∈ events -> strategy e event_name = true ->
  exists selected,
    first_strategy_match strategies events event_name = Some selected /\ selected ∈ events.
Proof.
  intros Hin He Hs. induction strategies as [| s rest IH]; [by apply elem_of_nil in Hin |].
  destruct (List.filter (fun event => s event event_name) events) as [| first more] eqn:Em.
  - cbn [first_strategy_match]. rewrite Em. apply IH. apply elem_of_cons in Hin as [E | Hin]; [| done].
    subst s.
    assert (e ∈ List.filter (fun event => strategy event event_name) events) as Hf.
    { apply list_elem_of_In, filter_In. split; [by apply list_elem_of_In | done]. }
    rewrite Em in Hf. by apply elem_of_nil in Hf.
  - assert (first ∈ List.filter (fun event => s event event_name) events) as Hf
      by (rewrite Em; apply list_elem_of_here).
    apply list_elem_of_In, filter_In in Hf as [Hf%list_elem_of_In Hsf].
    destruct (first_strategy_match_first s rest events event_name first Hf Hsf)
      as (selected & E & Hsel & _).
    by exists selected.
Qed.

(** X14: an exact match of the name, up to case, wins over every partial
    match in [get_event_by_name]: when the calendar lists an event whose
    summary is the name, the event found has that summary too, and among
    such events one with attendees is preferred. *)
Theorem exact_name_match_wins (event_name : string) (events : list Event) (e : Event)
    (w : World) :
  calendar_list env (isoformat env (DT.add_days (-30) (utcnow env)) +:+ "Z")
    (isoformat env (DT.add_days 180 (utcnow env)) +:+ "Z") (Some 50) = Ok events ->
  e ∈ events ->
  Str.lower (default "" (ev_summary e)) = Str.lower event_name ->
  exists selected,
    (get_event_by_name env event_name w).1 = Ok (Some selected) /\
    selected ∈ events /\
    Str.lower (default "" (ev_summary selected)) = Str.lower event_name /\
    (has_attendees selected = true \/
     forall e', e' ∈ events ->
                Str.lower (default "" (ev_summary e')) = Str.lower event_name ->
                has_attendees e' = false).
Proof.
  intros Hlist He Hname. rewrite get_event_by_name_run. simpl.
  unfold found_event. rewrite Hlist. unfold search_strategies.
  edestruct (first_strategy_match_first
               (fun e name => String.eqb (summary_lower e) (Str.lower name)))
    as (selected & -> & Hsel & Hs & Ha); [exact He | by apply String.eqb_eq |].
  exists selected. split_and!; [done | done | by apply String.eqb_eq |].
  destruct Ha as [Ha | Ha]; [by left | right].
  intros e' He' Hn. apply Ha; [done |]. by apply String.eqb_eq.
Qed.

Lemma contains_empty (hay : string) : Str.contains "" hay = true.
Proof. by destruct hay. Qed.

(** X15: the third search strategy of [get_event_by_name] asks whether
    the summary of an event occurs in the name, and the empty text occurs
    in every name.  So while the calendar lists an event without a
    summary, or with an empty one, no name is ever reported as not found:
    every lookup selects some listed event. *)
Theorem untitled_event_matches_every_name (event_name : string) (events : list Event)
    (e : Event) (w : World) :
  calendar_list env (isoformat env (DT.add_days (-30) (utcnow env)) +:+ "Z")
    (isoformat env (DT.add_days 180 (utcnow env)) +:+ "Z") (Some 50) = Ok events ->
  e ∈ events ->
  default "" (ev_summary e) = "" ->
  exists selected,
    (get_event_by_name env event_name w).1 = Ok (Some selected) /\ selected ∈ events.
Proof.
  intros Hlist He Hsummary. rewrite get_event_by_name_run. simpl.
  unfold found_event. rewrite Hlist.
  edestruct (first_strategy_match_some search_strategies events event_name
               (fun e name => Str.contains (summary_lower e) (Str.lower name)))
    as (selected & -> & Hsel); [| exact He | | by exists selected].
  - unfold search_strategies. set_solver.
  - unfold summary_lower. rewrite Hsummary. apply contains_empty.
Qed.

(** X16: [check_participant_calendar_conflicts] never raises and issues
    one listing of the window and nothing else.  It answers [False] when
    the listing fails; otherwise it answers [True] exactly when some
    listed event has an attendee with the address of the participant, up
    to case. *)
Theorem conflict_check_outcomes (participant_email : string)
    (start_time end_time : datetime) (w : World) :
  exists answer,
    check_participant_calendar_conflicts env participant_email start_time end_time w =
      (Ok answer,
       logged w [CalendarList (isoformat env start_time) (isoformat env end_time) None]) /\
    match calendar_list env (isoformat env start_time) (isoformat env end_time) None with
    | Raise _ => answer = false
    | Ok events =>
        answer = true <->
        exists event attendees a,
          event ∈ events /\ ev_attendees event = Some attendees /\ a ∈ attendees /\
          Str.lower (default "" (at_email a)) = Str.lower participant_email
    end.
Proof.
  eexists. split; [apply check_participant_calendar_conflicts_run |].
  unfold has_conflict. destruct (calendar_list env _ _ _) as [events | err]; [| done].
  unfold participant_in_events. rewrite existsb_exists. split.
  - intros (event & Hev%list_elem_of_In & H).
    destruct (ev_attendees event) as [attendees |] eqn:Ea; [| done].
    apply bool_decide_eq_true in H. unfold attendee_emails_lower in H.
    apply list_elem_of_fmap in H as (a & E & Ha). by exists event, attendees, a.
  - intros (event & attendees & a & Hev & Ea & Ha & E). exists event.
    split; [by apply list_elem_of_In |]. rewrite Ea. apply bool_decide_eq_true.
    unfold attendee_emails_lower. rewrite <- E.
    by apply (list_elem_of_fmap_2 (fun a => Str.lower (default "" (at_email a)))).
Qed.

End Lookup.

Lemma exact_name_match_wins_witness :
  exists selected,
    (get_event_by_name Scenario.hr "hr REVIEW" Scenario.start).1 = Ok (Some selected) /\
    selected ∈ [Scenario.hr_review] /\
    Str.lower (default "" (ev_summary selected)) = Str.lower "hr REVIEW" /\
    (has_attendees selected = true \/
     forall e', e' ∈ [Scenario.hr_review] ->
                Str.lower (default "" (ev_summary e')) = Str.lower "hr REVIEW" ->
                has_attendees e' = false).
Proof.
  apply (exact_name_match_wins Scenario.hr "hr REVIEW" [Scenario.hr_review]
           Scenario.hr_review Scenario.start).
  - reflexivity.
  - apply list_elem_of_here.
  - reflexivity.
Defined.

Lemma untitled_event_matches_every_name_witness :
  exists selected,
    (get_event_by_name Untitled.calendar "Quarterly planning" Scenario.start).1 =
      Ok (Some selected) /\
    selected ∈ [Untitled.event].
Proof.
  apply (untitled_event_matches_every_name Untitled.calendar "Quarterly planning"
           [Untitled.event] Untitled.event Scenario.start).
  - reflexivity.
  - apply list_elem_of_here.
  - reflexivity.
Defined.

(** ** Mail triage *)

Lemma any_in_app (a b : list string) (text : string) :
  any_in (a ++ b) text = any_in a text || any_in b text.
Proof. unfold any_in. apply existsb_app. Qed.

(** X17: the labels of [categorize_email_fallback].  The urgency is
    [high], [medium] or [low]; the category is [spam], [meeting],
    [personal] or [information], never [task].  A mail is a meeting
    request exactly when its category is [meeting], and it requires
    action exactly when it is urgent or a meeting; a meeting is never of
    low urgency. *)
Theorem fallback_categories (email : EmailDict) :
  let analysis := categorize_email_fallback email in
  an_urgency analysis ∈ ["high"; "medium"; "low"] /\
  an_category analysis ∈ ["spam"; "meeting"; "personal"; "information"] /\
  (an_is_meeting_request analysis = true <-> an_category analysis = "meeting") /\
  (an_action_required analysis = true <->
   an_urgency analysis = "high" \/ an_category analysis = "meeting") /\
  (an_category analysis = "meeting" ->
   an_urgency analysis <> "low" /\ an_action_required analysis = true).
Proof.
  unfold categorize_email_fallback. rewrite any_in_app.
  set (text := Str.lower _).
  destruct (any_in high_urgency_keywords text), (any_in meeting_keywords text),
    (any_in task_keywords text), (any_in spam_keywords text),
    (any_in personal_domains (Str.lower (email_get email "sender" "")));
    cbn; (split; [set_solver |]); (split; [set_solver |]);
    (split; [by split |]); (split; [split; [intros; by (left + right) | by intros [? | ?]] |]);
    intros; by split.
Qed.

(** X18: in [categorize_email_fallback] the spam keywords are asked
    first: a mail whose text has one of them is filed as spam and is no
    meeting request, whatever else it says, and with no sign of urgency
    it requires no action. *)
Theorem spam_is_never_a_meeting_request (email : EmailDict) :
  any_in spam_keywords
    (Str.lower (Str.lower (email_get email "subject" "") +:+ " " +:+
                Str.lower (email_get email "body" "") +:+ " " +:+
                Str.lower (email_get email "snippet" ""))) = true ->
  let analysis := categorize_email_fallback email in
  an_category analysis = "spam" /\
  an_is_meeting_request analysis = false /\
  (an_action_required analysis = true <-> an_urgency analysis = "high").
Proof.
  intros Hspam. unfold categorize_email_fallback. rewrite Hspam.
  set (text := Str.lower _).
  destruct (any_in high_urgency_keywords text),
    (any_in (meeting_keywords ++ task_keywords) text);
    cbn; by split_and!.
Qed.

Section TriageFacts.

Variable categorize_email_with_ai : EmailDict -> res Analysis.
Variable summarize_email_with_ai : EmailDict -> res string.

Lemma insert_by_urgency_perm (x : ProcessedEmail) (l : list ProcessedEmail) :
  insert_by_urgency x l ≡ₚ x :: l.
Proof.
  induction l as [| y l IH]; simpl; [done |].
  destruct (_ <=? _)%nat; [done |]. rewrite IH. apply Permutation_swap.
Qed.

Lemma sort_by_urgency_perm (l : list ProcessedEmail) : sort_by_urgency l ≡ₚ l.
Proof.
  induction l as [| x l IH]; [done |].
  unfold sort_by_urgency in *. simpl. by rewrite insert_by_urgency_perm, IH.
Qed.

Lemma insert_by_urgency_sorted (x : ProcessedEmail) (l : list ProcessedEmail) :
  StronglySorted (fun a b => (urgency_rank (pe_ai_urgency a) <=
                              urgency_rank (pe_ai_urgency b))%nat) l ->
  StronglySorted (fun a b => (urgency_rank (pe_ai_urgency a) <=
                              urgency_rank (pe_ai_urgency b))%nat) (insert_by_urgency x l).
Proof.
  induction 1 as [| y l Hl IH Hy]; simpl.
  - by repeat constructor.
  - destruct (Nat.leb_spec (urgency_rank (pe_ai_urgency x)) (urgency_rank (pe_ai_urgency y)))
      as [Hle | Hlt].
    + constructor; [by constructor |].
      constructor; [done |].
      eapply Forall_impl; [exact Hy |]. simpl. intros z Hz. lia.
    + constructor; [done |].
      apply Forall_forall. intros z Hz. rewrite insert_by_urgency_perm in Hz.
      apply elem_of_cons in Hz as [-> | Hz]; [lia |].
      by eapply Forall_forall in Hy.
Qed.

Lemma sort_by_urgency_sorted (l : list ProcessedEmail) :
  StronglySorted (fun a b => (urgency_rank (pe_ai_urgency a) <=
                              urgency_rank (pe_ai_urgency b))%nat) (sort_by_urgency l).
Proof.
  induction l as [| x l IH]; [constructor |]. by apply insert_by_urgency_sorted.
Qed.

Lemma insert_by_urgency_stable (k : nat) (x : ProcessedEmail) (l : list ProcessedEmail) :
  List.filter (fun p => (urgency_rank (pe_ai_urgency p) =? k)%nat) (insert_by_urgency x l) =
  List.filter (fun p => (urgency_rank (pe_ai_urgency p) =? k)%nat) (x :: l).
Proof.
  induction l as [| y l IH]; [done |]. cbn [insert_by_urgency].
  destruct (Nat.leb_spec (urgency_rank (pe_ai_urgency x)) (urgency_rank (pe_ai_urgency y)))
    as [Hle | Hlt]; [done |].
  cbn [List.filter] in *. rewrite IH.
  destruct (Nat.eqb_spec (urgency_rank (pe_ai_urgency x)) k),
    (Nat.eqb_spec (urgency_rank (pe_ai_urgency y)) k); try done. lia.
Qed.

Lemma sort_by_urgency_stable (k : nat) (l : list ProcessedEmail) :
  List.filter (fun p => (urgency_rank (pe_ai_urgency p) =? k)%nat) (sort_by_urgency l) =
  List.filter (fun p => (urgency_rank (pe_ai_urgency p) =? k)%nat) l.
Proof.
  induction l as [| x l IH]; [done |].
  unfold sort_by_urgency in *. cbn [foldr]. rewrite insert_by_urgency_stable.
  cbn [List.filter]. by rewrite IH.
Qed.

(** X19: [process_emails_with_ai] loses no mail, even one whose analysis
    raises: the processed list is a rearrangement of one record per
    mail.  It is sorted by urgency, [high] before [medium] before [low]
    with any other label ranked as [medium], and mails of equal rank keep
    their order of arrival.  The meeting requests are the flagged records,
    in order of arrival, and each of them is in the processed list. *)
Theorem processed_emails_are_ranked (emails : list EmailDict) :
  let records := map (process_email categorize_email_with_ai summarize_email_with_ai) emails in
  let '(processed_emails, meeting_requests) :=
    process_emails_with_ai categorize_email_with_ai summarize_email_with_ai emails in
  processed_emails ≡ₚ records /\
  length processed_emails = length emails /\
  StronglySorted (fun a b => (urgency_rank (pe_ai_urgency a) <=
                              urgency_rank (pe_ai_urgency b))%nat) processed_emails /\
  (forall k,
     List.filter (fun p => (urgency_rank (pe_ai_urgency p) =? k)%nat) processed_emails =
     List.filter (fun p => (urgency_rank (pe_ai_urgency p) =? k)%nat) records) /\
  meeting_requests = List.filter pe_is_meeting_request records /\
  (forall p, p ∈ meeting_requests -> p ∈ processed_emails).
Proof.
  unfold process_emails_with_ai. cbn zeta.
  set (records := map _ emails). split_and!.
  - apply sort_by_urgency_perm.
  - rewrite (sort_by_urgency_perm records). subst records. by rewrite length_map.
  - apply sort_by_urgency_sorted.
  - intros k. apply sort_by_urgency_stable.
  - done.
  - intros p Hp. rewrite (sort_by_urgency_perm records).
    by apply list_elem_of_In, filter_In in Hp as [Hp%list_elem_of_In _].
Qed.

End TriageFacts.

Lemma spam_is_never_a_meeting_request_witness :
  let analysis :=
    categorize_email_fallback {[ "subject" := "Are you free for a meeting tomorrow?" ]} in
  an_category analysis = "spam" /\
  an_is_meeting_request analysis = false /\
  (an_action_required analysis = true <-> an_urgency analysis = "high").
Proof.
  apply (spam_is_never_a_meeting_request
           {[ "subject" := "Are you free for a meeting tomorrow?" ]}).
  vm_compute. reflexivity.
Defined.

(** ** The configuration route *)

Section EmailConfigFacts.

Variable Json : Type.
Variable int : Json -> res Z.

(** X20: [email_config] keeps the configuration within its bounds,
    whatever the request: the default batch size stays between 10 and the
    maximum batch size, the refresh interval stays at 60 seconds or more,
    and the maximum batch size and the cache duration are never written.
    The configuration the application starts with is within these
    bounds. *)
Theorem email_config_keeps_bounds (method : Method) (data : res (gmap string Json))
    (config : EmailConfig) :
  10 <= default_batch_size config <= max_batch_size config ->
  60 <= refresh_interval config ->
  let config' := (email_config Json int method data config).2 in
  10 <= default_batch_size config' <= max_batch_size config' /\
  60 <= refresh_interval config' /\
  max_batch_size config' = max_batch_size config /\
  cache_duration config' = cache_duration config.
Proof.
  intros Hb Hr. unfold email_config.
  destruct method; [done |]. destruct data as [data | e]; [| done].
  destruct (data !! "default_batch_size") as [v |]; simpl.
  - destruct (int v) as [n | e]; simpl; [| done].
    destruct (data !! "refresh_interval") as [v' |]; simpl.
    + destruct (int v') as [n' | e]; simpl; lia.
    + lia.
  - destruct (data !! "refresh_interval") as [v' |]; simpl; [| done].
    destruct (int v') as [n' | e]; simpl; [lia | done].
Qed.

(** X21: a POST to [email_config] is not all or nothing.  When the batch
    size of the request converts to an integer and its refresh interval
    does not, the answer is the failure with status 400, and yet the
    default batch size has been set, clamped to the range from 10 to the
    maximum batch size. *)
Theorem email_config_rejected_request_still_writes (data : gmap string Json)
    (config : EmailConfig) (v v' : Json) (n : Z) (e : exn) :
  data !! "default_batch_size" = Some v -> int v = Ok n ->
  data !! "refresh_interval" = Some v' -> int v' = Raise e ->
  email_config Json int POST (Ok data) config =
  (mkConfigResponse 400 false None (Some (exn_str e)),
   mkEmailConfig (Z.max 10 (Z.min n (max_batch_size config))) (max_batch_size config)
     (refresh_interval config) (cache_duration config)).
Proof.
  intros Hv Hn Hv' He. unfold email_config. rewrite Hv, Hv'. simpl.
  rewrite Hn. simpl. by rewrite He.
Qed.

End EmailConfigFacts.

Lemma email_config_keeps_bounds_witness :
  let config' :=
    (email_config Z Ok POST (Ok {[ "default_batch_size" := 5000; "refresh_interval" := 1 ]})
       EMAIL_CONFIG).2 in
  10 <= default_batch_size config' <= max_batch_size config' /\
  60 <= refresh_interval config' /\
  max_batch_size config' = max_batch_size EMAIL_CONFIG /\
  cache_duration config' = cache_duration EMAIL_CONFIG.
Proof.
  apply (email_config_keeps_bounds Z Ok POST
           (Ok {[ "default_batch_size" := 5000; "refresh_interval" := 1 ]}) EMAIL_CONFIG).
  - simpl. lia.
  - simpl. lia.
Defined.

Lemma email_config_rejected_request_still_writes_witness :
  email_config (option Z)
    (fun v => match v with Some n => Ok n | None => Raise (Error "int() argument") end)
    POST (Ok {[ "default_batch_size" := Some 50; "refresh_interval" := None ]})
    EMAIL_CONFIG =
  (mkConfigResponse 400 false None (Some (exn_str (Error "int() argument"))),
   mkEmailConfig (Z.max 10 (Z.min 50 (max_batch_size EMAIL_CONFIG)))
     (max_batch_size EMAIL_CONFIG) (refresh_interval EMAIL_CONFIG)
     (cache_duration EMAIL_CONFIG)).
Proof.
  apply (email_config_rejected_request_still_writes (option Z)
           (fun v => match v with Some n => Ok n | None => Raise (Error "int() argument") end)
           {[ "default_batch_size" := Some 50; "refresh_interval" := None ]}
           EMAIL_CONFIG (Some 50) None 50 (Error "int() argument")); reflexivity.
Defined.

(** ** Validators *)

Section Validators.

Variable env : Env.

Lemma field_missing_truthy (d : FieldDict) (field : string) :
  field_missing d field = negb (truthy_opt (dict_get d field)).
Proof. unfold field_missing, dict_get. by destruct (d !! field). Qed.

(** X22: [validate_update_request] returns no error exactly when the
    event name and the new time are present and truthy and the new date
    is a truthy text that [dateparser], asked without a preference for
    the future, reads as today or a later day.  A request it accepts is
    complete for both versions of [get_missing_update_field_prompt]. *)
Theorem validate_update_request_accepts (data : FieldDict) :
  (validate_update_request env data = [] <->
   truthy_opt (dict_get data "event_name") = true /\
   truthy_opt (dict_get data "new_date") = true /\
   truthy_opt (dict_get data "new_time") = true /\
   exists parsed,
     dateparser_parse env (dict_item data "new_date") false = Ok (Some parsed) /\
     Date.leb (DT.date_of (now env)) (DT.date_of parsed) = true) /\
  (validate_update_request env data = [] ->
   get_missing_update_field_prompt data = None /\
   internal_get_missing_update_field_prompt data = None).
Proof.
  assert (validate_update_request env data = [] <->
          truthy_opt (dict_get data "event_name") = true /\
          truthy_opt (dict_get data "new_date") = true /\
          truthy_opt (dict_get data "new_time") = true /\
          exists parsed,
            dateparser_parse env (dict_item data "new_date") false = Ok (Some parsed) /\
            Date.leb (DT.date_of (now env)) (DT.date_of parsed) = true) as Hiff.
  { unfold validate_update_request.
    destruct (truthy_opt (dict_get data "event_name")),
      (truthy_opt (dict_get data "new_date")),
      (truthy_opt (dict_get data "new_time")); simpl.
    1: { destruct (dateparser_parse env _ false) as [parsed | e]; simpl.
         - destruct (bool_decide (is_Some (future_date env parsed))) eqn:Ef.
           + apply bool_decide_eq_true in Ef as [t Ht].
             apply future_date_Some in Ht as [-> Hle]. split; [eauto 10 | done].
           + apply bool_decide_eq_false in Ef. split; [done |].
             intros (_ & _ & _ & p & [= ->] & Hle). destruct Ef. exists p.
             by apply future_date_Some.
         - split; [done |]. by intros (_ & _ & _ & p & ? & _). }
    all: split; [repeat case_match; done | by intros (? & ? & ? & ?)]. }
  split; [exact Hiff |]. intros (Hn & Hd & Ht & _)%Hiff.
  unfold get_missing_update_field_prompt, internal_get_missing_update_field_prompt,
    UPDATE_REQUIRED_FIELDS.
  simpl. rewrite !field_missing_truthy, Hn, Hd, Ht. done.
Qed.

(** X23: through [/handle_input] an address is saved under the key
    [email], which the Schedule record does not have.  A valid address is
    stored and the awaited field is dropped, yet
    [get_missing_field_prompt] asks for the very field it asked for
    before; an invalid address changes nothing.  No request is issued
    either way. *)
Theorem handle_input_email_fills_no_required_field (user_input : string) (w : World) :
  let data := default ∅ (s_data (session w)) in
  if validate_email env (Str.strip user_input)
  then
    exists data',
      handle_input env user_input "email" w =
        (Ok EmailSaved,
         mkWorld (set_waiting_for None (set_data (Some data') (session w))) (trace w)) /\
      data' = <["email" := Some (Str.strip user_input)]> data /\
      get_missing_field_prompt data' = get_missing_field_prompt data
  else handle_input env user_input "email" w = (Ok InvalidEmailAddress, w).
Proof.
  intros data. unfold handle_input, bind at 1, get_session. simpl.
  destruct (validate_email env _); [| done].
  eexists. split; [reflexivity |]. split; [done |].
  unfold get_missing_field_prompt, REQUIRED_FIELDS, field_missing. simpl.
  by rewrite !lookup_insert_ne.
Qed.

End Validators.

(** ** Deleting an event *)

Section Deletion.

Variable env : Env.

Lemma notify_cancellation_recipients (user_email event_summary reason : string)
    (attendees : list Attendee) (w : World) :
  exists notified tr,
    notify_cancellation env user_email event_summary reason attendees w =
      (Ok notified, logged w tr) /\
    Forall (fun c => exists a,
              a ∈ attendees /\ is_other_attendee user_email a = true /\
              c = GmailSend (default "" (at_email a))
                    (CancellationNotice event_summary reason)) tr.
Proof.
  unfold notify_cancellation. generalize false as acc. revert w.
  induction attendees as [| a attendees IH]; intros w acc; simpl.
  - exists acc, []. by rewrite logged_nil.
  - unfold bind at 1. destruct (is_other_attendee user_email a) eqn:Eo.
    + unfold bind at 1. rewrite send_meeting_cancellation_email_run. simpl.
      destruct (IH (logged w [GmailSend (default "" (at_email a))
                                (CancellationNotice event_summary reason)])
                   (if sent env (default "" (at_email a))
                             (CancellationNotice event_summary reason)
                    then true else acc)) as (b & tr & E & F).
      exists b, (GmailSend (default "" (at_email a))
                   (CancellationNotice event_summary reason) :: tr).
      rewrite E, logged_logged. split; [done |]. constructor.
      * exists a. split; [apply list_elem_of_here | done].
      * eapply Forall_impl; [exact F |]. intros c (a' & Ha' & H). exists a'.
        split; [by apply list_elem_of_further | done].
    + simpl. destruct (IH w acc) as (b & tr & E & F). exists b, tr. split; [done |].
      eapply Forall_impl; [exact F |]. intros c (a' & Ha' & H). exists a'.
      split; [by apply list_elem_of_further | done].
Qed.

(** X24: whom [delete_event_with_sync] writes to, and what it changes.
    For a name that resolves to an event it issues the delete call for
    that event and no other calendar change; every mail it sends is the
    cancellation notice for that event, to an attendee of the event whose
    address is not empty and differs, up to case, from the address of the
    authenticated user.  In particular the user gets no notice, and when
    the address of the user is unknown the assistant writes to nobody,
    while the event is deleted all the same. *)
Theorem deletion_notifies_only_other_attendees (event_name : string) (event : Event)
    (w : World) :
  found_event env event_name = Some event ->
  exists r tr w',
    delete_event_with_sync env event_name w = (Ok r, w') /\
    trace w' = trace w ++ tr /\
    CalendarDelete (ev_id event) ∈ tr /\
    Forall (fun c =>
              (is_calendar_mutation c = true -> c = CalendarDelete (ev_id event)) /\
              forall to mail,
                c = GmailSend to mail ->
                exists user a attendees,
                  user_email_of env = Some user /\ user <> "" /\
                  ev_attendees event = Some attendees /\ a ∈ attendees /\
                  at_email a = Some to /\ to <> "" /\
                  Str.lower to <> Str.lower user /\
                  mail = CancellationNotice (default event_name (ev_summary event))
                           "Meeting cancelled by organizer") tr.
Proof.
  intros Hfound.
  destruct (delete_event_with_sync env event_name w) as [r w'] eqn:Erun.
  unfold delete_event_with_sync, try_catch at 1, bind at 1 in Erun.
  rewrite get_event_by_name_run, Hfound in Erun.
  unfold bind at 1 in Erun. rewrite get_authenticated_user_email_run in Erun.
  unfold bind at 1 in Erun.
  set (Q := fun c : Call =>
         (is_calendar_mutation c = true -> c = CalendarDelete (ev_id event)) /\
         forall to mail,
           c = GmailSend to mail ->
           exists user a attendees,
             user_email_of env = Some user /\ user <> "" /\
             ev_attendees event = Some attendees /\ a ∈ attendees /\
             at_email a = Some to /\ to <> "" /\
             Str.lower to <> Str.lower user /\
             mail = CancellationNotice (default event_name (ev_summary event))
                      "Meeting cancelled by organizer").
  match type of Erun with
  | context [(if ?c then notify_cancellation _ ?u ?s ?re ?a else ret false) ?w0] =>
      assert (exists b tr, (if c then notify_cancellation env u s re a else ret false) w0
                           = (Ok b, logged w0 tr) /\ Forall Q tr) as (b & tr & E & Htr)
  end.
  { destruct (_ && _) eqn:Eguard.
    - apply andb_true_iff in Eguard as [_ Huser].
      destruct (user_email_of env) as [user |] eqn:Eu; [| done]. simpl in Huser.
      match goal with
      | |- context [notify_cancellation _ ?u ?s ?re ?a ?w0] =>
          destruct (notify_cancellation_recipients u s re a w0) as (b & tr & E & F)
      end.
      exists b, tr. split; [exact E |].
      eapply Forall_impl; [exact F |]. intros c (a & Ha & Hother & ->).
      split; [done |]. intros to mail [= <- <-].
      unfold is_other_attendee in Hother. apply andb_true_iff in Hother as [Ht Hne].
      destruct (at_email a) as [address |] eqn:Ea; [| done]. simpl in *.
      destruct (ev_attendees event) as [attendees |] eqn:Eatt;
        [| by apply elem_of_nil in Ha].
      exists user, a, attendees. split_and!; try done.
      + intros ->. done.
      + intros ->. done.
      + intros Heq. rewrite Heq, String.eqb_refl in Hne. done.
    - exists false, []. rewrite logged_nil. by split. }
  rewrite E in Erun. clear E.
  unfold try_catch, bind, request, forget_meeting, modify_session, ret, logged in Erun.
  simpl in Erun.
  assert (Q GmailGetProfile) as Qprofile by (split; [done | by intros]).
  assert (forall a b c, Q (CalendarList a b c)) as Qlist by (intros; split; [done | by intros]).
  assert (Q (CalendarDelete (ev_id event))) as Qdelete by (split; [done | by intros]).
  assert (Q (CalendarGet (ev_id event))) as Qget by (split; [done | by intros]).
  assert (Forall Q (if services_gmail env then [GmailGetProfile] else [])) as Hprofile
    by (destruct (services_gmail env); by repeat constructor).
  destruct (calendar_delete env (ev_id event)) as [[] | e] eqn:Edelete; simpl in Erun.
  - destruct (calendar_get env (ev_id event)) as [check | e] eqn:Eget; simpl in Erun.
    + destruct (negb _); simpl in Erun; injection Erun as <- <-; simpl;
        eexists _, _, _; (split; [reflexivity |]); rewrite <- ?app_assoc;
        (split; [reflexivity |]); (split; [set_solver |]);
        repeat (apply Forall_app; split); repeat constructor; done.
    + injection Erun as <- <-; simpl.
      eexists _, _, _. split; [reflexivity |]. rewrite <- ?app_assoc.
      split; [reflexivity |]. split; [set_solver |].
      repeat (apply Forall_app; split); repeat constructor; done.
  - destruct (Str.contains "404" (exn_str e));
      [| destruct (Str.contains "403" (exn_str e));
         [| destruct (Str.contains "401" (exn_str e))]];
      injection Erun as <- <-; simpl;
      eexists _, _, _; (split; [reflexivity |]); rewrite <- ?app_assoc;
      (split; [reflexivity |]); (split; [set_solver |]);
      repeat (apply Forall_app; split); repeat constructor; done.
Qed.

End Deletion.

Lemma deletion_notifies_only_other_attendees_witness :
  exists r tr w',
    delete_event_with_sync Scenario.hr "HR review" Scenario.start = (Ok r, w') /\
    trace w' = trace Scenario.start ++ tr /\
    CalendarDelete (ev_id Scenario.hr_review) ∈ tr /\
    Forall (fun c =>
              (is_calendar_mutation c = true -> c = CalendarDelete (ev_id Scenario.hr_review)) /\
              forall to mail,
                c = GmailSend to mail ->
                exists user a attendees,
                  user_email_of Scenario.hr = Some user /\ user <> "" /\
                  ev_attendees Scenario.hr_review = Some attendees /\ a ∈ attendees /\
                  at_email a = Some to /\ to <> "" /\
                  Str.lower to <> Str.lower user /\
                  mail = CancellationNotice
                           (default "HR review" (ev_summary Scenario.hr_review))
                           "Meeting cancelled by organizer") tr.
Proof.
  apply (deletion_notifies_only_other_attendees Scenario.hr "HR review" Scenario.hr_review
           Scenario.start).
  reflexivity.
Defined.

(** ** Choosing an event to delete by its number *)

Section DeleteByNumber.

Variable env : Env.

(** X25: in the Delete flow a reply to the listing is first stored as
    the event name and only then read as a number.  A number that is out
    of range is answered with the request to try again, but by then it
    has become the event name of the record and no field is awaited any
    more; the listing stays in the session.  A following message that is
    not a number is therefore not read as a name: the executor runs on
    the record that names the number. *)
Theorem invalid_event_number_becomes_the_event_name (user_input next_input : string)
    (data : FieldDict) (deletable_events : list Deletable) (w : World) :
  s_data (session w) = Some data ->
  s_waiting_for (session w) = Some "event_name" ->
  s_deletable_events (session w) = Some deletable_events ->
  Str.isdigit user_input = true ->
  Str.strip user_input = user_input ->
  Str.int user_input < 1 \/ Z.of_nat (length deletable_events) < Str.int user_input ->
  Str.isdigit next_input = false ->
  let data' := <["event_name" := Some user_input]> data in
  let w' := mkWorld (set_waiting_for None (set_data (Some data') (session w))) (trace w) in
  delete_flow env user_input w = (Ok ReplyInvalidEventNumber, w') /\
  delete_flow env next_input w' = delete_execute env data' w'.
Proof.
  intros Hdata Hwait Hlist Hdigit Hstrip Hrange Hnext data' w'.
  assert (Str.truthy user_input = true) as Htruthy.
  { unfold Str.isdigit in Hdigit. apply andb_true_iff in Hdigit as [H _].
    by unfold Str.truthy. }
  assert (field_missing data' "event_name" = false) as Hpresent.
  { unfold field_missing, data'. rewrite lookup_insert_eq. simpl. by rewrite Htruthy. }
  split.
  - unfold delete_flow, bind at 1, session_data, bind at 1, get_session.
    rewrite Hdata. unfold ret at 1, bind at 1. rewrite Hwait.
    rewrite bool_decide_eq_true_2 by done. rewrite Hstrip, Htruthy.
    unfold bind at 1, bind at 1, modify_session, ret at 1. fold data'.
    rewrite Hpresent. unfold bind at 1, select_by_number, bind at 1. simpl.
    rewrite Hlist, Hdigit.
    destruct (_ && _) eqn:Ein; [| done].
    apply andb_true_iff in Ein as [H1%Z.leb_le H2%Z.ltb_lt]. lia.
  - unfold delete_flow, bind at 1, session_data, bind at 1, get_session. subst w'. simpl.
    unfold ret at 1, bind at 1. simpl.
    unfold bind at 1, ret at 1. rewrite Hpresent.
    unfold bind at 1, select_by_number, bind at 1. simpl.
    destruct (s_deletable_events _); [| done]. by rewrite Hnext.
Qed.

End DeleteByNumber.

Lemma invalid_event_number_becomes_the_event_name_witness :
  let data' : FieldDict := <["event_name" := Some "9"]> ∅ in
  let w' := mkWorld (set_waiting_for None (set_data (Some data') (session Listing.start)))
              (trace Listing.start) in
  delete_flow Scenario.hr "9" Listing.start = (Ok ReplyInvalidEventNumber, w') /\
  delete_flow Scenario.hr "HR review" w' = delete_execute Scenario.hr data' w'.
Proof.
  apply (invalid_event_number_becomes_the_event_name Scenario.hr "9" "HR review" ∅
           Listing.shown Listing.start); try reflexivity.
  right. vm_compute. reflexivity.
Defined.
